(** * Connection tracking and per-connection packet arbitration

    A shallow embedding of [network/connection.go]: the connection record,
    the flow correlator ([NewIncompleteConnection],
    [NewConnectionFromDNSRequest], [GatherConnectionInfo]), the verdict
    setters, the packet queue ([SetFirewallHandler], [StopFirewallHandler],
    [HandlePacket]) and persistence ([Save], [delete]).

    Go pointers that may be nil are [option]s, [int]/[int64]/[uint16] values
    are [Z], the buffered channel is a record holding its capacity and its
    buffer, and every call into another package is either a field of the
    [Collaborators] class or an entry of the effect trace. *)

From Stdlib Require Import ZArith String List Bool Lia Permutation.
Import ListNotations.

#[local] Open Scope string_scope.
#[local] Open Scope list_scope.
#[local] Open Scope Z_scope.

(** ** Machine integers *)

(** [int64] arithmetic wraps around; [wrap64] brings a mathematical integer
    back into the signed 64-bit range. *)
Definition min_int64 : Z := - 2 ^ 63.
Definition max_int64 : Z := 2 ^ 63 - 1.

Definition wrap64 (z : Z) : Z := (z + 2 ^ 63) mod 2 ^ 64 - 2 ^ 63.

Definition in_int64 (z : Z) : Prop := min_int64 <= z <= max_int64.

(** [net.IP] is a byte slice. *)
Definition IP : Type := list Byte.byte.

(** ** Types of the collaborating packages

    Only the fields that [connection.go] reads or writes are kept. *)

Module netutils.

Inductive IPScope : Type :=
| Invalid | Undefined | HostLocal | LinkLocal | SiteLocal
| Global | LocalMulticast | GlobalMulticast.

(** [IPScope.IsLocalhost]. *)
Definition IsLocalhost (s : IPScope) : bool :=
  match s with HostLocal => true | _ => false end.

End netutils.

Module packet.

(** [packet.Info]; [SeenAt] is kept as its [Unix()] reading. *)
Record Info : Type := mkInfo {
  Inbound : bool;
  Version : Z;
  Protocol : Z;
  Src : IP;
  SrcPort : Z;
  Dst : IP;
  DstPort : Z;
  PID : Z;
  SeenAt : Z
}.

Definition set_PID (v : Z) (i : Info) : Info :=
  mkInfo (Inbound i) (Version i) (Protocol i) (Src i) (SrcPort i) (Dst i)
    (DstPort i) v (SeenAt i).

Definition IPv4 : Z := 4.
Definition IPv6 : Z := 6.
Definition UDP : Z := 17.

(** The [packet.Packet] interface, as the values its getters return. *)
Record Packet : Type := mkPacket {
  GetInfo : Info;               (* pkt.Info() *)
  InfoOnly : bool;
  ExpectInfo : bool;
  GetConnectionID : string
}.

End packet.

Module profile.

Record Profile : Type := mkProfile {
  ID : string;
  Name : string;
  Source : string;
  Internal : bool
}.

Record LayeredProfile : Type := mkLayeredProfile {
  localProfile : option Profile;
  revisionCnt : Z;
  enableHistory : bool;
  profileSource : string -> string    (* GetProfileSource(key) *)
}.

(** The methods below are called by [connection.go] on receivers that may
    be nil ([proc.Profile().LocalProfile()] is followed by a nil test,
    [conn.process.Profile()] is evaluated before [conn.process] is tested),
    so they are nil-safe: a nil receiver gives nil, or zero. *)
Definition LocalProfile (lp : option LayeredProfile) : option Profile :=
  match lp with Some l => localProfile l | None => None end.

Definition RevisionCnt (lp : option LayeredProfile) : Z :=
  match lp with Some l => revisionCnt l | None => 0 end.

End profile.

Module process.

Record Process : Type := mkProcess {
  Name : string;
  Path : string;
  CmdLine : string;
  Pid : Z;
  CreatedAt : Z;
  layered : option profile.LayeredProfile
}.

(** The method [Profile()] of a process pointer, nil-safe like the profile getters. *)
Definition Profile (p : option Process) : option profile.LayeredProfile :=
  match p with Some q => layered q | None => None end.

End process.

Module intel.

Record Entity : Type := mkEntity {
  IP_ : IP;
  Protocol : Z;
  Port : Z;
  Domain : string;
  CNAME : list string;
  IPScope : netutils.IPScope
}.

Definition set_Domain (d : string) (e : Entity) : Entity :=
  mkEntity (IP_ e) (Protocol e) (Port e) d (CNAME e) (IPScope e).

Definition set_CNAME (l : list string) (e : Entity) : Entity :=
  mkEntity (IP_ e) (Protocol e) (Port e) (Domain e) l (IPScope e).

End intel.

Module resolver.

Record ResolverInfo : Type := mkResolverInfo { ResolverName : string }.

Record DNSRequestContext : Type := mkDNSRequestContext { RequestDomain : string }.

(** What [ipinfo.MostRecentDomain()] returns. *)
Record ResolvedDomain : Type := mkResolvedDomain {
  Domain : string;
  CNAMEs : list string;
  DNSRequestContext_ : option DNSRequestContext;
  Resolver : option ResolverInfo
}.

Record IPInfo : Type := mkIPInfo { MostRecentDomain : option ResolvedDomain }.

End resolver.

Module netenv.

Record CaptivePortal : Type := mkCaptivePortal {
  PortalIP : IP;
  PortalDomain : string
}.

End netenv.

Module access.

Inductive Feature : Type := FeatureHistory | FeatureBWVis.

(** The errors of [access.GetUser] that the code tells apart. *)
Inductive Err : Type := ErrNotLoggedIn | ErrOther (msg : string).

Definition is_ErrNotLoggedIn (e : Err) : bool :=
  match e with ErrNotLoggedIn => true | ErrOther _ => false end.

Record User : Type := mkUser { features : Feature -> bool }.

End access.

(** ** Types of the [network] package *)

Inductive ConnectionType : Type := Undefined | IPConnection | DNSRequest.

(** Modelled from the spec: the [Verdict] enumeration is declared outside the
    file at hand; its members and their severity order are the spec's
    "Undecided < Accept < Trust < RerouteToNS < RerouteToTunnel < Block < Drop
    < Failed". *)
Inductive Verdict : Type :=
| VerdictUndecided | VerdictAccept | VerdictTrust | VerdictRerouteToNameserver
| VerdictRerouteToTunnel | VerdictBlock | VerdictDrop | VerdictFailed.

Definition severity (v : Verdict) : nat :=
  match v with
  | VerdictUndecided => 0 | VerdictAccept => 1 | VerdictTrust => 2
  | VerdictRerouteToNameserver => 3 | VerdictRerouteToTunnel => 4
  | VerdictBlock => 5 | VerdictDrop => 6 | VerdictFailed => 7
  end%nat.

Definition worse (a b : Verdict) : Verdict :=
  if (severity a <? severity b)%nat then b else a.

(** The maximum of a list of verdicts, starting from [init]. *)
Definition worst_of (init : Verdict) (vs : list Verdict) : Verdict :=
  fold_left worse vs init.

(** The anonymous struct of the field [Verdict]. *)
Record VerdictTriple : Type := mkVerdictTriple {
  Worst : Verdict;
  Active : Verdict;
  Firewall : Verdict
}.

Module ProcessContext.

Record t : Type := mk {
  ProcessName : string;
  ProfileName : string;
  BinaryPath : string;
  CmdLine : string;
  PID : Z;
  CreatedAt : Z;
  Profile : string;
  Source : string
}.

Definition zero : t := mk "" "" "" "" 0 0 "" "".

End ProcessContext.

Module Reason.

(** [Context] is an [interface{}]; [None] is nil. *)
Record t : Type := mk {
  Msg : string;
  OptionKey : string;
  Profile : string;
  Context : option string
}.

Definition set_Msg (v : string) (r : t) : t :=
  mk v (OptionKey r) (Profile r) (Context r).

Definition set_OptionKey (v : string) (r : t) : t :=
  mk (Msg r) v (Profile r) (Context r).

Definition set_Profile (v : string) (r : t) : t :=
  mk (Msg r) (OptionKey r) v (Context r).

Definition set_Context (v : option string) (r : t) : t :=
  mk (Msg r) (OptionKey r) (Profile r) v.

Definition zero : t := mk "" "" "" None.

End Reason.

(** [record.Meta] of the database library, reduced to its timestamps. *)
Record Meta : Type := mkMeta {
  Created : Z;
  Modified : Z;
  Deleted : Z
}.

(** A buffered channel of packets: [make(chan packet.Packet, n)]. *)
Record Chan : Type := mkChan {
  chan_cap : nat;
  chan_buf : list packet.Packet;
  chan_closed : bool
}.

(** A [FirewallHandler] is a function over connections; the record stores
    which one is installed. *)
Definition FirewallHandler : Type := nat.

(** The [Connection] struct, field by field.  The two mutexes have no
    counterpart (the functions below are run one at a time), and the opaque
    handles [TunnelOpts], [TunnelContext] and [inspectorData], which no
    function below reads or writes, are left out. *)
Record Connection : Type := mkConnection {
  key : option string;  (* record.Base: the database key, None while no key is set *)
  meta : option Meta;  (* record.Base: the record metadata, nil until UpdateMeta creates it *)
  ID : string;
  Type_ : ConnectionType;  (* field Type of the source *)
  External : bool;
  Scope : string;
  IPVersion : Z;
  Inbound : bool;
  IPProtocol : Z;
  LocalIP : IP;
  LocalIPScope : netutils.IPScope;
  LocalPort : Z;
  PID : Z;
  Entity : option intel.Entity;
  Resolver : option resolver.ResolverInfo;
  Verdict_ : VerdictTriple;  (* field Verdict of the source *)
  Reason : Reason.t;
  Started : Z;
  Ended : Z;
  VerdictPermanent : bool;
  Inspecting : bool;
  Tunneled : bool;
  Encrypted : bool;
  ProcessContext : ProcessContext.t;
  DNSContext : option resolver.DNSRequestContext;
  HistoryEnabled : bool;
  BandwidthEnabled : bool;
  BytesReceived : Z;
  BytesSent : Z;
  pktQueue : option Chan;  (* nil is None *)
  pktQueueActive : bool;
  dataComplete : bool;  (* the atomic flag; every constructor allocates it *)
  Internal : bool;
  process : option process.Process;
  firewallHandler : option FirewallHandler;
  saveWhenFinished : bool;
  activeInspectors : list bool;
  ProfileRevisionCounter : Z;
  addedToMetrics : bool
}.

(** Field assignments [conn.F = v], one per field. *)
Definition set_key (v : option string) (c : Connection) : Connection :=
  mkConnection v (c.(meta)) (c.(ID)) (c.(Type_)) (c.(External)) (c.(Scope))
    (c.(IPVersion)) (c.(Inbound)) (c.(IPProtocol)) (c.(LocalIP))
    (c.(LocalIPScope)) (c.(LocalPort)) (c.(PID)) (c.(Entity)) (c.(Resolver))
    (c.(Verdict_)) (c.(Reason)) (c.(Started)) (c.(Ended))
    (c.(VerdictPermanent)) (c.(Inspecting)) (c.(Tunneled)) (c.(Encrypted))
    (c.(ProcessContext)) (c.(DNSContext)) (c.(HistoryEnabled))
    (c.(BandwidthEnabled)) (c.(BytesReceived)) (c.(BytesSent)) (c.(pktQueue))
    (c.(pktQueueActive)) (c.(dataComplete)) (c.(Internal)) (c.(process))
    (c.(firewallHandler)) (c.(saveWhenFinished)) (c.(activeInspectors))
    (c.(ProfileRevisionCounter)) (c.(addedToMetrics)).

Definition set_meta (v : option Meta) (c : Connection) : Connection :=
  mkConnection (c.(key)) v (c.(ID)) (c.(Type_)) (c.(External)) (c.(Scope))
    (c.(IPVersion)) (c.(Inbound)) (c.(IPProtocol)) (c.(LocalIP))
    (c.(LocalIPScope)) (c.(LocalPort)) (c.(PID)) (c.(Entity)) (c.(Resolver))
    (c.(Verdict_)) (c.(Reason)) (c.(Started)) (c.(Ended))
    (c.(VerdictPermanent)) (c.(Inspecting)) (c.(Tunneled)) (c.(Encrypted))
    (c.(ProcessContext)) (c.(DNSContext)) (c.(HistoryEnabled))
    (c.(BandwidthEnabled)) (c.(BytesReceived)) (c.(BytesSent)) (c.(pktQueue))
    (c.(pktQueueActive)) (c.(dataComplete)) (c.(Internal)) (c.(process))
    (c.(firewallHandler)) (c.(saveWhenFinished)) (c.(activeInspectors))
    (c.(ProfileRevisionCounter)) (c.(addedToMetrics)).

Definition set_ID (v : string) (c : Connection) : Connection :=
  mkConnection (c.(key)) (c.(meta)) v (c.(Type_)) (c.(External)) (c.(Scope))
    (c.(IPVersion)) (c.(Inbound)) (c.(IPProtocol)) (c.(LocalIP))
    (c.(LocalIPScope)) (c.(LocalPort)) (c.(PID)) (c.(Entity)) (c.(Resolver))
    (c.(Verdict_)) (c.(Reason)) (c.(Started)) (c.(Ended))
    (c.(VerdictPermanent)) (c.(Inspecting)) (c.(Tunneled)) (c.(Encrypted))
    (c.(ProcessContext)) (c.(DNSContext)) (c.(HistoryEnabled))
    (c.(BandwidthEnabled)) (c.(BytesReceived)) (c.(BytesSent)) (c.(pktQueue))
    (c.(pktQueueActive)) (c.(dataComplete)) (c.(Internal)) (c.(process))
    (c.(firewallHandler)) (c.(saveWhenFinished)) (c.(activeInspectors))
    (c.(ProfileRevisionCounter)) (c.(addedToMetrics)).

Definition set_Type_ (v : ConnectionType) (c : Connection) : Connection :=
  mkConnection (c.(key)) (c.(meta)) (c.(ID)) v (c.(External)) (c.(Scope))
    (c.(IPVersion)) (c.(Inbound)) (c.(IPProtocol)) (c.(LocalIP))
    (c.(LocalIPScope)) (c.(LocalPort)) (c.(PID)) (c.(Entity)) (c.(Resolver))
    (c.(Verdict_)) (c.(Reason)) (c.(Started)) (c.(Ended))
    (c.(VerdictPermanent)) (c.(Inspecting)) (c.(Tunneled)) (c.(Encrypted))
    (c.(ProcessContext)) (c.(DNSContext)) (c.(HistoryEnabled))
    (c.(BandwidthEnabled)) (c.(BytesReceived)) (c.(BytesSent)) (c.(pktQueue))
    (c.(pktQueueActive)) (c.(dataComplete)) (c.(Internal)) (c.(process))
    (c.(firewallHandler)) (c.(saveWhenFinished)) (c.(activeInspectors))
    (c.(ProfileRevisionCounter)) (c.(addedToMetrics)).

Definition set_External (v : bool) (c : Connection) : Connection :=
  mkConnection (c.(key)) (c.(meta)) (c.(ID)) (c.(Type_)) v (c.(Scope))
    (c.(IPVersion)) (c.(Inbound)) (c.(IPProtocol)) (c.(LocalIP))
    (c.(LocalIPScope)) (c.(LocalPort)) (c.(PID)) (c.(Entity)) (c.(Resolver))
    (c.(Verdict_)) (c.(Reason)) (c.(Started)) (c.(Ended))
    (c.(VerdictPermanent)) (c.(Inspecting)) (c.(Tunneled)) (c.(Encrypted))
    (c.(ProcessContext)) (c.(DNSContext)) (c.(HistoryEnabled))
    (c.(BandwidthEnabled)) (c.(BytesReceived)) (c.(BytesSent)) (c.(pktQueue))
    (c.(pktQueueActive)) (c.(dataComplete)) (c.(Internal)) (c.(process))
    (c.(firewallHandler)) (c.(saveWhenFinished)) (c.(activeInspectors))
    (c.(ProfileRevisionCounter)) (c.(addedToMetrics)).

Definition set_Scope (v : string) (c : Connection) : Connection :=
  mkConnection (c.(key)) (c.(meta)) (c.(ID)) (c.(Type_)) (c.(External)) v
    (c.(IPVersion)) (c.(Inbound)) (c.(IPProtocol)) (c.(LocalIP))
    (c.(LocalIPScope)) (c.(LocalPort)) (c.(PID)) (c.(Entity)) (c.(Resolver))
    (c.(Verdict_)) (c.(Reason)) (c.(Started)) (c.(Ended))
    (c.(VerdictPermanent)) (c.(Inspecting)) (c.(Tunneled)) (c.(Encrypted))
    (c.(ProcessContext)) (c.(DNSContext)) (c.(HistoryEnabled))
    (c.(BandwidthEnabled)) (c.(BytesReceived)) (c.(BytesSent)) (c.(pktQueue))
    (c.(pktQueueActive)) (c.(dataComplete)) (c.(Internal)) (c.(process))
    (c.(firewallHandler)) (c.(saveWhenFinished)) (c.(activeInspectors))
    (c.(ProfileRevisionCounter)) (c.(addedToMetrics)).

Definition set_IPVersion (v : Z) (c : Connection) : Connection :=
  mkConnection (c.(key)) (c.(meta)) (c.(ID)) (c.(Type_)) (c.(External))
    (c.(Scope)) v (c.(Inbound)) (c.(IPProtocol)) (c.(LocalIP))
    (c.(LocalIPScope)) (c.(LocalPort)) (c.(PID)) (c.(Entity)) (c.(Resolver))
    (c.(Verdict_)) (c.(Reason)) (c.(Started)) (c.(Ended))
    (c.(VerdictPermanent)) (c.(Inspecting)) (c.(Tunneled)) (c.(Encrypted))
    (c.(ProcessContext)) (c.(DNSContext)) (c.(HistoryEnabled))
    (c.(BandwidthEnabled)) (c.(BytesReceived)) (c.(BytesSent)) (c.(pktQueue))
    (c.(pktQueueActive)) (c.(dataComplete)) (c.(Internal)) (c.(process))
    (c.(firewallHandler)) (c.(saveWhenFinished)) (c.(activeInspectors))
    (c.(ProfileRevisionCounter)) (c.(addedToMetrics)).

Definition set_Inbound (v : bool) (c : Connection) : Connection :=
  mkConnection (c.(key)) (c.(meta)) (c.(ID)) (c.(Type_)) (c.(External))
    (c.(Scope)) (c.(IPVersion)) v (c.(IPProtocol)) (c.(LocalIP))
    (c.(LocalIPScope)) (c.(LocalPort)) (c.(PID)) (c.(Entity)) (c.(Resolver))
    (c.(Verdict_)) (c.(Reason)) (c.(Started)) (c.(Ended))
    (c.(VerdictPermanent)) (c.(Inspecting)) (c.(Tunneled)) (c.(Encrypted))
    (c.(ProcessContext)) (c.(DNSContext)) (c.(HistoryEnabled))
    (c.(BandwidthEnabled)) (c.(BytesReceived)) (c.(BytesSent)) (c.(pktQueue))
    (c.(pktQueueActive)) (c.(dataComplete)) (c.(Internal)) (c.(process))
    (c.(firewallHandler)) (c.(saveWhenFinished)) (c.(activeInspectors))
    (c.(ProfileRevisionCounter)) (c.(addedToMetrics)).

Definition set_IPProtocol (v : Z) (c : Connection) : Connection :=
  mkConnection (c.(key)) (c.(meta)) (c.(ID)) (c.(Type_)) (c.(External))
    (c.(Scope)) (c.(IPVersion)) (c.(Inbound)) v (c.(LocalIP))
    (c.(LocalIPScope)) (c.(LocalPort)) (c.(PID)) (c.(Entity)) (c.(Resolver))
    (c.(Verdict_)) (c.(Reason)) (c.(Started)) (c.(Ended))
    (c.(VerdictPermanent)) (c.(Inspecting)) (c.(Tunneled)) (c.(Encrypted))
    (c.(ProcessContext)) (c.(DNSContext)) (c.(HistoryEnabled))
    (c.(BandwidthEnabled)) (c.(BytesReceived)) (c.(BytesSent)) (c.(pktQueue))
    (c.(pktQueueActive)) (c.(dataComplete)) (c.(Internal)) (c.(process))
    (c.(firewallHandler)) (c.(saveWhenFinished)) (c.(activeInspectors))
    (c.(ProfileRevisionCounter)) (c.(addedToMetrics)).

Definition set_LocalIP (v : IP) (c : Connection) : Connection :=
  mkConnection (c.(key)) (c.(meta)) (c.(ID)) (c.(Type_)) (c.(External))
    (c.(Scope)) (c.(IPVersion)) (c.(Inbound)) (c.(IPProtocol)) v
    (c.(LocalIPScope)) (c.(LocalPort)) (c.(PID)) (c.(Entity)) (c.(Resolver))
    (c.(Verdict_)) (c.(Reason)) (c.(Started)) (c.(Ended))
    (c.(VerdictPermanent)) (c.(Inspecting)) (c.(Tunneled)) (c.(Encrypted))
    (c.(ProcessContext)) (c.(DNSContext)) (c.(HistoryEnabled))
    (c.(BandwidthEnabled)) (c.(BytesReceived)) (c.(BytesSent)) (c.(pktQueue))
    (c.(pktQueueActive)) (c.(dataComplete)) (c.(Internal)) (c.(process))
    (c.(firewallHandler)) (c.(saveWhenFinished)) (c.(activeInspectors))
    (c.(ProfileRevisionCounter)) (c.(addedToMetrics)).

Definition set_LocalIPScope (v : netutils.IPScope) (c : Connection) : Connection :=
  mkConnection (c.(key)) (c.(meta)) (c.(ID)) (c.(Type_)) (c.(External))
    (c.(Scope)) (c.(IPVersion)) (c.(Inbound)) (c.(IPProtocol)) (c.(LocalIP)) v
    (c.(LocalPort)) (c.(PID)) (c.(Entity)) (c.(Resolver)) (c.(Verdict_))
    (c.(Reason)) (c.(Started)) (c.(Ended)) (c.(VerdictPermanent))
    (c.(Inspecting)) (c.(Tunneled)) (c.(Encrypted)) (c.(ProcessContext))
    (c.(DNSContext)) (c.(HistoryEnabled)) (c.(BandwidthEnabled))
    (c.(BytesReceived)) (c.(BytesSent)) (c.(pktQueue)) (c.(pktQueueActive))
    (c.(dataComplete)) (c.(Internal)) (c.(process)) (c.(firewallHandler))
    (c.(saveWhenFinished)) (c.(activeInspectors)) (c.(ProfileRevisionCounter))
    (c.(addedToMetrics)).

Definition set_LocalPort (v : Z) (c : Connection) : Connection :=
  mkConnection (c.(key)) (c.(meta)) (c.(ID)) (c.(Type_)) (c.(External))
    (c.(Scope)) (c.(IPVersion)) (c.(Inbound)) (c.(IPProtocol)) (c.(LocalIP))
    (c.(LocalIPScope)) v (c.(PID)) (c.(Entity)) (c.(Resolver)) (c.(Verdict_))
    (c.(Reason)) (c.(Started)) (c.(Ended)) (c.(VerdictPermanent))
    (c.(Inspecting)) (c.(Tunneled)) (c.(Encrypted)) (c.(ProcessContext))
    (c.(DNSContext)) (c.(HistoryEnabled)) (c.(BandwidthEnabled))
    (c.(BytesReceived)) (c.(BytesSent)) (c.(pktQueue)) (c.(pktQueueActive))
    (c.(dataComplete)) (c.(Internal)) (c.(process)) (c.(firewallHandler))
    (c.(saveWhenFinished)) (c.(activeInspectors)) (c.(ProfileRevisionCounter))
    (c.(addedToMetrics)).

Definition set_PID (v : Z) (c : Connection) : Connection :=
  mkConnection (c.(key)) (c.(meta)) (c.(ID)) (c.(Type_)) (c.(External))
    (c.(Scope)) (c.(IPVersion)) (c.(Inbound)) (c.(IPProtocol)) (c.(LocalIP))
    (c.(LocalIPScope)) (c.(LocalPort)) v (c.(Entity)) (c.(Resolver))
    (c.(Verdict_)) (c.(Reason)) (c.(Started)) (c.(Ended))
    (c.(VerdictPermanent)) (c.(Inspecting)) (c.(Tunneled)) (c.(Encrypted))
    (c.(ProcessContext)) (c.(DNSContext)) (c.(HistoryEnabled))
    (c.(BandwidthEnabled)) (c.(BytesReceived)) (c.(BytesSent)) (c.(pktQueue))
    (c.(pktQueueActive)) (c.(dataComplete)) (c.(Internal)) (c.(process))
    (c.(firewallHandler)) (c.(saveWhenFinished)) (c.(activeInspectors))
    (c.(ProfileRevisionCounter)) (c.(addedToMetrics)).

Definition set_Entity (v : option intel.Entity) (c : Connection) : Connection :=
  mkConnection (c.(key)) (c.(meta)) (c.(ID)) (c.(Type_)) (c.(External))
    (c.(Scope)) (c.(IPVersion)) (c.(Inbound)) (c.(IPProtocol)) (c.(LocalIP))
    (c.(LocalIPScope)) (c.(LocalPort)) (c.(PID)) v (c.(Resolver))
    (c.(Verdict_)) (c.(Reason)) (c.(Started)) (c.(Ended))
    (c.(VerdictPermanent)) (c.(Inspecting)) (c.(Tunneled)) (c.(Encrypted))
    (c.(ProcessContext)) (c.(DNSContext)) (c.(HistoryEnabled))
    (c.(BandwidthEnabled)) (c.(BytesReceived)) (c.(BytesSent)) (c.(pktQueue))
    (c.(pktQueueActive)) (c.(dataComplete)) (c.(Internal)) (c.(process))
    (c.(firewallHandler)) (c.(saveWhenFinished)) (c.(activeInspectors))
    (c.(ProfileRevisionCounter)) (c.(addedToMetrics)).

Definition set_Resolver (v : option resolver.ResolverInfo) (c : Connection) : Connection :=
  mkConnection (c.(key)) (c.(meta)) (c.(ID)) (c.(Type_)) (c.(External))
    (c.(Scope)) (c.(IPVersion)) (c.(Inbound)) (c.(IPProtocol)) (c.(LocalIP))
    (c.(LocalIPScope)) (c.(LocalPort)) (c.(PID)) (c.(Entity)) v (c.(Verdict_))
    (c.(Reason)) (c.(Started)) (c.(Ended)) (c.(VerdictPermanent))
    (c.(Inspecting)) (c.(Tunneled)) (c.(Encrypted)) (c.(ProcessContext))
    (c.(DNSContext)) (c.(HistoryEnabled)) (c.(BandwidthEnabled))
    (c.(BytesReceived)) (c.(BytesSent)) (c.(pktQueue)) (c.(pktQueueActive))
    (c.(dataComplete)) (c.(Internal)) (c.(process)) (c.(firewallHandler))
    (c.(saveWhenFinished)) (c.(activeInspectors)) (c.(ProfileRevisionCounter))
    (c.(addedToMetrics)).

Definition set_Verdict_ (v : VerdictTriple) (c : Connection) : Connection :=
  mkConnection (c.(key)) (c.(meta)) (c.(ID)) (c.(Type_)) (c.(External))
    (c.(Scope)) (c.(IPVersion)) (c.(Inbound)) (c.(IPProtocol)) (c.(LocalIP))
    (c.(LocalIPScope)) (c.(LocalPort)) (c.(PID)) (c.(Entity)) (c.(Resolver)) v
    (c.(Reason)) (c.(Started)) (c.(Ended)) (c.(VerdictPermanent))
    (c.(Inspecting)) (c.(Tunneled)) (c.(Encrypted)) (c.(ProcessContext))
    (c.(DNSContext)) (c.(HistoryEnabled)) (c.(BandwidthEnabled))
    (c.(BytesReceived)) (c.(BytesSent)) (c.(pktQueue)) (c.(pktQueueActive))
    (c.(dataComplete)) (c.(Internal)) (c.(process)) (c.(firewallHandler))
    (c.(saveWhenFinished)) (c.(activeInspectors)) (c.(ProfileRevisionCounter))
    (c.(addedToMetrics)).

Definition set_Reason (v : Reason.t) (c : Connection) : Connection :=
  mkConnection (c.(key)) (c.(meta)) (c.(ID)) (c.(Type_)) (c.(External))
    (c.(Scope)) (c.(IPVersion)) (c.(Inbound)) (c.(IPProtocol)) (c.(LocalIP))
    (c.(LocalIPScope)) (c.(LocalPort)) (c.(PID)) (c.(Entity)) (c.(Resolver))
    (c.(Verdict_)) v (c.(Started)) (c.(Ended)) (c.(VerdictPermanent))
    (c.(Inspecting)) (c.(Tunneled)) (c.(Encrypted)) (c.(ProcessContext))
    (c.(DNSContext)) (c.(HistoryEnabled)) (c.(BandwidthEnabled))
    (c.(BytesReceived)) (c.(BytesSent)) (c.(pktQueue)) (c.(pktQueueActive))
    (c.(dataComplete)) (c.(Internal)) (c.(process)) (c.(firewallHandler))
    (c.(saveWhenFinished)) (c.(activeInspectors)) (c.(ProfileRevisionCounter))
    (c.(addedToMetrics)).

Definition set_Started (v : Z) (c : Connection) : Connection :=
  mkConnection (c.(key)) (c.(meta)) (c.(ID)) (c.(Type_)) (c.(External))
    (c.(Scope)) (c.(IPVersion)) (c.(Inbound)) (c.(IPProtocol)) (c.(LocalIP))
    (c.(LocalIPScope)) (c.(LocalPort)) (c.(PID)) (c.(Entity)) (c.(Resolver))
    (c.(Verdict_)) (c.(Reason)) v (c.(Ended)) (c.(VerdictPermanent))
    (c.(Inspecting)) (c.(Tunneled)) (c.(Encrypted)) (c.(ProcessContext))
    (c.(DNSContext)) (c.(HistoryEnabled)) (c.(BandwidthEnabled))
    (c.(BytesReceived)) (c.(BytesSent)) (c.(pktQueue)) (c.(pktQueueActive))
    (c.(dataComplete)) (c.(Internal)) (c.(process)) (c.(firewallHandler))
    (c.(saveWhenFinished)) (c.(activeInspectors)) (c.(ProfileRevisionCounter))
    (c.(addedToMetrics)).

Definition set_Ended (v : Z) (c : Connection) : Connection :=
  mkConnection (c.(key)) (c.(meta)) (c.(ID)) (c.(Type_)) (c.(External))
    (c.(Scope)) (c.(IPVersion)) (c.(Inbound)) (c.(IPProtocol)) (c.(LocalIP))
    (c.(LocalIPScope)) (c.(LocalPort)) (c.(PID)) (c.(Entity)) (c.(Resolver))
    (c.(Verdict_)) (c.(Reason)) (c.(Started)) v (c.(VerdictPermanent))
    (c.(Inspecting)) (c.(Tunneled)) (c.(Encrypted)) (c.(ProcessContext))
    (c.(DNSContext)) (c.(HistoryEnabled)) (c.(BandwidthEnabled))
    (c.(BytesReceived)) (c.(BytesSent)) (c.(pktQueue)) (c.(pktQueueActive))
    (c.(dataComplete)) (c.(Internal)) (c.(process)) (c.(firewallHandler))
    (c.(saveWhenFinished)) (c.(activeInspectors)) (c.(ProfileRevisionCounter))
    (c.(addedToMetrics)).

Definition set_VerdictPermanent (v : bool) (c : Connection) : Connection :=
  mkConnection (c.(key)) (c.(meta)) (c.(ID)) (c.(Type_)) (c.(External))
    (c.(Scope)) (c.(IPVersion)) (c.(Inbound)) (c.(IPProtocol)) (c.(LocalIP))
    (c.(LocalIPScope)) (c.(LocalPort)) (c.(PID)) (c.(Entity)) (c.(Resolver))
    (c.(Verdict_)) (c.(Reason)) (c.(Started)) (c.(Ended)) v (c.(Inspecting))
    (c.(Tunneled)) (c.(Encrypted)) (c.(ProcessContext)) (c.(DNSContext))
    (c.(HistoryEnabled)) (c.(BandwidthEnabled)) (c.(BytesReceived))
    (c.(BytesSent)) (c.(pktQueue)) (c.(pktQueueActive)) (c.(dataComplete))
    (c.(Internal)) (c.(process)) (c.(firewallHandler)) (c.(saveWhenFinished))
    (c.(activeInspectors)) (c.(ProfileRevisionCounter)) (c.(addedToMetrics)).

Definition set_Inspecting (v : bool) (c : Connection) : Connection :=
  mkConnection (c.(key)) (c.(meta)) (c.(ID)) (c.(Type_)) (c.(External))
    (c.(Scope)) (c.(IPVersion)) (c.(Inbound)) (c.(IPProtocol)) (c.(LocalIP))
    (c.(LocalIPScope)) (c.(LocalPort)) (c.(PID)) (c.(Entity)) (c.(Resolver))
    (c.(Verdict_)) (c.(Reason)) (c.(Started)) (c.(Ended))
    (c.(VerdictPermanent)) v (c.(Tunneled)) (c.(Encrypted))
    (c.(ProcessContext)) (c.(DNSContext)) (c.(HistoryEnabled))
    (c.(BandwidthEnabled)) (c.(BytesReceived)) (c.(BytesSent)) (c.(pktQueue))
    (c.(pktQueueActive)) (c.(dataComplete)) (c.(Internal)) (c.(process))
    (c.(firewallHandler)) (c.(saveWhenFinished)) (c.(activeInspectors))
    (c.(ProfileRevisionCounter)) (c.(addedToMetrics)).

Definition set_Tunneled (v : bool) (c : Connection) : Connection :=
  mkConnection (c.(key)) (c.(meta)) (c.(ID)) (c.(Type_)) (c.(External))
    (c.(Scope)) (c.(IPVersion)) (c.(Inbound)) (c.(IPProtocol)) (c.(LocalIP))
    (c.(LocalIPScope)) (c.(LocalPort)) (c.(PID)) (c.(Entity)) (c.(Resolver))
    (c.(Verdict_)) (c.(Reason)) (c.(Started)) (c.(Ended))
    (c.(VerdictPermanent)) (c.(Inspecting)) v (c.(Encrypted))
    (c.(ProcessContext)) (c.(DNSContext)) (c.(HistoryEnabled))
    (c.(BandwidthEnabled)) (c.(BytesReceived)) (c.(BytesSent)) (c.(pktQueue))
    (c.(pktQueueActive)) (c.(dataComplete)) (c.(Internal)) (c.(process))
    (c.(firewallHandler)) (c.(saveWhenFinished)) (c.(activeInspectors))
    (c.(ProfileRevisionCounter)) (c.(addedToMetrics)).

Definition set_Encrypted (v : bool) (c : Connection) : Connection :=
  mkConnection (c.(key)) (c.(meta)) (c.(ID)) (c.(Type_)) (c.(External))
    (c.(Scope)) (c.(IPVersion)) (c.(Inbound)) (c.(IPProtocol)) (c.(LocalIP))
    (c.(LocalIPScope)) (c.(LocalPort)) (c.(PID)) (c.(Entity)) (c.(Resolver))
    (c.(Verdict_)) (c.(Reason)) (c.(Started)) (c.(Ended))
    (c.(VerdictPermanent)) (c.(Inspecting)) (c.(Tunneled)) v
    (c.(ProcessContext)) (c.(DNSContext)) (c.(HistoryEnabled))
    (c.(BandwidthEnabled)) (c.(BytesReceived)) (c.(BytesSent)) (c.(pktQueue))
    (c.(pktQueueActive)) (c.(dataComplete)) (c.(Internal)) (c.(process))
    (c.(firewallHandler)) (c.(saveWhenFinished)) (c.(activeInspectors))
    (c.(ProfileRevisionCounter)) (c.(addedToMetrics)).

Definition set_ProcessContext (v : ProcessContext.t) (c : Connection) : Connection :=
  mkConnection (c.(key)) (c.(meta)) (c.(ID)) (c.(Type_)) (c.(External))
    (c.(Scope)) (c.(IPVersion)) (c.(Inbound)) (c.(IPProtocol)) (c.(LocalIP))
    (c.(LocalIPScope)) (c.(LocalPort)) (c.(PID)) (c.(Entity)) (c.(Resolver))
    (c.(Verdict_)) (c.(Reason)) (c.(Started)) (c.(Ended))
    (c.(VerdictPermanent)) (c.(Inspecting)) (c.(Tunneled)) (c.(Encrypted)) v
    (c.(DNSContext)) (c.(HistoryEnabled)) (c.(BandwidthEnabled))
    (c.(BytesReceived)) (c.(BytesSent)) (c.(pktQueue)) (c.(pktQueueActive))
    (c.(dataComplete)) (c.(Internal)) (c.(process)) (c.(firewallHandler))
    (c.(saveWhenFinished)) (c.(activeInspectors)) (c.(ProfileRevisionCounter))
    (c.(addedToMetrics)).

Definition set_DNSContext (v : option resolver.DNSRequestContext) (c : Connection) : Connection :=
  mkConnection (c.(key)) (c.(meta)) (c.(ID)) (c.(Type_)) (c.(External))
    (c.(Scope)) (c.(IPVersion)) (c.(Inbound)) (c.(IPProtocol)) (c.(LocalIP))
    (c.(LocalIPScope)) (c.(LocalPort)) (c.(PID)) (c.(Entity)) (c.(Resolver))
    (c.(Verdict_)) (c.(Reason)) (c.(Started)) (c.(Ended))
    (c.(VerdictPermanent)) (c.(Inspecting)) (c.(Tunneled)) (c.(Encrypted))
    (c.(ProcessContext)) v (c.(HistoryEnabled)) (c.(BandwidthEnabled))
    (c.(BytesReceived)) (c.(BytesSent)) (c.(pktQueue)) (c.(pktQueueActive))
    (c.(dataComplete)) (c.(Internal)) (c.(process)) (c.(firewallHandler))
    (c.(saveWhenFinished)) (c.(activeInspectors)) (c.(ProfileRevisionCounter))
    (c.(addedToMetrics)).

Definition set_HistoryEnabled (v : bool) (c : Connection) : Connection :=
  mkConnection (c.(key)) (c.(meta)) (c.(ID)) (c.(Type_)) (c.(External))
    (c.(Scope)) (c.(IPVersion)) (c.(Inbound)) (c.(IPProtocol)) (c.(LocalIP))
    (c.(LocalIPScope)) (c.(LocalPort)) (c.(PID)) (c.(Entity)) (c.(Resolver))
    (c.(Verdict_)) (c.(Reason)) (c.(Started)) (c.(Ended))
    (c.(VerdictPermanent)) (c.(Inspecting)) (c.(Tunneled)) (c.(Encrypted))
    (c.(ProcessContext)) (c.(DNSContext)) v (c.(BandwidthEnabled))
    (c.(BytesReceived)) (c.(BytesSent)) (c.(pktQueue)) (c.(pktQueueActive))
    (c.(dataComplete)) (c.(Internal)) (c.(process)) (c.(firewallHandler))
    (c.(saveWhenFinished)) (c.(activeInspectors)) (c.(ProfileRevisionCounter))
    (c.(addedToMetrics)).

Definition set_BandwidthEnabled (v : bool) (c : Connection) : Connection :=
  mkConnection (c.(key)) (c.(meta)) (c.(ID)) (c.(Type_)) (c.(External))
    (c.(Scope)) (c.(IPVersion)) (c.(Inbound)) (c.(IPProtocol)) (c.(LocalIP))
    (c.(LocalIPScope)) (c.(LocalPort)) (c.(PID)) (c.(Entity)) (c.(Resolver))
    (c.(Verdict_)) (c.(Reason)) (c.(Started)) (c.(Ended))
    (c.(VerdictPermanent)) (c.(Inspecting)) (c.(Tunneled)) (c.(Encrypted))
    (c.(ProcessContext)) (c.(DNSContext)) (c.(HistoryEnabled)) v
    (c.(BytesReceived)) (c.(BytesSent)) (c.(pktQueue)) (c.(pktQueueActive))
    (c.(dataComplete)) (c.(Internal)) (c.(process)) (c.(firewallHandler))
    (c.(saveWhenFinished)) (c.(activeInspectors)) (c.(ProfileRevisionCounter))
    (c.(addedToMetrics)).

Definition set_BytesReceived (v : Z) (c : Connection) : Connection :=
  mkConnection (c.(key)) (c.(meta)) (c.(ID)) (c.(Type_)) (c.(External))
    (c.(Scope)) (c.(IPVersion)) (c.(Inbound)) (c.(IPProtocol)) (c.(LocalIP))
    (c.(LocalIPScope)) (c.(LocalPort)) (c.(PID)) (c.(Entity)) (c.(Resolver))
    (c.(Verdict_)) (c.(Reason)) (c.(Started)) (c.(Ended))
    (c.(VerdictPermanent)) (c.(Inspecting)) (c.(Tunneled)) (c.(Encrypted))
    (c.(ProcessContext)) (c.(DNSContext)) (c.(HistoryEnabled))
    (c.(BandwidthEnabled)) v (c.(BytesSent)) (c.(pktQueue))
    (c.(pktQueueActive)) (c.(dataComplete)) (c.(Internal)) (c.(process))
    (c.(firewallHandler)) (c.(saveWhenFinished)) (c.(activeInspectors))
    (c.(ProfileRevisionCounter)) (c.(addedToMetrics)).

Definition set_BytesSent (v : Z) (c : Connection) : Connection :=
  mkConnection (c.(key)) (c.(meta)) (c.(ID)) (c.(Type_)) (c.(External))
    (c.(Scope)) (c.(IPVersion)) (c.(Inbound)) (c.(IPProtocol)) (c.(LocalIP))
    (c.(LocalIPScope)) (c.(LocalPort)) (c.(PID)) (c.(Entity)) (c.(Resolver))
    (c.(Verdict_)) (c.(Reason)) (c.(Started)) (c.(Ended))
    (c.(VerdictPermanent)) (c.(Inspecting)) (c.(Tunneled)) (c.(Encrypted))
    (c.(ProcessContext)) (c.(DNSContext)) (c.(HistoryEnabled))
    (c.(BandwidthEnabled)) (c.(BytesReceived)) v (c.(pktQueue))
    (c.(pktQueueActive)) (c.(dataComplete)) (c.(Internal)) (c.(process))
    (c.(firewallHandler)) (c.(saveWhenFinished)) (c.(activeInspectors))
    (c.(ProfileRevisionCounter)) (c.(addedToMetrics)).

Definition set_pktQueue (v : option Chan) (c : Connection) : Connection :=
  mkConnection (c.(key)) (c.(meta)) (c.(ID)) (c.(Type_)) (c.(External))
    (c.(Scope)) (c.(IPVersion)) (c.(Inbound)) (c.(IPProtocol)) (c.(LocalIP))
    (c.(LocalIPScope)) (c.(LocalPort)) (c.(PID)) (c.(Entity)) (c.(Resolver))
    (c.(Verdict_)) (c.(Reason)) (c.(Started)) (c.(Ended))
    (c.(VerdictPermanent)) (c.(Inspecting)) (c.(Tunneled)) (c.(Encrypted))
    (c.(ProcessContext)) (c.(DNSContext)) (c.(HistoryEnabled))
    (c.(BandwidthEnabled)) (c.(BytesReceived)) (c.(BytesSent)) v
    (c.(pktQueueActive)) (c.(dataComplete)) (c.(Internal)) (c.(process))
    (c.(firewallHandler)) (c.(saveWhenFinished)) (c.(activeInspectors))
    (c.(ProfileRevisionCounter)) (c.(addedToMetrics)).

Definition set_pktQueueActive (v : bool) (c : Connection) : Connection :=
  mkConnection (c.(key)) (c.(meta)) (c.(ID)) (c.(Type_)) (c.(External))
    (c.(Scope)) (c.(IPVersion)) (c.(Inbound)) (c.(IPProtocol)) (c.(LocalIP))
    (c.(LocalIPScope)) (c.(LocalPort)) (c.(PID)) (c.(Entity)) (c.(Resolver))
    (c.(Verdict_)) (c.(Reason)) (c.(Started)) (c.(Ended))
    (c.(VerdictPermanent)) (c.(Inspecting)) (c.(Tunneled)) (c.(Encrypted))
    (c.(ProcessContext)) (c.(DNSContext)) (c.(HistoryEnabled))
    (c.(BandwidthEnabled)) (c.(BytesReceived)) (c.(BytesSent)) (c.(pktQueue))
    v (c.(dataComplete)) (c.(Internal)) (c.(process)) (c.(firewallHandler))
    (c.(saveWhenFinished)) (c.(activeInspectors)) (c.(ProfileRevisionCounter))
    (c.(addedToMetrics)).

Definition set_dataComplete (v : bool) (c : Connection) : Connection :=
  mkConnection (c.(key)) (c.(meta)) (c.(ID)) (c.(Type_)) (c.(External))
    (c.(Scope)) (c.(IPVersion)) (c.(Inbound)) (c.(IPProtocol)) (c.(LocalIP))
    (c.(LocalIPScope)) (c.(LocalPort)) (c.(PID)) (c.(Entity)) (c.(Resolver))
    (c.(Verdict_)) (c.(Reason)) (c.(Started)) (c.(Ended))
    (c.(VerdictPermanent)) (c.(Inspecting)) (c.(Tunneled)) (c.(Encrypted))
    (c.(ProcessContext)) (c.(DNSContext)) (c.(HistoryEnabled))
    (c.(BandwidthEnabled)) (c.(BytesReceived)) (c.(BytesSent)) (c.(pktQueue))
    (c.(pktQueueActive)) v (c.(Internal)) (c.(process)) (c.(firewallHandler))
    (c.(saveWhenFinished)) (c.(activeInspectors)) (c.(ProfileRevisionCounter))
    (c.(addedToMetrics)).

Definition set_Internal (v : bool) (c : Connection) : Connection :=
  mkConnection (c.(key)) (c.(meta)) (c.(ID)) (c.(Type_)) (c.(External))
    (c.(Scope)) (c.(IPVersion)) (c.(Inbound)) (c.(IPProtocol)) (c.(LocalIP))
    (c.(LocalIPScope)) (c.(LocalPort)) (c.(PID)) (c.(Entity)) (c.(Resolver))
    (c.(Verdict_)) (c.(Reason)) (c.(Started)) (c.(Ended))
    (c.(VerdictPermanent)) (c.(Inspecting)) (c.(Tunneled)) (c.(Encrypted))
    (c.(ProcessContext)) (c.(DNSContext)) (c.(HistoryEnabled))
    (c.(BandwidthEnabled)) (c.(BytesReceived)) (c.(BytesSent)) (c.(pktQueue))
    (c.(pktQueueActive)) (c.(dataComplete)) v (c.(process))
    (c.(firewallHandler)) (c.(saveWhenFinished)) (c.(activeInspectors))
    (c.(ProfileRevisionCounter)) (c.(addedToMetrics)).

Definition set_process (v : option process.Process) (c : Connection) : Connection :=
  mkConnection (c.(key)) (c.(meta)) (c.(ID)) (c.(Type_)) (c.(External))
    (c.(Scope)) (c.(IPVersion)) (c.(Inbound)) (c.(IPProtocol)) (c.(LocalIP))
    (c.(LocalIPScope)) (c.(LocalPort)) (c.(PID)) (c.(Entity)) (c.(Resolver))
    (c.(Verdict_)) (c.(Reason)) (c.(Started)) (c.(Ended))
    (c.(VerdictPermanent)) (c.(Inspecting)) (c.(Tunneled)) (c.(Encrypted))
    (c.(ProcessContext)) (c.(DNSContext)) (c.(HistoryEnabled))
    (c.(BandwidthEnabled)) (c.(BytesReceived)) (c.(BytesSent)) (c.(pktQueue))
    (c.(pktQueueActive)) (c.(dataComplete)) (c.(Internal)) v
    (c.(firewallHandler)) (c.(saveWhenFinished)) (c.(activeInspectors))
    (c.(ProfileRevisionCounter)) (c.(addedToMetrics)).

Definition set_firewallHandler (v : option FirewallHandler) (c : Connection) : Connection :=
  mkConnection (c.(key)) (c.(meta)) (c.(ID)) (c.(Type_)) (c.(External))
    (c.(Scope)) (c.(IPVersion)) (c.(Inbound)) (c.(IPProtocol)) (c.(LocalIP))
    (c.(LocalIPScope)) (c.(LocalPort)) (c.(PID)) (c.(Entity)) (c.(Resolver))
    (c.(Verdict_)) (c.(Reason)) (c.(Started)) (c.(Ended))
    (c.(VerdictPermanent)) (c.(Inspecting)) (c.(Tunneled)) (c.(Encrypted))
    (c.(ProcessContext)) (c.(DNSContext)) (c.(HistoryEnabled))
    (c.(BandwidthEnabled)) (c.(BytesReceived)) (c.(BytesSent)) (c.(pktQueue))
    (c.(pktQueueActive)) (c.(dataComplete)) (c.(Internal)) (c.(process)) v
    (c.(saveWhenFinished)) (c.(activeInspectors)) (c.(ProfileRevisionCounter))
    (c.(addedToMetrics)).

Definition set_saveWhenFinished (v : bool) (c : Connection) : Connection :=
  mkConnection (c.(key)) (c.(meta)) (c.(ID)) (c.(Type_)) (c.(External))
    (c.(Scope)) (c.(IPVersion)) (c.(Inbound)) (c.(IPProtocol)) (c.(LocalIP))
    (c.(LocalIPScope)) (c.(LocalPort)) (c.(PID)) (c.(Entity)) (c.(Resolver))
    (c.(Verdict_)) (c.(Reason)) (c.(Started)) (c.(Ended))
    (c.(VerdictPermanent)) (c.(Inspecting)) (c.(Tunneled)) (c.(Encrypted))
    (c.(ProcessContext)) (c.(DNSContext)) (c.(HistoryEnabled))
    (c.(BandwidthEnabled)) (c.(BytesReceived)) (c.(BytesSent)) (c.(pktQueue))
    (c.(pktQueueActive)) (c.(dataComplete)) (c.(Internal)) (c.(process))
    (c.(firewallHandler)) v (c.(activeInspectors))
    (c.(ProfileRevisionCounter)) (c.(addedToMetrics)).

Definition set_activeInspectors (v : list bool) (c : Connection) : Connection :=
  mkConnection (c.(key)) (c.(meta)) (c.(ID)) (c.(Type_)) (c.(External))
    (c.(Scope)) (c.(IPVersion)) (c.(Inbound)) (c.(IPProtocol)) (c.(LocalIP))
    (c.(LocalIPScope)) (c.(LocalPort)) (c.(PID)) (c.(Entity)) (c.(Resolver))
    (c.(Verdict_)) (c.(Reason)) (c.(Started)) (c.(Ended))
    (c.(VerdictPermanent)) (c.(Inspecting)) (c.(Tunneled)) (c.(Encrypted))
    (c.(ProcessContext)) (c.(DNSContext)) (c.(HistoryEnabled))
    (c.(BandwidthEnabled)) (c.(BytesReceived)) (c.(BytesSent)) (c.(pktQueue))
    (c.(pktQueueActive)) (c.(dataComplete)) (c.(Internal)) (c.(process))
    (c.(firewallHandler)) (c.(saveWhenFinished)) v
    (c.(ProfileRevisionCounter)) (c.(addedToMetrics)).

Definition set_ProfileRevisionCounter (v : Z) (c : Connection) : Connection :=
  mkConnection (c.(key)) (c.(meta)) (c.(ID)) (c.(Type_)) (c.(External))
    (c.(Scope)) (c.(IPVersion)) (c.(Inbound)) (c.(IPProtocol)) (c.(LocalIP))
    (c.(LocalIPScope)) (c.(LocalPort)) (c.(PID)) (c.(Entity)) (c.(Resolver))
    (c.(Verdict_)) (c.(Reason)) (c.(Started)) (c.(Ended))
    (c.(VerdictPermanent)) (c.(Inspecting)) (c.(Tunneled)) (c.(Encrypted))
    (c.(ProcessContext)) (c.(DNSContext)) (c.(HistoryEnabled))
    (c.(BandwidthEnabled)) (c.(BytesReceived)) (c.(BytesSent)) (c.(pktQueue))
    (c.(pktQueueActive)) (c.(dataComplete)) (c.(Internal)) (c.(process))
    (c.(firewallHandler)) (c.(saveWhenFinished)) (c.(activeInspectors)) v
    (c.(addedToMetrics)).

Definition set_addedToMetrics (v : bool) (c : Connection) : Connection :=
  mkConnection (c.(key)) (c.(meta)) (c.(ID)) (c.(Type_)) (c.(External))
    (c.(Scope)) (c.(IPVersion)) (c.(Inbound)) (c.(IPProtocol)) (c.(LocalIP))
    (c.(LocalIPScope)) (c.(LocalPort)) (c.(PID)) (c.(Entity)) (c.(Resolver))
    (c.(Verdict_)) (c.(Reason)) (c.(Started)) (c.(Ended))
    (c.(VerdictPermanent)) (c.(Inspecting)) (c.(Tunneled)) (c.(Encrypted))
    (c.(ProcessContext)) (c.(DNSContext)) (c.(HistoryEnabled))
    (c.(BandwidthEnabled)) (c.(BytesReceived)) (c.(BytesSent)) (c.(pktQueue))
    (c.(pktQueueActive)) (c.(dataComplete)) (c.(Internal)) (c.(process))
    (c.(firewallHandler)) (c.(saveWhenFinished)) (c.(activeInspectors))
    (c.(ProfileRevisionCounter)) v.

Definition zeroConnection : Connection :=
  mkConnection None None "" Undefined false "" 0 false 0 [] netutils.Undefined
    0 0 None None
    (mkVerdictTriple VerdictUndecided VerdictUndecided VerdictUndecided)
    Reason.zero 0 0 false false false false ProcessContext.zero None
    false false 0 0 None false false false None None false [] 0 false.

(** ** Effects

    Calls that leave the file are recorded in a trace, in program order. *)

Inductive LogLevel : Type := LTrace | LDebug | LInfo | LWarning.

Inductive Event : Type :=
| EvLog (lvl : LogLevel) (fmt : string)
| EvPacketDrop (pkt : packet.Packet)              (* pkt.Drop() *)
| EvStartWorker (name : string)                   (* module.StartWorker *)
| EvClose (ch : Chan)                             (* close(conn.pktQueue) *)
| EvHistogram (seenAt : Z)                        (* packetHandlingHistogram.UpdateDuration *)
| EvConnsAdd (id : string)                        (* conns.add *)
| EvDnsConnsAdd (id : string)                     (* dnsConns.add *)
| EvConnsDelete (id : string)                     (* conns.delete *)
| EvDnsConnsDelete (id : string)                  (* dnsConns.delete *)
| EvAddToMetrics (id : string)                    (* conn.addToMetrics() *)
| EvPushUpdate (c : Connection)                   (* dbController.PushUpdate *)
| EvRemoveOpenDNSRequest (pid : Z) (domain : string).

(** A run either returns or panics (nil dereference, send on or close of a
    closed channel). *)
Inductive Res (A : Type) : Type :=
| Ok (a : A)
| Panic.

Arguments Ok {A} a.
Arguments Panic {A}.

(** Methods of [*Connection]: the receiver is the state, the trace is
    written, a panic aborts. *)
Definition M (A : Type) : Type :=
  Connection -> Res (A * Connection * list Event).

Definition ret {A : Type} (a : A) : M A :=
  fun c => Ok (a, c, []).

Definition bind {A B : Type} (m : M A) (f : A -> M B) : M B :=
  fun c =>
    match m c with
    | Ok (a, c1, t1) =>
        match f a c1 with
        | Ok (b, c2, t2) => Ok (b, c2, t1 ++ t2)
        | Panic => Panic
        end
    | Panic => Panic
    end.

Definition get : M Connection := fun c => Ok (c, c, []).

Definition modify (f : Connection -> Connection) : M unit :=
  fun c => Ok (tt, f c, []).

Definition emit (e : Event) : M unit := fun c => Ok (tt, c, [e]).

Definition panic {A : Type} : M A := fun _ => Panic.

Declare Scope conn_scope.
Delimit Scope conn_scope with conn.

Notation "x <- m ;; k" := (bind m (fun x => k))
  (at level 61, m at next level, right associativity) : conn_scope.
Notation "m ;; k" := (bind m (fun _ => k))
  (at level 61, right associativity) : conn_scope.

#[local] Open Scope conn_scope.

(** The connection a run ends with, if it returns. *)
Definition exec {A : Type} (m : M A) (c : Connection) : option Connection :=
  match m c with Ok (_, c', _) => Some c' | Panic => None end.

(** ** What the other packages provide

    Functions and constants that [connection.go] calls but does not define.
    They are parameters of the development. *)
Class Collaborators : Type := {
  (* package process *)
  UndefinedProcessID : Z;
  GetPidOfConnection : packet.Info -> Z * bool;
  GetProcessWithProfile : Z -> option process.Process * bool;
    (* the boolean tells whether the returned error is non-nil *)
  NetworkHostProcessID : Z;
  GetNetworkHost : IP -> option process.Process * bool;
  (* package network, other files *)
  GetDNSRequestConnection : packet.Info -> option Connection;
  defaultFirewallHandler : Connection -> packet.Packet -> Connection;
  addToMetrics : Connection -> Connection;
  makeKey : Z -> string -> string -> string;
  dbScopeDNS : string;
  dbScopeIP : string;
  IncomingHost : string;
  IncomingLAN : string;
  IncomingInternet : string;
  IncomingInvalid : string;
  PeerHost : string;
  PeerLAN : string;
  PeerInternet : string;
  PeerInvalid : string;
  (* package packet *)
  InfoRemoteIP : packet.Info -> IP;
  InfoLocalIP : packet.Info -> IP;
  InfoRemotePort : packet.Info -> Z;
  InfoLocalPort : packet.Info -> Z;
  (* package net *)
  To4 : IP -> option IP;
  IPString : IP -> string;
  IPEqual : IP -> IP -> bool;
  (* packages netutils, intel, netenv, resolver *)
  GetIPScope : IP -> netutils.IPScope;
  EntityInit : intel.Entity -> Z -> intel.Entity;
  GetCaptivePortal : netenv.CaptivePortal;
  GetIPInfo : string -> string -> option resolver.IPInfo;
    (* [None] stands for a non-nil error *)
  IPInfoProfileScopeGlobal : string;
  (* package access *)
  GetUser : option access.User * option access.Err;
  MayUse : option access.User -> access.Feature -> bool;
  (* record.Base of the database library *)
  BaseUpdateMeta : option Meta -> option Meta;
  BaseMetaDelete : Meta -> Meta;
  (* The default handler lives in another package: the queue fields are
     unexported, and while [HandlePacket] holds [pktQueueLock] the handler
     cannot call the methods that change them. *)
  defaultFirewallHandler_queue :
    forall c pkt,
      pktQueue (defaultFirewallHandler c pkt) = pktQueue c /\
      pktQueueActive (defaultFirewallHandler c pkt) = pktQueueActive c
}.

Section Network.

Context {env : Collaborators}.

(** ** Process context *)

(** [getProcessContext]; [proc.Name] panics on a nil [proc]. *)
Definition getProcessContext (proc : option process.Process)
  : Res (ProcessContext.t * list Event) :=
  match proc with
  | None => Panic
  | Some p =>
      let pCtx :=
        ProcessContext.mk (process.Name p) "" (process.Path p)
          (process.CmdLine p) (process.Pid p) (process.CreatedAt p) "" "" in
      match profile.LocalProfile (process.Profile proc) with
      | None =>
          Ok (pCtx, [EvLog LWarning "network: process %s has no profile"])
      | Some localProfile =>
          Ok (ProcessContext.mk (process.Name p) (profile.Name localProfile)
                (process.Path p) (process.CmdLine p) (process.Pid p)
                (process.CreatedAt p) (profile.ID localProfile)
                (profile.Source localProfile), [])
      end
  end.

Definition liftR {A : Type} (r : Res (A * list Event)) : M A :=
  fun c => match r with Ok (a, t) => Ok (a, c, t) | Panic => Panic end.

(** ** Simple accessors *)

Definition DataIsComplete (c : Connection) : bool := dataComplete c.

Definition Process_ (c : Connection) : option process.Process := process c.

Definition SaveWhenFinished (c : Connection) : Connection :=
  set_saveWhenFinished true c.

Definition SetLocalIP (ip : IP) : M unit :=
  modify (set_LocalIP ip) ;;
  modify (set_LocalIPScope (GetIPScope ip)).

Definition UpdateMeta : M unit :=
  modify (fun c => set_meta (BaseUpdateMeta (meta c)) c).

Definition KeyIsSet (c : Connection) : bool :=
  match key c with Some _ => true | None => false end.

Definition SetKey (k : string) : M unit := modify (set_key (Some k)).

(** ** UpdateFeatures *)

Definition UpdateFeatures : M (option access.Err) :=
  let (user, err) := GetUser in
  let stop :=
    match err with
    | Some e => negb (access.is_ErrNotLoggedIn e)
    | None => false
    end in
  if stop then ret err
  else
    modify (set_HistoryEnabled false) ;;
    c <- get ;;
    (if Internal c then ret tt
     else
       match Entity c with
       | None => panic
       | Some e =>
           if netutils.IsLocalhost (intel.IPScope e) then ret tt
           else if MayUse user access.FeatureHistory then
             match process.Profile (Process_ c) with
             | Some lProfile =>
                 modify (set_HistoryEnabled (profile.enableHistory lProfile))
             | None => ret tt
             end
           else ret tt
       end) ;;
    modify (set_BandwidthEnabled (MayUse user access.FeatureBWVis)) ;;
    ret None.

(** The caller's test [err != nil && !errors.Is(err, access.ErrNotLoggedIn)]. *)
Definition reportable (err : option access.Err) : bool :=
  match err with
  | Some e => negb (access.is_ErrNotLoggedIn e)
  | None => false
  end.

(** ** Flow correlator *)

(** [time.Date(2020, 1, 1, 0, 0, 0, 0, time.UTC).Unix()]: 2020-01-01 is
    18262 days after 1970-01-01 (fifty years, twelve of them leap years). *)
Definition tooOldTimestamp : Z := (50 * 365 + 12) * 86400.

(** [Unix()] of the zero [time.Time]. *)
Definition zeroTimeUnix : Z := -62135596800.

(** The packet info that [NewConnectionFromDNSRequest] builds for the
    request. *)
Definition dnsRequestInfo (localIP : IP) (localPort : Z) : packet.Info :=
  let ipVersion :=
    match To4 localIP with Some _ => packet.IPv4 | None => packet.IPv6 end in
  packet.mkInfo false ipVersion packet.UDP localIP localPort [] 0
    UndefinedProcessID zeroTimeUnix.

(** The [switch] that checks whether the DNS request connection was reported
    with process info.  [now] is the reading of [time.Now().Unix()] in its
    third case.  Returns the packet info and [proc] as they stand after the
    switch. *)
Definition inheritDNSRequest (now : Z) (found : option Connection)
    (pi : packet.Info) : packet.Info * option process.Process * list Event :=
  match found with
  | None => (pi, None, [])
  | Some dnsRequestConn =>
      if PID dnsRequestConn <? 0 then (pi, None, [])
      else if (0 <? Ended dnsRequestConn)
              && (Ended dnsRequestConn <? wrap64 (now - 3)) then
        (pi, None,
         [EvLog LDebug "network: found ended dns request connection %s for dns request for %s"])
      else
        (packet.set_PID (PID dnsRequestConn) pi, process dnsRequestConn,
         [EvLog LDebug "network: found matching dns request connection %s"])
  end.

(** [NewConnectionFromDNSRequest].  [nowCheck] and [nowCreate] are the two
    readings of the clock, in program order. *)
Definition NewConnectionFromDNSRequest (nowCheck nowCreate : Z)
    (fqdn : string) (cnames : list string) (connID : string)
    (localIP : IP) (localPort : Z) : Res (Connection * list Event) :=
  let pi := dnsRequestInfo localIP localPort in
  let '(pi, proc, t0) :=
    inheritDNSRequest nowCheck (GetDNSRequestConnection pi) pi in
  let pi :=
    if packet.PID pi =? UndefinedProcessID
    then packet.set_PID (fst (GetPidOfConnection pi)) pi
    else pi in
  let proc :=
    match proc with
    | None => fst (GetProcessWithProfile (packet.PID pi))
    | Some _ => proc
    end in
  let timestamp := nowCreate in
  match proc with
  | None => Panic                                  (* proc.Pid *)
  | Some p =>
      match getProcessContext proc with
      | Panic => Panic
      | Ok (pCtx, t1) =>
          let dnsConn :=
            set_dataComplete true
              (set_Ended timestamp
                (set_Started timestamp
                  (set_ProcessContext pCtx
                    (set_process proc
                      (set_Entity
                         (Some (intel.mkEntity [] 0 0 fqdn cnames netutils.Global))
                         (set_PID (process.Pid p)
                           (set_Scope fqdn
                             (set_Type_ DNSRequest
                               (set_ID connID zeroConnection))))))))) in
          let rest : M unit :=
            (match profile.LocalProfile (process.Profile proc) with
             | Some localProfile =>
                 modify (set_Internal (profile.Internal localProfile)) ;;
                 err <- UpdateFeatures ;;
                 if reportable err
                 then emit (EvLog LWarning "network: failed to check for enabled features: %s")
                 else ret tt
             | None => ret tt
             end) ;;
            UpdateMeta in
          match rest dnsConn with
          | Ok (_, c, t2) => Ok (c, t0 ++ t1 ++ t2)
          | Panic => Panic
          end
      end
  end.

(** [NewConnectionFromExternalDNSRequest]; [Ok (None, _)] is the return of a
    nil connection with the error of [process.GetNetworkHost]. *)
Definition NewConnectionFromExternalDNSRequest (now : Z)
    (fqdn : string) (cnames : list string) (connID : string) (remoteIP : IP)
  : Res (option Connection * list Event) :=
  let (remoteHost, err) := GetNetworkHost remoteIP in
  if err then Ok (None, [])
  else
    let timestamp := now in
    match getProcessContext remoteHost with
    | Panic => Panic
    | Ok (pCtx, t1) =>
        let dnsConn :=
          set_dataComplete true
            (set_Ended timestamp
              (set_Started timestamp
                (set_ProcessContext pCtx
                  (set_process remoteHost
                    (set_Entity
                       (Some (intel.mkEntity [] 0 0 fqdn cnames netutils.Global))
                       (set_PID NetworkHostProcessID
                         (set_Scope fqdn
                           (set_External true
                             (set_Type_ DNSRequest
                               (set_ID connID zeroConnection)))))))))) in
        let rest : M unit :=
          (match profile.LocalProfile (process.Profile remoteHost) with
           | Some localProfile =>
               modify (set_Internal (profile.Internal localProfile)) ;;
               err <- UpdateFeatures ;;
               if reportable err
               then emit (EvLog LWarning "network: failed to check for enabled features: %s")
               else ret tt
           | None => ret tt
           end) ;;
          UpdateMeta in
        match rest dnsConn with
        | Ok (_, c, t2) => Ok (Some c, t1 ++ t2)
        | Panic => Panic
        end
    end.

(** [NewIncompleteConnection].  [now] is the reading of [time.Now().Unix()]
    in the timestamp check. *)
Definition NewIncompleteConnection (now : Z) (pkt : packet.Packet)
  : Connection * list Event :=
  let info := packet.GetInfo pkt in
  let conn :=
    set_dataComplete false
      (set_PID (packet.PID info)
        (set_Started (packet.SeenAt info)
          (set_IPProtocol (packet.Protocol info)
            (set_IPVersion (packet.Version info)
              (set_Type_ IPConnection
                (set_ID (packet.GetConnectionID pkt) zeroConnection)))))) in
  let conn :=
    if Started conn <? tooOldTimestamp then set_Started now conn else conn in
  let conn := set_meta (BaseUpdateMeta (meta conn)) conn in
  (conn, [EvConnsAdd (ID conn)]).

(** The two [switch] statements over [conn.Entity.IPScope]. *)
Definition scopeOf (inbound : bool) (s : netutils.IPScope) : string :=
  if inbound then
    match s with
    | netutils.HostLocal => IncomingHost
    | netutils.LinkLocal | netutils.SiteLocal | netutils.LocalMulticast =>
        IncomingLAN
    | netutils.Global | netutils.GlobalMulticast => IncomingInternet
    | netutils.Undefined | netutils.Invalid => IncomingInvalid
    end
  else
    match s with
    | netutils.HostLocal => PeerHost
    | netutils.LinkLocal | netutils.SiteLocal | netutils.LocalMulticast =>
        PeerLAN
    | netutils.Global | netutils.GlobalMulticast => PeerInternet
    | netutils.Undefined | netutils.Invalid => PeerInvalid
    end.

(** *** GatherConnectionInfo, block by block *)

(** "Create remote entity." *)
Definition gatherEntity (pkt : packet.Packet) : M unit :=
  c <- get ;;
  match Entity c with
  | Some _ => ret tt
  | None =>
      let info := packet.GetInfo pkt in
      let e :=
        EntityInit
          (intel.mkEntity (InfoRemoteIP info) (packet.Protocol info)
             (InfoRemotePort info) "" [] netutils.Undefined)
          (packet.DstPort info) in
      modify (set_Entity (Some e)) ;;
      SetLocalIP (InfoLocalIP info) ;;
      modify (set_LocalPort (InfoLocalPort info)) ;;
      c <- get ;;
      modify (set_Scope (scopeOf (Inbound c) (intel.IPScope e)))
  end.

(** "Get PID if not yet available." *)
Definition gatherPID (pkt : packet.Packet) : M unit :=
  c <- get ;;
  if PID c =? UndefinedProcessID then
    let r := GetPidOfConnection (packet.GetInfo pkt) in
    modify (set_PID (fst r)) ;;
    modify (set_Inbound (snd r))
  else ret tt.

(** "Get Process and Profile." *)
Definition gatherProcess (pkt : packet.Packet) : M unit :=
  c <- get ;;
  match process c with
  | Some _ => ret tt
  | None =>
      let r := GetProcessWithProfile (PID c) in
      modify (set_process (fst r)) ;;
      if snd r then
        if packet.InfoOnly pkt then
          modify (set_process None) ;;
          emit (EvLog LDebug "network: failed to get process and profile of PID %d: %s")
        else
          emit (EvLog LWarning "network: failed to get process and profile of PID %d: %s")
      else ret tt
  end.

(** "Apply process/profile info to connection." *)
Definition gatherProfile : M unit :=
  c <- get ;;
  match process c with
  | Some _ =>
      if ProfileRevisionCounter c =? 0 then
        pCtx <- liftR (getProcessContext (process c)) ;;
        modify (set_ProcessContext pCtx) ;;
        modify (set_ProfileRevisionCounter
                  (profile.RevisionCnt (process.Profile (process c)))) ;;
        match profile.LocalProfile (process.Profile (process c)) with
        | Some localProfile =>
            modify (set_Internal (profile.Internal localProfile)) ;;
            err <- UpdateFeatures ;;
            if reportable err
            then emit (EvLog LWarning "network: connection %s failed to check for enabled features: %s")
            else ret tt
        | None => ret tt
        end
      else ret tt
  | None => ret tt
  end.

(** [conn.Entity.Domain == ""]; dereferencing a nil entity panics. *)
Definition entityDomainEmpty : M bool :=
  c <- get ;;
  match Entity c with
  | None => panic
  | Some e => ret (String.eqb (intel.Domain e) "")
  end.

(** "Find domain and DNS context of entity." *)
Definition gatherDomain (pkt : packet.Packet) : M unit :=
  empty <- entityDomainEmpty ;;
  c <- get ;;
  match process.Profile (process c) with
  | Some lp =>
      if empty then
        match profile.localProfile lp, Entity c, process c with
        | Some localProfile, Some e, Some p =>
            let ip := IPString (InfoRemoteIP (packet.GetInfo pkt)) in
            let ipinfo :=
              match GetIPInfo (profile.ID localProfile) ip with
              | Some i => Some i
              | None => GetIPInfo IPInfoProfileScopeGlobal ip
              end in
            match ipinfo with
            | Some i =>
                match resolver.MostRecentDomain i with
                | Some lastResolvedDomain =>
                    let d := resolver.Domain lastResolvedDomain in
                    modify (set_Scope d) ;;
                    modify (set_Entity
                              (Some (intel.set_CNAME
                                       (resolver.CNAMEs lastResolvedDomain)
                                       (intel.set_Domain d e)))) ;;
                    modify (set_DNSContext
                              (resolver.DNSRequestContext_ lastResolvedDomain)) ;;
                    modify (set_Resolver (resolver.Resolver lastResolvedDomain)) ;;
                    emit (EvRemoveOpenDNSRequest (process.Pid p) d)
                | None => ret tt
                end
            | None => ret tt
            end
        | _, _, _ => panic
        end
      else ret tt
  | None => ret tt
  end.

(** "Check if destination IP is the captive portal's IP." *)
Definition gatherCaptivePortal (pkt : packet.Packet) : M unit :=
  empty <- entityDomainEmpty ;;
  if empty then
    let portal := GetCaptivePortal in
    if IPEqual (InfoRemoteIP (packet.GetInfo pkt)) (netenv.PortalIP portal) then
      modify (set_Scope (netenv.PortalDomain portal)) ;;
      c <- get ;;
      match Entity c with
      | Some e =>
          modify (set_Entity
                    (Some (intel.set_Domain (netenv.PortalDomain portal) e)))
      | None => panic
      end
    else ret tt
  else ret tt.

(** The guard of the last [switch]: which case is taken. *)
Definition haveAllData (pkt : packet.Packet) (c : Connection) : bool :=
  if packet.InfoOnly pkt then false
  else
    match process c with
    | None => false
    | Some _ =>
        match process.Profile (process c) with
        | None => false
        | Some _ =>
            match Entity c with
            | None => false
            | Some _ => true
            end
        end
    end.

(** "Check if we have all required data for a complete packet." *)
Definition gatherComplete (pkt : packet.Packet) : M unit :=
  c <- get ;;
  if haveAllData pkt c then modify (set_dataComplete true) else ret tt.

Definition GatherConnectionInfo (pkt : packet.Packet) : M unit :=
  gatherEntity pkt ;;
  gatherPID pkt ;;
  if packet.InfoOnly pkt then ret tt
  else
    gatherProcess pkt ;;
    gatherProfile ;;
    gatherDomain pkt ;;
    gatherCaptivePortal pkt ;;
    gatherComplete pkt.

(** ** Verdict setters *)

(** [SetVerdictDirectly] sets the firewall verdict. *)
Definition SetVerdictDirectly (newVerdict : Verdict) (c : Connection)
  : Connection :=
  set_Verdict_
    (mkVerdictTriple (Worst (Verdict_ c)) (Active (Verdict_ c)) newVerdict) c.

(** [SetVerdict]; the result is the connection and the returned [ok]. *)
Definition SetVerdict (newVerdict : Verdict) (reason reasonOptionKey : string)
    (reasonCtx : option string) (c : Connection) : Connection * bool :=
  let c := SetVerdictDirectly newVerdict c in
  (* Set reason and context. *)
  let c := set_Reason (Reason.set_Msg reason (Reason c)) c in
  let c := set_Reason (Reason.set_Context reasonCtx (Reason c)) c in
  (* Reset option key. *)
  let c := set_Reason (Reason.set_OptionKey "" (Reason c)) c in
  let c := set_Reason (Reason.set_Profile "" (Reason c)) c in
  (* Set option key if data is available. *)
  let c :=
    if negb (String.eqb reasonOptionKey "") then
      match process.Profile (Process_ c) with
      | Some lp =>
          let c := set_Reason (Reason.set_OptionKey reasonOptionKey (Reason c)) c in
          set_Reason
            (Reason.set_Profile
               (profile.profileSource lp (Reason.OptionKey (Reason c)))
               (Reason c)) c
      | None => c
      end
    else c in
  (c, true).

(** The shape shared by [AcceptWithContext], [BlockWithContext],
    [DropWithContext] and [FailedWithContext]: set the verdict, warn when
    [SetVerdict] reports failure. *)
Definition setOrWarn (v : Verdict) (warning : string)
    (reason reasonOptionKey : string) (ctx : option string) (c : Connection)
  : Connection * list Event :=
  let (c', ok) := SetVerdict v reason reasonOptionKey ctx c in
  if negb ok then (c', [EvLog LWarning warning]) else (c', []).

Definition AcceptWithContext :=
  setOrWarn VerdictAccept "filter: tried to accept %s, but current verdict is %s".

Definition Accept (reason reasonOptionKey : string) :=
  AcceptWithContext reason reasonOptionKey None.

Definition BlockWithContext :=
  setOrWarn VerdictBlock "filter: tried to block %s, but current verdict is %s".

Definition Block (reason reasonOptionKey : string) :=
  BlockWithContext reason reasonOptionKey None.

Definition DropWithContext :=
  setOrWarn VerdictDrop "filter: tried to drop %s, but current verdict is %s".

Definition Drop (reason reasonOptionKey : string) :=
  DropWithContext reason reasonOptionKey None.

Definition DenyWithContext (reason reasonOptionKey : string)
    (ctx : option string) (c : Connection) : Connection * list Event :=
  if Inbound c then DropWithContext reason reasonOptionKey ctx c
  else BlockWithContext reason reasonOptionKey ctx c.

Definition Deny (reason reasonOptionKey : string) :=
  DenyWithContext reason reasonOptionKey None.

Definition FailedWithContext :=
  setOrWarn VerdictFailed
    "filter: tried to drop %s due to error but current verdict is %s".

Definition Failed (reason reasonOptionKey : string) :=
  FailedWithContext reason reasonOptionKey None.

(** A verdict assignment, as a firewall handler can issue it. *)
Inductive VerdictCall : Type :=
| CallAccept (reason reasonOptionKey : string)
| CallAcceptWithContext (reason reasonOptionKey : string) (ctx : option string)
| CallBlock (reason reasonOptionKey : string)
| CallBlockWithContext (reason reasonOptionKey : string) (ctx : option string)
| CallDrop (reason reasonOptionKey : string)
| CallDropWithContext (reason reasonOptionKey : string) (ctx : option string)
| CallDeny (reason reasonOptionKey : string)
| CallDenyWithContext (reason reasonOptionKey : string) (ctx : option string)
| CallFailed (reason reasonOptionKey : string)
| CallFailedWithContext (reason reasonOptionKey : string) (ctx : option string)
| CallSetVerdict (v : Verdict) (reason reasonOptionKey : string)
    (ctx : option string)
| CallSetVerdictDirectly (v : Verdict).

Definition call (k : VerdictCall) (c : Connection) : Connection :=
  match k with
  | CallAccept r o => fst (Accept r o c)
  | CallAcceptWithContext r o x => fst (AcceptWithContext r o x c)
  | CallBlock r o => fst (Block r o c)
  | CallBlockWithContext r o x => fst (BlockWithContext r o x c)
  | CallDrop r o => fst (Drop r o c)
  | CallDropWithContext r o x => fst (DropWithContext r o x c)
  | CallDeny r o => fst (Deny r o c)
  | CallDenyWithContext r o x => fst (DenyWithContext r o x c)
  | CallFailed r o => fst (Failed r o c)
  | CallFailedWithContext r o x => fst (FailedWithContext r o x c)
  | CallSetVerdict v r o x => fst (SetVerdict v r o x c)
  | CallSetVerdictDirectly v => SetVerdictDirectly v c
  end.

(** The verdict that a call assigns on connection [c]. *)
Definition assigned (k : VerdictCall) (c : Connection) : Verdict :=
  match k with
  | CallAccept _ _ | CallAcceptWithContext _ _ _ => VerdictAccept
  | CallBlock _ _ | CallBlockWithContext _ _ _ => VerdictBlock
  | CallDrop _ _ | CallDropWithContext _ _ _ => VerdictDrop
  | CallDeny _ _ | CallDenyWithContext _ _ _ =>
      if Inbound c then VerdictDrop else VerdictBlock
  | CallFailed _ _ | CallFailedWithContext _ _ _ => VerdictFailed
  | CallSetVerdict v _ _ _ | CallSetVerdictDirectly v => v
  end.

(** Calls made one after the other. *)
Definition calls (ks : list VerdictCall) (c : Connection) : Connection :=
  fold_left (fun c k => call k c) ks c.

(** The verdicts assigned by [ks], oldest first. *)
Fixpoint assignments (ks : list VerdictCall) (c : Connection) : list Verdict :=
  match ks with
  | [] => []
  | k :: ks' => assigned k c :: assignments ks' (call k c)
  end.

(** ** Persistence *)

(** [Save]. *)
Definition Save : M unit :=
  UpdateMeta ;;
  c <- get ;;
  (* Do not save/update until data is complete. *)
  if negb (DataIsComplete c) then ret tt
  else
    (if negb (KeyIsSet c) then
       match process c with
       | None => panic                              (* conn.process.Pid *)
       | Some p =>
           match Type_ c with
           | DNSRequest =>
               SetKey (makeKey (process.Pid p) dbScopeDNS (ID c)) ;;
               emit (EvDnsConnsAdd (ID c))
           | _ =>
               SetKey (makeKey (process.Pid p) dbScopeIP (ID c)) ;;
               emit (EvConnsAdd (ID c))
           end
       end
     else ret tt) ;;
    emit (EvAddToMetrics (ID c)) ;;
    modify addToMetrics ;;
    (* notify database controller *)
    c <- get ;;
    emit (EvPushUpdate c).

(** [delete]; [conn.Meta().Delete()] panics on a nil metadata pointer. *)
Definition delete : M unit :=
  c <- get ;;
  (match Type_ c with
   | IPConnection => emit (EvConnsDelete (ID c))
   | _ => emit (EvDnsConnsDelete (ID c))
   end) ;;
  (match meta c with
   | Some m => modify (set_meta (Some (BaseMetaDelete m)))
   | None => panic
   end) ;;
  c <- get ;;
  if DataIsComplete c then emit (EvPushUpdate c) else ret tt.

(** Whether a trace reaches the database collaborator. *)
Definition is_push (e : Event) : bool :=
  match e with EvPushUpdate _ => true | _ => false end.

Definition pushes (t : list Event) : list Event := filter is_push t.

(** ** Packet queue *)

(** The capacity given to [make(chan packet.Packet, 100)]. *)
Definition pktQueueCapacity : nat := 100.

(** A send inside [select] with a [default] case. *)
Inductive SendResult : Type :=
| Sent (ch : Chan)        (* the send case ran *)
| WouldBlock              (* the default case ran *)
| SendOnClosed.           (* panic: send on closed channel *)

Definition trySend (q : option Chan) (pkt : packet.Packet) : SendResult :=
  match q with
  | None => WouldBlock         (* a nil channel is never ready *)
  | Some ch =>
      if chan_closed ch then SendOnClosed
      else if (length (chan_buf ch) <? chan_cap ch)%nat
      then Sent (mkChan (chan_cap ch) (chan_buf ch ++ [pkt]) false)
      else WouldBlock
  end.

(** [SetFirewallHandler]; a nil handler is [None]. *)
Definition SetFirewallHandler (handler : option FirewallHandler) : M unit :=
  match handler with
  | None => ret tt
  | Some h =>
      (* Initialize packet queue, if needed. *)
      c <- get ;;
      (if negb (pktQueueActive c) then
         modify (set_pktQueue (Some (mkChan pktQueueCapacity [] false))) ;;
         modify (set_pktQueueActive true)
       else ret tt) ;;
      (* Start packet handler worker when new handler is set. *)
      c <- get ;;
      (match firewallHandler c with
       | None => emit (EvStartWorker "packet handler")
       | Some _ => ret tt
       end) ;;
      (* Set new handler. *)
      modify (set_firewallHandler (Some h))
  end.

(** [UpdateFirewallHandler]. *)
Definition UpdateFirewallHandler (handler : option FirewallHandler) : M unit :=
  c <- get ;;
  match handler, firewallHandler c with
  | Some h, Some _ => modify (set_firewallHandler (Some h))
  | _, _ => ret tt
  end.

(** [StopFirewallHandler]; closing a nil or a closed channel panics. *)
Definition StopFirewallHandler : M unit :=
  modify (set_firewallHandler None) ;;
  c <- get ;;
  (if pktQueueActive c then
     match pktQueue c with
     | Some ch =>
         if chan_closed ch then panic
         else
           emit (EvClose ch) ;;
           modify (set_pktQueueActive false)
     | None => panic
     end
   else ret tt) ;;
  modify (set_pktQueue None).

(** [HandlePacket]. *)
Definition HandlePacket (pkt : packet.Packet) : M unit :=
  c <- get ;;
  if pktQueueActive c then
    match trySend (pktQueue c) pkt with
    | Sent ch => modify (set_pktQueue (Some ch))
    | WouldBlock =>
        emit (EvLog LDebug
                "filter: dropping packet %s, as there is no space in the connection's handling queue") ;;
        emit (EvPacketDrop pkt)
    | SendOnClosed => panic
    end
  else
    (* Run default handler. *)
    modify (fun c => defaultFirewallHandler c pkt) ;;
    (* Record metrics. *)
    emit (EvHistogram (packet.SeenAt (packet.GetInfo pkt))).

(** The receive [pkt := <-pktQueue] of the worker, seen from the connection:
    while the handler is attached the worker's channel is the connection's. *)
Definition workerReceive (c : Connection) : Connection :=
  match pktQueue c with
  | Some ch =>
      match chan_buf ch with
      | _ :: rest => set_pktQueue (Some (mkChan (chan_cap ch) rest (chan_closed ch))) c
      | [] => c
      end
  | None => c
  end.

(** The operations that touch the queue fields, and any other update of the
    connection that leaves them alone. *)
Inductive QueueStep : Connection -> Connection -> Prop :=
| StepSetFirewallHandler c h c' t :
    SetFirewallHandler h c = Ok (tt, c', t) -> QueueStep c c'
| StepUpdateFirewallHandler c h c' t :
    UpdateFirewallHandler h c = Ok (tt, c', t) -> QueueStep c c'
| StepStopFirewallHandler c c' t :
    StopFirewallHandler c = Ok (tt, c', t) -> QueueStep c c'
| StepHandlePacket c pkt c' t :
    HandlePacket pkt c = Ok (tt, c', t) -> QueueStep c c'
| StepWorkerReceive c :
    QueueStep c (workerReceive c)
| StepOther c c' :
    pktQueue c' = pktQueue c -> pktQueueActive c' = pktQueueActive c ->
    QueueStep c c'.

(** The connections that the program can hold: made by a constructor, then
    changed step by step. *)
Inductive Reachable : Connection -> Prop :=
| ReachIncomplete now pkt :
    Reachable (fst (NewIncompleteConnection now pkt))
| ReachDNSRequest nowCheck nowCreate fqdn cnames connID localIP localPort c t :
    NewConnectionFromDNSRequest nowCheck nowCreate fqdn cnames connID
      localIP localPort = Ok (c, t) ->
    Reachable c
| ReachExternalDNSRequest now fqdn cnames connID remoteIP c t :
    NewConnectionFromExternalDNSRequest now fqdn cnames connID remoteIP
      = Ok (Some c, t) ->
    Reachable c
| ReachStep c c' :
    Reachable c -> QueueStep c c' -> Reachable c'.

(** ** Predicates used by the statements *)

(** A pre-registered DNS request entry is live at time [now]: it has not
    ended, or it ended within the last three seconds. *)
Definition live (now : Z) (d : Connection) : Prop :=
  Ended d = 0 \/ now - 3 <= Ended d.

(** The entry may donate its PID and process. *)
Definition donor (now : Z) (found : option Connection) (d : Connection) : Prop :=
  found = Some d /\ 0 <= PID d /\ live now d.

Definition is_some {A : Type} (o : option A) : bool :=
  match o with Some _ => true | None => false end.

(** The condition of the spec for marking the data complete, read on the
    connection as the call leaves it. *)
Definition completeCondition (pkt : packet.Packet) (c : Connection) : bool :=
  negb (packet.InfoOnly pkt)
  && is_some (process c)
  && is_some (process.Profile (process c))
  && is_some (Entity c).

(** A process whose layered profile, if any, carries a local profile. *)
Definition profiled (p : option process.Process) : Prop :=
  match process.Profile p with
  | Some lp => profile.localProfile lp <> None
  | None => True
  end.

(** What the later blocks of [GatherConnectionInfo] dereference. *)
Definition ready (c : Connection) : Prop :=
  Entity c <> None /\ profiled (process c).

(** The queue of an active connection: allocated, open, of capacity 100 and
    holding no more than that. *)
Definition QueueInv (c : Connection) : Prop :=
  pktQueueActive c = true ->
  exists ch,
    pktQueue c = Some ch /\ chan_cap ch = pktQueueCapacity /\
    chan_closed ch = false /\ (length (chan_buf ch) <= pktQueueCapacity)%nat.

(** A run from [c] returns, and its result satisfies [Q]. *)
Definition returns {A : Type} (m : M A) (c : Connection)
    (Q : A -> Connection -> Prop) : Prop :=
  exists a c' t, m c = Ok (a, c', t) /\ Q a c'.

(** Whenever a run returns, the projection [f] of the connection is as it
    was. *)
Definition keeps {A X : Type} (f : Connection -> X) (m : M A) : Prop :=
  forall c a c' t, m c = Ok (a, c', t) -> f c' = f c.

(** The reason that [SetVerdict] leaves behind depends on its arguments and
    on the process of the connection, and on nothing else. *)
Definition reasonFor (reason reasonOptionKey : string) (ctx : option string)
    (proc : option process.Process) : Reason.t :=
  if negb (reasonOptionKey =? "")%string then
    match process.Profile proc with
    | Some lp =>
        Reason.mk reason reasonOptionKey
          (profile.profileSource lp reasonOptionKey) ctx
    | None => Reason.mk reason "" "" ctx
    end
  else Reason.mk reason "" "" ctx.

(** ** The worker's side of the queue *)

(** The receive [pkt := <-pktQueue] together with the packet it yields;
    nothing is taken from an empty or absent queue. *)
Definition workerTake (c : Connection) : option packet.Packet * Connection :=
  match pktQueue c with
  | Some ch =>
      match chan_buf ch with
      | pkt :: rest =>
          (Some pkt,
           set_pktQueue (Some (mkChan (chan_cap ch) rest (chan_closed ch))) c)
      | [] => (None, c)
      end
  | None => (None, c)
  end.

(** [n] receives in a row: the packets taken, oldest first. *)
Fixpoint drain (n : nat) (c : Connection) : list packet.Packet * Connection :=
  match n with
  | O => ([], c)
  | S n' =>
      match workerTake c with
      | (Some pkt, c1) => let (l, c2) := drain n' c1 in (pkt :: l, c2)
      | (None, c1) => ([], c1)
      end
  end.

(** What [HandlePacket] writes to the trace for a packet that finds the
    queue full. *)
Definition dropTrace (pkt : packet.Packet) : list Event :=
  [EvLog LDebug
     "filter: dropping packet %s, as there is no space in the connection's handling queue";
   EvPacketDrop pkt].

(** The contents of the queue; empty when there is none. *)
Definition queued (c : Connection) : list packet.Packet :=
  match pktQueue c with Some ch => chan_buf ch | None => [] end.

(** ** More predicates used by the statements *)

(** Whenever a run returns, it has kept [P]. *)
Definition sustains {A : Type} (P : Connection -> Prop) (m : M A) : Prop :=
  forall c a c' t, P c -> m c = Ok (a, c', t) -> P c'.

(** Whenever a run returns, the connections before and after are related by
    [R]. *)
Definition relates {A : Type} (R : Connection -> Connection -> Prop)
    (m : M A) : Prop :=
  forall c a c' t, m c = Ok (a, c', t) -> R c c'.

(** Whenever a run returns, every entry of its trace satisfies [P]. *)
Definition emits_only {A : Type} (P : Event -> Prop) (m : M A) : Prop :=
  forall c a c' t, m c = Ok (a, c', t) -> Forall P t.

(** Trace entries that stay inside the correlator: log lines and the release
    of an open DNS request.  Everything else registers, counts, pushes, drops
    or starts something. *)
Definition internal_event (e : Event) : Prop :=
  match e with
  | EvLog _ _ | EvRemoveOpenDNSRequest _ _ => True
  | _ => False
  end.

(** The registry entries of a trace. *)
Definition is_registry_add (e : Event) : bool :=
  match e with EvConnsAdd _ | EvDnsConnsAdd _ => true | _ => false end.

(** The entity has a domain. *)
Definition hasDomain (c : Connection) : Prop :=
  match Entity c with
  | Some e => intel.Domain e <> ""
  | None => False
  end.

(** What [UpdateFeatures] computes for [HistoryEnabled]. *)
Definition historyAllowed (user : option access.User) (c : Connection) : bool :=
  negb (Internal c)
  && match Entity c with
     | Some e => negb (netutils.IsLocalhost (intel.IPScope e))
     | None => false
     end
  && MayUse user access.FeatureHistory
  && match process.Profile (process c) with
     | Some lProfile => profile.enableHistory lProfile
     | None => false
     end.

(** The calls that carry a reason: all but [SetVerdictDirectly]. *)
Definition carriesReason (k : VerdictCall) : bool :=
  match k with
  | CallSetVerdictDirectly _ => false
  | _ => true
  end.

(** The connection has neither a handler nor a queue. *)
Definition detached (c : Connection) : Prop :=
  firewallHandler c = None /\ pktQueue c = None /\ pktQueueActive c = false.

(** An inactive queue of a connection the program can hold is nil. *)
Definition QueueNil (c : Connection) : Prop :=
  pktQueueActive c = false -> pktQueue c = None.

(** Who the remote entity is, apart from its names: these parts are fixed
    when the entity is created. *)
Definition entityCore (e : intel.Entity)
  : IP * Z * Z * netutils.IPScope :=
  (intel.IP_ e, intel.Protocol e, intel.Port e, intel.IPScope e).

(** The entity of [c'] is the entity of [c] up to its names, and the local
    address is the same. *)
Definition sameEndpoints (c c' : Connection) : Prop :=
  forall e,
    Entity c = Some e ->
    exists e',
      Entity c' = Some e' /\ entityCore e' = entityCore e
      /\ LocalIP c' = LocalIP c /\ LocalIPScope c' = LocalIPScope c
      /\ LocalPort c' = LocalPort c.

(** The connection has an entity, and if the entity has a domain the scope
    is that domain. *)
Definition scopeFollowsDomain (c : Connection) : Prop :=
  match Entity c with
  | Some e => intel.Domain e = "" \/ Scope c = intel.Domain e
  | None => False
  end.

(** [GatherConnectionInfo] called for one packet after the other. *)
Fixpoint gatherAll (pkts : list packet.Packet) : M unit :=
  match pkts with
  | [] => ret tt
  | pkt :: rest => GatherConnectionInfo pkt ;; gatherAll rest
  end.

End Network.

(** ** A concrete environment

    Used to run the model on examples. *)

Definition demoProfile : profile.Profile :=
  profile.mkProfile "app-7" "Browser" "local" false.

Definition demoLayered : profile.LayeredProfile :=
  profile.mkLayeredProfile (Some demoProfile) 1 true (fun _ => "local/app-7").

Definition demoProcess : process.Process :=
  process.mkProcess "browser" "/usr/bin/browser" "browser --new" 4711
    1700000000 (Some demoLayered).

Definition donorProcess : process.Process :=
  process.mkProcess "resolver-client" "/usr/bin/client" "client" 9001
    1700000000 (Some demoLayered).

(** The environment, given the table of pre-registered DNS request
    connections. *)
Definition demoEnvWith (dnsRequests : packet.Info -> option Connection)
  : Collaborators := {|
  UndefinedProcessID := -1;
  GetPidOfConnection := fun _ => (4711, false);
  GetProcessWithProfile := fun _ => (Some demoProcess, false);
  NetworkHostProcessID := -255;
  GetNetworkHost := fun _ => (Some demoProcess, false);
  GetDNSRequestConnection := dnsRequests;
  defaultFirewallHandler := fun c _ => c;
  addToMetrics := set_addedToMetrics true;
  makeKey := fun _ scope id => String.append scope (String.append "/" id);
  dbScopeDNS := "dns";
  dbScopeIP := "ip";
  IncomingHost := "IH";
  IncomingLAN := "IL";
  IncomingInternet := "II";
  IncomingInvalid := "IX";
  PeerHost := "PH";
  PeerLAN := "PL";
  PeerInternet := "PI";
  PeerInvalid := "PX";
  InfoRemoteIP := fun i => if packet.Inbound i then packet.Src i else packet.Dst i;
  InfoLocalIP := fun i => if packet.Inbound i then packet.Dst i else packet.Src i;
  InfoRemotePort := fun i => if packet.Inbound i then packet.SrcPort i else packet.DstPort i;
  InfoLocalPort := fun i => if packet.Inbound i then packet.DstPort i else packet.SrcPort i;
  To4 := fun ip => if (length ip =? 4)%nat then Some ip else None;
  IPString := fun _ => "ip";
  IPEqual := fun _ _ => false;
  GetIPScope := fun _ => netutils.Global;
  EntityInit := fun e _ => e;
  GetCaptivePortal := netenv.mkCaptivePortal [] "";
  GetIPInfo := fun _ _ => None;
  IPInfoProfileScopeGlobal := "global";
  GetUser := (None, Some access.ErrNotLoggedIn);
  MayUse := fun _ _ => false;
  BaseUpdateMeta := fun m => match m with Some x => Some x | None => Some (mkMeta 0 0 0) end;
  BaseMetaDelete := fun m => mkMeta (Created m) (Modified m) 1;
  defaultFirewallHandler_queue := fun _ _ => conj eq_refl eq_refl
|}.

Definition demoEnv : Collaborators := demoEnvWith (fun _ => None).

(** An outbound TCP packet seen on 2023-11-14. *)
Definition demoInfo : packet.Info :=
  packet.mkInfo false packet.IPv4 6 [] 44321 [] 443 4711 1700000000.

Definition demoPacket : packet.Packet :=
  packet.mkPacket demoInfo false false "conn-1".

(** The same packet with a timestamp of 1970. *)
Definition stalePacket : packet.Packet :=
  packet.mkPacket (packet.mkInfo false packet.IPv4 6 [] 44321 [] 443 4711 0)
    false false "conn-2".

(** A fresh incomplete connection, and the same with a handler attached. *)
Definition demoConn : Connection :=
  fst (NewIncompleteConnection (env := demoEnv) 1700000001 demoPacket).

Definition demoAttached : Connection :=
  match SetFirewallHandler (Some 1%nat) demoConn with
  | Ok (_, c, _) => c
  | Panic => demoConn
  end.

(** A pre-registered DNS request connection of PID 9001 that ended at
    [ended]. *)
Definition demoDonor (ended : Z) : Connection :=
  set_dataComplete true
    (set_Ended ended
      (set_process (Some donorProcess)
        (set_PID 9001
          (set_Type_ DNSRequest (set_ID "dns-1" zeroConnection))))).

(** Packets handed to [HandlePacket] one after the other; the traces are
    concatenated. *)
Fixpoint handleAll {env : Collaborators} (pkts : list packet.Packet)
    (c : Connection) : Res (Connection * list Event) :=
  match pkts with
  | [] => Ok (c, [])
  | pkt :: rest =>
      match HandlePacket pkt c with
      | Ok (_, c1, t1) =>
          match handleAll rest c1 with
          | Ok (c2, t2) => Ok (c2, t1 ++ t2)
          | Panic => Panic
          end
      | Panic => Panic
      end
  end.

Definition queueLength (c : Connection) : nat :=
  match pktQueue c with Some ch => length (chan_buf ch) | None => 0 end.

(** ** The packet handler worker

    [packetHandlerWorker] and [packetHandlerHandleConn].  What the worker
    meets while it runs is given from outside: the packets it receives, and
    for the one-millisecond wait whether the next packet is there in time. *)

Section Worker.

Context {env : Collaborators}.

(** The installed handlers as functions.  A handler may call methods of the
    connection; what they emit is the handler's trace. *)
Variable callHandler :
  FirewallHandler -> Connection -> packet.Packet -> Connection * list Event.

(** [pkt.IsOutbound()]. *)
Variable IsOutbound : packet.Packet -> bool.

(** [conn.firewallHandler(conn, pkt)]. *)
Definition runHandler (h : FirewallHandler) (pkt : packet.Packet) : M unit :=
  fun c => let (c', t) := callHandler h c pkt in Ok (tt, c', t).

(** [conn.Verdict.Firewall != VerdictUndecided]. *)
Definition verdictDecided (c : Connection) : bool :=
  match Firewall (Verdict_ c) with
  | VerdictUndecided => false
  | _ => true
  end.

(** [packetHandlerHandleConn]; [tracer] tells whether [log.AddTracer] gave a
    tracer. *)
Definition packetHandlerHandleConn (tracer : bool) (pkt : packet.Packet)
  : M unit :=
  c <- get ;;
  match firewallHandler c with
  | None =>
      (* Run default handler. *)
      modify (fun c => defaultFirewallHandler c pkt) ;;
      (* Record metrics. *)
      emit (EvHistogram (packet.SeenAt (packet.GetInfo pkt)))
  | Some h =>
      (if tracer then emit (EvLog LTrace "filter: handling packet: %s")
       else ret tt) ;;
      (* Handle packet with set handler. *)
      runHandler h pkt ;;
      (* Record metrics. *)
      emit (EvHistogram (packet.SeenAt (packet.GetInfo pkt))) ;;
      (* Log result and submit trace. *)
      c <- get ;;
      (if DataIsComplete c then
         emit (EvLog LInfo "filter: connection %s %s: %s")
       else if verdictDecided c then
         emit (EvLog LDebug "filter: connection %s fast-tracked")
       else
         emit (EvLog LDebug "filter: gathered data on connection %s")) ;;
      (* Push changes, if there are any. *)
      if saveWhenFinished c then
        modify (set_saveWhenFinished false) ;;
        Save
      else ret tt
  end.

(** The local [pktSeq] of the worker and the process-wide flag
    [infoOnlyPacketsActive]. *)
Record WorkerState : Type := mkWorkerState {
  pktSeq : Z;
  infoOnlyPacketsActive : bool
}.

(** How the inner [select] ends. *)
Inductive Arrival : Type :=
| Timeout                                   (* time.After fired *)
| Received (infoPkt : option packet.Packet). (* nil comes from a closed queue *)

(** One turn of the loop for a received non-nil [pkt]: the state after it and
    the packets given to [packetHandlerHandleConn], in that order.  [next] is
    looked at only where the code reaches the inner [select]. *)
Definition workerTurn (st : WorkerState) (pkt : packet.Packet)
    (next : Arrival) : WorkerState * list packet.Packet :=
  let seq := wrap64 (pktSeq st + 1) in
  let active := infoOnlyPacketsActive st in
  if 1 <? seq then
    (* Order correction is only for first packet. *)
    (mkWorkerState seq active, [pkt])
  else if packet.InfoOnly pkt then
    (mkWorkerState seq true, [pkt])
  else if packet.ExpectInfo pkt || (active && IsOutbound pkt) then
    match next with
    | Received (Some infoPkt) =>
        (mkWorkerState (wrap64 (seq + 1)) active, [infoPkt; pkt])
    | Received None | Timeout =>
        (mkWorkerState seq active, [pkt])
    end
  else (mkWorkerState seq active, [pkt]).

(** The loop over the packets that the queue delivers, oldest first.
    [inTime seq] tells, for a wait begun with sequence number [seq], whether
    the packet behind is there before the millisecond is over. *)
Fixpoint workerLoop (inTime : Z -> bool) (st : WorkerState)
    (pkts : list packet.Packet) : WorkerState * list packet.Packet :=
  match pkts with
  | [] => (st, [])
  | pkt :: rest =>
      match rest with
      | [] =>
          let (st1, handled) := workerTurn st pkt Timeout in
          (st1, handled)
      | behind :: rest' =>
          let next :=
            if inTime (wrap64 (pktSeq st + 1))
            then Received (Some behind) else Timeout in
          let (st1, handled) := workerTurn st pkt next in
          match handled with
          | [_; _] =>
              let (st2, l) := workerLoop inTime st1 rest' in
              (st2, handled ++ l)
          | _ =>
              let (st2, l) := workerLoop inTime st1 rest in
              (st2, handled ++ l)
          end
      end
  end.

(** The packets of a list handled one after the other on the connection. *)
Fixpoint handleInOrder (tracer : bool) (pkts : list packet.Packet) : M unit :=
  match pkts with
  | [] => ret tt
  | pkt :: rest =>
      packetHandlerHandleConn tracer pkt ;; handleInOrder tracer rest
  end.

(** What a worker that has handled nothing yet does with the first two
    packets: whether it lets the second pass the first. *)
Definition pullsForward (inTime : Z -> bool) (active : bool)
    (first : packet.Packet) : bool :=
  negb (packet.InfoOnly first)
  && (packet.ExpectInfo first || (active && IsOutbound first))
  && inTime 1.

End Worker.

(** ** Export and import of settings

    The second source file, of package [sync]: the request types and the two
    functions that wrap the serialization library.  The library calls are
    variables. *)

Module sync.

Definition TypeProfile : string := "profile".
Definition TypeSettings : string := "settings".
Definition TypeSingleSetting : string := "single-setting".
Definition ExportTargetGlobal : string := "global".

Record ExportRequest : Type := mkExportRequest {
  From : string;
  Key : string
}.

Record ImportRequest : Type := mkImportRequest {
  Target : string;
  ValidateOnly : bool;
  RawExport : string;
  RawMime : string
}.

Record ImportResult : Type := mkImportResult {
  RestartRequired : bool;
  ReplacesExisting : bool
}.

(** The part of [api.Request] that [serializeExport] touches. *)
Record Request : Type := mkRequest {
  Accept : string;                    (* ar.Header.Get("Accept") *)
  ContentType : option string         (* ar.ResponseHeader "Content-Type" *)
}.

(** The formats of [dsd] that the code tells apart. *)
Inductive Format : Type := JSON | YAML | OtherFormat.

Section Wrappers.

(** The exported value, serialized data and the errors of the libraries. *)
Variables Export Data LibErr : Type.

(** The errors that the two functions return. *)
Inductive Error : Type :=
| FailedToSerialize (cause : LibErr)        (* "failed to serialize data: %w" *)
| ErrIncompatibleFormat                     (* dsd.ErrIncompatibleFormat *)
| FailedToAddChecksum (cause : LibErr)      (* "failed to add checksum: %w" *)
| FailedToParse (cause : LibErr)            (* ErrInvalidImportRequest, wrapped *)
| FailedToVerifyChecksum (cause : LibErr).  (* "failed to verify checksum: %w" *)

Variable MimeDump : Export -> string -> (Data * string * Format) + LibErr.
Variable AddJSONChecksum : Data -> Data + LibErr.
Variable AddYAMLChecksum : Data -> Data + LibErr.
Variable MimeLoad : string -> string -> (Format * Export) + LibErr.
Variable VerifyJSONChecksum : string -> option LibErr.
Variable VerifyYAMLChecksum : string -> option LibErr.

(** [errors.Is(err, filesig.ErrChecksumMissing)]. *)
Variable isChecksumMissing : LibErr -> bool.

(** [serializeExport]: the request as it is left, and the data or the
    error. *)
Definition serializeExport (export : Export) (ar : Request)
  : Request * (Data + Error) :=
  match MimeDump export (Accept ar) with
  | inr err => (ar, inr (FailedToSerialize err))
  | inl (data, mimeType, format) =>
      let ar := mkRequest (Accept ar) (Some mimeType) in
      (* Add checksum. *)
      match format with
      | JSON =>
          match AddJSONChecksum data with
          | inl data' => (ar, inl data')
          | inr err => (ar, inr (FailedToAddChecksum err))
          end
      | YAML =>
          match AddYAMLChecksum data with
          | inl data' => (ar, inl data')
          | inr err => (ar, inr (FailedToAddChecksum err))
          end
      | OtherFormat => (ar, inr ErrIncompatibleFormat)
      end
  end.

(** [parseExport]: what was loaded into [export], and the returned error. *)
Definition parseExport (request : ImportRequest)
  : option Export * option Error :=
  match MimeLoad (RawExport request) (RawMime request) with
  | inr err => (None, Some (FailedToParse err))
  | inl (format, export) =>
      (* Verify checksum, if available. *)
      let err :=
        match format with
        | JSON => VerifyJSONChecksum (RawExport request)
        | YAML => VerifyYAMLChecksum (RawExport request)
        | OtherFormat => None        (* Checksums not supported. *)
        end in
      match err with
      | Some e =>
          if isChecksumMissing e
          then (Some export, Some (FailedToVerifyChecksum e))
          else (Some export, None)
      | None => (Some export, None)
      end
  end.

End Wrappers.

End sync.

(** ** More concrete inputs *)

(** The connection and the trace that a run ends with; the connection it
    started from and no trace if it panics. *)
Definition ran {A : Type} (m : M A) (c : Connection) : Connection :=
  match m c with Ok (_, c', _) => c' | Panic => c end.

Definition traced {A : Type} (m : M A) (c : Connection) : list Event :=
  match m c with Ok (_, _, t) => t | Panic => [] end.

(** [demoEnv] with another captive portal, met by every remote IP. *)
Definition portalEnv : Collaborators := {|
  UndefinedProcessID := @UndefinedProcessID demoEnv;
  GetPidOfConnection := @GetPidOfConnection demoEnv;
  GetProcessWithProfile := @GetProcessWithProfile demoEnv;
  NetworkHostProcessID := @NetworkHostProcessID demoEnv;
  GetNetworkHost := @GetNetworkHost demoEnv;
  GetDNSRequestConnection := @GetDNSRequestConnection demoEnv;
  defaultFirewallHandler := @defaultFirewallHandler demoEnv;
  addToMetrics := @addToMetrics demoEnv;
  makeKey := @makeKey demoEnv;
  dbScopeDNS := @dbScopeDNS demoEnv;
  dbScopeIP := @dbScopeIP demoEnv;
  IncomingHost := @IncomingHost demoEnv;
  IncomingLAN := @IncomingLAN demoEnv;
  IncomingInternet := @IncomingInternet demoEnv;
  IncomingInvalid := @IncomingInvalid demoEnv;
  PeerHost := @PeerHost demoEnv;
  PeerLAN := @PeerLAN demoEnv;
  PeerInternet := @PeerInternet demoEnv;
  PeerInvalid := @PeerInvalid demoEnv;
  InfoRemoteIP := @InfoRemoteIP demoEnv;
  InfoLocalIP := @InfoLocalIP demoEnv;
  InfoRemotePort := @InfoRemotePort demoEnv;
  InfoLocalPort := @InfoLocalPort demoEnv;
  To4 := @To4 demoEnv;
  IPString := @IPString demoEnv;
  IPEqual := fun _ _ => true;
  GetIPScope := @GetIPScope demoEnv;
  EntityInit := @EntityInit demoEnv;
  GetCaptivePortal := netenv.mkCaptivePortal [] "portal.example.";
  GetIPInfo := @GetIPInfo demoEnv;
  IPInfoProfileScopeGlobal := @IPInfoProfileScopeGlobal demoEnv;
  GetUser := @GetUser demoEnv;
  MayUse := @MayUse demoEnv;
  BaseUpdateMeta := @BaseUpdateMeta demoEnv;
  BaseMetaDelete := @BaseMetaDelete demoEnv;
  defaultFirewallHandler_queue := @defaultFirewallHandler_queue demoEnv
|}.

Definition infoOnlyPacket : packet.Packet :=
  packet.mkPacket demoInfo true false "conn-1".

Definition expectInfoPacket : packet.Packet :=
  packet.mkPacket demoInfo false true "conn-1".

(** [demoConn] after its first real packet: complete, with process. *)
Definition demoGathered : Connection :=
  ran (GatherConnectionInfo (env := demoEnv) demoPacket) demoConn.

(** The same with a resolved domain. *)
Definition demoNamed : Connection :=
  set_Entity (Some (intel.mkEntity [] 6 443 "example.com." [] netutils.Global))
    (set_Scope "example.com." demoGathered).

(** A handler that accepts and asks for the connection to be saved. *)
Definition acceptAndSave (_ : FirewallHandler) (c : Connection)
    (_ : packet.Packet) : Connection * list Event :=
  (SaveWhenFinished (fst (Accept "accepted by rule" "" c)), []).

(** The DNS request of the inheritance example, with its trace. *)
Definition demoDNSRequest : Connection * list Event :=
  match NewConnectionFromDNSRequest
          (env := demoEnvWith (fun _ => Some (demoDonor 0)))
          1700000010 1700000010 "a.example." [] "dns-2" [] 55000 with
  | Ok r => r
  | Panic => (zeroConnection, [])
  end.

(** * Properties *)

Section VerdictProperties.

(** ** The verdict setters *)

Lemma SetVerdict_Verdict v reason reasonOptionKey ctx c :
  Verdict_ (fst (SetVerdict v reason reasonOptionKey ctx c))
  = mkVerdictTriple (Worst (Verdict_ c)) (Active (Verdict_ c)) v.
Proof.
  unfold SetVerdict.
  destruct (negb (reasonOptionKey =? "")%string); [|reflexivity].
  cbn. destruct (process.Profile (process c)); reflexivity.
Qed.

Lemma SetVerdict_ok v reason reasonOptionKey ctx c :
  snd (SetVerdict v reason reasonOptionKey ctx c) = true.
Proof. reflexivity. Qed.

Lemma SetVerdict_process v reason reasonOptionKey ctx c :
  process (fst (SetVerdict v reason reasonOptionKey ctx c)) = process c.
Proof.
  unfold SetVerdict.
  destruct (negb (reasonOptionKey =? "")%string); [|reflexivity].
  cbn. destruct (process.Profile (process c)); reflexivity.
Qed.

Lemma SetVerdict_Inbound v reason reasonOptionKey ctx c :
  Inbound (fst (SetVerdict v reason reasonOptionKey ctx c)) = Inbound c.
Proof.
  unfold SetVerdict.
  destruct (negb (reasonOptionKey =? "")%string); [|reflexivity].
  cbn. destruct (process.Profile (process c)); reflexivity.
Qed.

Lemma SetVerdict_Reason v reason reasonOptionKey ctx c :
  Reason (fst (SetVerdict v reason reasonOptionKey ctx c))
  = reasonFor reason reasonOptionKey ctx (process c).
Proof.
  unfold SetVerdict, reasonFor.
  destruct (negb (reasonOptionKey =? "")%string); [|reflexivity].
  cbn. destruct (process.Profile (process c)); reflexivity.
Qed.

Lemma setOrWarn_fst v w reason reasonOptionKey ctx c :
  fst (setOrWarn v w reason reasonOptionKey ctx c)
  = fst (SetVerdict v reason reasonOptionKey ctx c).
Proof. reflexivity. Qed.

Lemma setOrWarn_silent v w reason reasonOptionKey ctx c :
  snd (setOrWarn v w reason reasonOptionKey ctx c) = [].
Proof. reflexivity. Qed.

(** Every call writes the assigned verdict to [Verdict.Firewall] and leaves
    the other two verdict fields as they are. *)
Lemma call_Verdict k c :
  Verdict_ (call k c)
  = mkVerdictTriple (Worst (Verdict_ c)) (Active (Verdict_ c)) (assigned k c).
Proof.
  destruct k; cbn [call assigned];
    unfold Accept, Block, Drop, Deny, Failed, DenyWithContext,
      AcceptWithContext, BlockWithContext, DropWithContext, FailedWithContext;
    try (destruct (Inbound c));
    rewrite ?setOrWarn_fst, ?SetVerdict_Verdict; reflexivity.
Qed.

Lemma last_cons_any {A : Type} (l : list A) (b d d' : A) :
  last (b :: l) d = last (b :: l) d'.
Proof.
  revert b. induction l as [|x l IH]; intros b; [reflexivity|].
  change (last (x :: l) d = last (x :: l) d'). apply IH.
Qed.

Lemma last_cons_default {A : Type} (l : list A) (a d : A) :
  last (a :: l) d = last l a.
Proof.
  destruct l as [|b l]; [reflexivity|].
  change (last (b :: l) d = last (b :: l) a). apply last_cons_any.
Qed.

(** C1, as the code has it: whatever sequence of verdict assignments is made
    (Accept, Block, Drop, Deny, Failed, SetVerdict, SetVerdictDirectly and
    their WithContext forms), [Verdict.Firewall] ends as the verdict assigned
    last, while [Verdict.Worst] and [Verdict.Active] keep the values they had
    before the sequence: these operations never write them. *)
Theorem calls_write_Firewall_only (ks : list VerdictCall) (c : Connection) :
  Firewall (Verdict_ (calls ks c))
    = last (assignments ks c) (Firewall (Verdict_ c))
  /\ Worst (Verdict_ (calls ks c)) = Worst (Verdict_ c)
  /\ Active (Verdict_ (calls ks c)) = Active (Verdict_ c).
Proof.
  revert c. induction ks as [|k ks IH]; intros c.
  - repeat split.
  - change (calls (k :: ks) c) with (calls ks (call k c)).
    change (assignments (k :: ks) c)
      with (assigned k c :: assignments ks (call k c)).
    destruct (IH (call k c)) as (HF & HW & HA).
    rewrite HF, HW, HA, last_cons_default, call_Verdict. repeat split.
Qed.

(** C6: [Deny] and [DenyWithContext] set [Verdict.Firewall] to Drop on an
    inbound connection and to Block on an outbound one. *)
Theorem Deny_by_direction (reason reasonOptionKey : string)
    (ctx : option string) (c : Connection) :
  Firewall (Verdict_ (fst (Deny reason reasonOptionKey c)))
    = (if Inbound c then VerdictDrop else VerdictBlock)
  /\ Firewall (Verdict_ (fst (DenyWithContext reason reasonOptionKey ctx c)))
    = (if Inbound c then VerdictDrop else VerdictBlock).
Proof.
  unfold Deny, DenyWithContext, DropWithContext, BlockWithContext.
  destruct (Inbound c); rewrite !setOrWarn_fst, !SetVerdict_Verdict; split; reflexivity.
Qed.

(** C8, as the code has it: [SetVerdict] replaces the reason wholesale.  Msg
    and Context are the arguments; OptionKey and Profile are the option key
    and its profile source exactly when the option key argument is not empty
    and the process of the connection has a profile, and are empty
    otherwise. *)
Theorem SetVerdict_replaces_Reason (v : Verdict)
    (reason reasonOptionKey : string) (ctx : option string) (c : Connection) :
  let r := Reason (fst (SetVerdict v reason reasonOptionKey ctx c)) in
  Reason.Msg r = reason
  /\ Reason.Context r = ctx
  /\ match process.Profile (Process_ c) with
     | Some lp =>
         if (reasonOptionKey =? "")%string
         then Reason.OptionKey r = "" /\ Reason.Profile r = ""
         else Reason.OptionKey r = reasonOptionKey
              /\ Reason.Profile r = profile.profileSource lp reasonOptionKey
     | None => Reason.OptionKey r = "" /\ Reason.Profile r = ""
     end.
Proof.
  cbv zeta. rewrite SetVerdict_Reason. unfold reasonFor, Process_.
  destruct (reasonOptionKey =? "")%string, (process.Profile (process c));
    cbn; repeat split.
Qed.

(** C9: a second [Accept] with the same arguments leaves the reason as the
    first one left it. *)
Theorem Accept_Reason_idempotent (reason reasonOptionKey : string)
    (c : Connection) :
  Reason (fst (Accept reason reasonOptionKey
                 (fst (Accept reason reasonOptionKey c))))
  = Reason (fst (Accept reason reasonOptionKey c)).
Proof.
  unfold Accept, AcceptWithContext.
  rewrite !setOrWarn_fst, !SetVerdict_Reason, SetVerdict_process.
  reflexivity.
Qed.

End VerdictProperties.

Section MonadLemmas.

(** ** Reasoning about runs *)

Lemma bind_Ok {A B : Type} (m : M A) (k : A -> M B) c b c2 t :
  bind m k c = Ok (b, c2, t) ->
  exists a c1 t1 t2,
    m c = Ok (a, c1, t1) /\ k a c1 = Ok (b, c2, t2) /\ t = t1 ++ t2.
Proof.
  unfold bind. destruct (m c) as [[[a c1] t1]|]; [|discriminate].
  destruct (k a c1) as [[[b' c2'] t2]|] eqn:Hk; [|discriminate].
  intros H. inversion H; subst. exists a, c1, t1, t2. auto.
Qed.

Lemma keeps_ret {A X : Type} (f : Connection -> X) (a : A) : keeps f (ret a).
Proof. intros c a' c' t H. inversion H; subst; reflexivity. Qed.

Lemma keeps_get {X : Type} (f : Connection -> X) : keeps f get.
Proof. intros c a' c' t H. inversion H; subst; reflexivity. Qed.

Lemma keeps_emit {X : Type} (f : Connection -> X) e : keeps f (emit e).
Proof. intros c a' c' t H. inversion H; subst; reflexivity. Qed.

Lemma keeps_panic {A X : Type} (f : Connection -> X) : keeps f (@panic A).
Proof. intros c a' c' t H. discriminate. Qed.

Lemma keeps_modify {X : Type} (f : Connection -> X) g :
  (forall c, f (g c) = f c) -> keeps f (modify g).
Proof. intros Hg c a' c' t H. inversion H; subst. apply Hg. Qed.

Lemma keeps_liftR {A X : Type} (f : Connection -> X)
    (r : Res (A * list Event)) :
  keeps f (liftR r).
Proof.
  intros c a' c' t H. unfold liftR in H.
  destruct r as [[a t0]|]; inversion H; subst; reflexivity.
Qed.

Lemma keeps_bind {A B X : Type} (f : Connection -> X) (m : M A)
    (k : A -> M B) :
  keeps f m -> (forall a, keeps f (k a)) -> keeps f (bind m k).
Proof.
  intros Hm Hk c b c2 t H.
  apply bind_Ok in H as (a & c1 & t1 & t2 & H1 & H2 & _).
  rewrite (Hk a _ _ _ _ H2). exact (Hm _ _ _ _ H1).
Qed.

Lemma returns_ret {A : Type} (a : A) c (Q : A -> Connection -> Prop) :
  Q a c -> returns (ret a) c Q.
Proof. intros H. now exists a, c, []. Qed.

Lemma returns_get c (Q : Connection -> Connection -> Prop) :
  Q c c -> returns get c Q.
Proof. intros H. now exists c, c, []. Qed.

Lemma returns_emit e c (Q : unit -> Connection -> Prop) :
  Q tt c -> returns (emit e) c Q.
Proof. intros H. now exists tt, c, [e]. Qed.

Lemma returns_modify g c (Q : unit -> Connection -> Prop) :
  Q tt (g c) -> returns (modify g) c Q.
Proof. intros H. now exists tt, (g c), []. Qed.

Lemma returns_bind {A B : Type} (m : M A) (k : A -> M B) c
    (Q : B -> Connection -> Prop) :
  returns m c (fun a c1 => returns (k a) c1 Q) -> returns (bind m k) c Q.
Proof.
  intros (a & c1 & t1 & Hm & (b & c2 & t2 & Hk & HQ)).
  exists b, c2, (t1 ++ t2). split; [|exact HQ].
  unfold bind. now rewrite Hm, Hk.
Qed.

Lemma returns_weaken {A : Type} (m : M A) c (Q Q' : A -> Connection -> Prop) :
  returns m c Q -> (forall a c', Q a c' -> Q' a c') -> returns m c Q'.
Proof.
  intros (a & c' & t & Hm & HQ) H. exists a, c', t. split; [exact Hm|now apply H].
Qed.

End MonadLemmas.

Create HintDb keeps.

#[local] Hint Resolve keeps_ret keeps_get keeps_emit keeps_panic keeps_liftR
  : keeps.

(** Splits a [keeps] goal along the structure of the run. *)
Ltac keeps_step :=
  match goal with
  | |- keeps _ (bind _ _) => apply keeps_bind; [|intros ?]
  | |- keeps _ (modify _) => apply keeps_modify; intros ?; reflexivity
  | |- keeps _ (if ?b then _ else _) => destruct b
  | |- keeps _ (match ?o with _ => _ end) => destruct o
  | |- keeps _ (let (_, _) := ?p in _) => destruct p
  | |- keeps _ _ => solve [auto with keeps]
  end.

Ltac keeps_auto := repeat keeps_step.

Section ConnectionProperties.

Context {env : Collaborators}.

(** ** Attaching a handler *)

(** C10: [SetFirewallHandler] with a nil handler returns at once: the
    connection is what it was (no queue allocated, none activated, the
    installed handler unchanged) and nothing is started. *)
Theorem SetFirewallHandler_nil (c : Connection) :
  SetFirewallHandler None c = Ok (tt, c, []).
Proof. reflexivity. Qed.

(** With a handler, on a connection whose queue is not active: the queue is
    allocated empty with capacity 100 and activated, and the handler is
    installed. *)
Lemma SetFirewallHandler_attach (h : FirewallHandler) (c : Connection) :
  pktQueueActive c = false ->
  exists c' t,
    SetFirewallHandler (Some h) c = Ok (tt, c', t)
    /\ pktQueue c' = Some (mkChan 100 [] false)
    /\ pktQueueActive c' = true
    /\ firewallHandler c' = Some h
    /\ (firewallHandler c = None -> t = [EvStartWorker "packet handler"]).
Proof.
  intros Ha. unfold SetFirewallHandler, bind, get, modify, emit, ret. cbn.
  rewrite Ha. cbn. destruct (firewallHandler c); cbn; eexists _, _;
    (split; [reflexivity|]); repeat split; discriminate.
Qed.

(** ** The queue invariant *)

Lemma QueueInv_same c c' :
  pktQueue c' = pktQueue c -> pktQueueActive c' = pktQueueActive c ->
  QueueInv c -> QueueInv c'.
Proof. unfold QueueInv. intros -> ->. auto. Qed.

Lemma QueueInv_inactive c : pktQueueActive c = false -> QueueInv c.
Proof. unfold QueueInv. intros ->. discriminate. Qed.

Lemma SetFirewallHandler_QueueInv h c c' t :
  SetFirewallHandler h c = Ok (tt, c', t) -> QueueInv c -> QueueInv c'.
Proof.
  destruct h as [h|]; cbn.
  - unfold bind, get, modify, emit, ret.
    destruct (pktQueueActive c) eqn:Ha; cbn;
      destruct (firewallHandler c); cbn; intros H; inversion H; subst; clear H;
      intros Hinv.
    + eapply QueueInv_same; [| |exact Hinv]; [reflexivity|cbn; now rewrite Ha].
    + eapply QueueInv_same; [| |exact Hinv]; [reflexivity|cbn; now rewrite Ha].
    + intros _. exists (mkChan pktQueueCapacity [] false).
      cbn. repeat split. apply Nat.le_0_l.
    + intros _. exists (mkChan pktQueueCapacity [] false).
      cbn. repeat split. apply Nat.le_0_l.
  - intros H; inversion H; subst. auto.
Qed.

Lemma UpdateFirewallHandler_QueueInv h c c' t :
  UpdateFirewallHandler h c = Ok (tt, c', t) -> QueueInv c -> QueueInv c'.
Proof.
  unfold UpdateFirewallHandler, bind, get, modify, ret. cbn.
  destruct h, (firewallHandler c); cbn; intros H; inversion H; subst;
    apply QueueInv_same; reflexivity.
Qed.

Lemma StopFirewallHandler_inactive c c' t :
  StopFirewallHandler c = Ok (tt, c', t) -> pktQueueActive c' = false.
Proof.
  unfold StopFirewallHandler, bind, get, modify, emit, ret, panic. cbn.
  destruct (pktQueueActive c) eqn:Ha; cbn.
  - destruct (pktQueue c) as [ch|]; cbn; [|discriminate].
    destruct (chan_closed ch); cbn; [discriminate|].
    intros H; inversion H; reflexivity.
  - intros H; inversion H; subst. cbn. exact Ha.
Qed.

Lemma HandlePacket_QueueInv pkt c c' t :
  HandlePacket pkt c = Ok (tt, c', t) -> QueueInv c -> QueueInv c'.
Proof.
  unfold HandlePacket, bind, get, modify, emit, ret, panic. cbn.
  destruct (pktQueueActive c) eqn:Ha; cbn.
  - intros H Hinv. destruct (Hinv Ha) as (ch & Hq & Hcap & Hopen & Hlen).
    rewrite Hq in H. unfold trySend in H. rewrite Hopen, Hcap in H.
    destruct (length (chan_buf ch) <? pktQueueCapacity)%nat eqn:Hlt;
      cbn in H; inversion H; subst; clear H.
    + intros _. eexists. cbn. split; [reflexivity|]. cbn.
      repeat split.
      rewrite length_app. cbn. apply Nat.ltb_lt in Hlt. lia.
    + exact Hinv.
  - intros H Hinv. inversion H; subst; clear H.
    destruct (defaultFirewallHandler_queue c pkt) as [Hq Hact].
    eapply QueueInv_same; eauto.
Qed.

Lemma workerReceive_QueueInv c : QueueInv c -> QueueInv (workerReceive c).
Proof.
  unfold workerReceive. intros Hinv.
  destruct (pktQueue c) as [ch|] eqn:Hq; [|exact Hinv].
  destruct (chan_buf ch) as [|p rest] eqn:Hbuf; [exact Hinv|].
  intros Ha. destruct (Hinv Ha) as (ch' & Hq' & Hcap & Hopen & Hlen).
  rewrite Hq in Hq'. inversion Hq'; subst ch'.
  eexists. cbn. split; [reflexivity|]. cbn. repeat split; auto.
  rewrite Hbuf in Hlen. cbn in Hlen. lia.
Qed.

Lemma QueueStep_QueueInv c c' : QueueStep c c' -> QueueInv c -> QueueInv c'.
Proof.
  intros Hs. destruct Hs.
  - eapply SetFirewallHandler_QueueInv; eauto.
  - eapply UpdateFirewallHandler_QueueInv; eauto.
  - intros _. apply QueueInv_inactive. eapply StopFirewallHandler_inactive; eauto.
  - eapply HandlePacket_QueueInv; eauto.
  - apply workerReceive_QueueInv.
  - now apply QueueInv_same.
Qed.

Lemma UpdateFeatures_keeps {X : Type} (f : Connection -> X) :
  (forall v c, f (set_HistoryEnabled v c) = f c) ->
  (forall v c, f (set_BandwidthEnabled v c) = f c) ->
  keeps f UpdateFeatures.
Proof.
  intros H1 H2. unfold UpdateFeatures.
  destruct GetUser as [user err].
  destruct (match err with Some e => negb (access.is_ErrNotLoggedIn e) | None => false end).
  - apply keeps_ret.
  - repeat (apply keeps_bind; [|intros ?]);
      try (apply keeps_modify; intros ?; auto);
      auto with keeps.
    destruct (Internal a0); auto with keeps.
    destruct (Entity a0); auto with keeps.
    destruct (netutils.IsLocalhost _); auto with keeps.
    destruct (MayUse _ _); auto with keeps.
    destruct (process.Profile _); auto with keeps.
    apply keeps_modify; intros ?; auto.
Qed.

Lemma UpdateMeta_keeps {X : Type} (f : Connection -> X) :
  (forall v c, f (set_meta v c) = f c) -> keeps f UpdateMeta.
Proof. intros H. apply keeps_modify. intros c. apply H. Qed.

(** What both DNS constructors run on the connection they have built. *)
Lemma inheritInternal_keeps {X : Type} (f : Connection -> X)
    (lp : option profile.Profile) (w : string) :
  (forall v c, f (set_HistoryEnabled v c) = f c) ->
  (forall v c, f (set_BandwidthEnabled v c) = f c) ->
  (forall v c, f (set_Internal v c) = f c) ->
  (forall v c, f (set_meta v c) = f c) ->
  keeps f
    ((match lp with
      | Some localProfile =>
          modify (set_Internal (profile.Internal localProfile)) ;;
          err <- UpdateFeatures ;;
          if reportable err then emit (EvLog LWarning w) else ret tt
      | None => ret tt
      end) ;; UpdateMeta).
Proof.
  intros H1 H2 H3 H4.
  apply keeps_bind; [|intros ?; now apply UpdateMeta_keeps].
  destruct lp; [|apply keeps_ret].
  apply keeps_bind; [apply keeps_modify; intros ?; apply H3|intros ?].
  apply keeps_bind; [now apply UpdateFeatures_keeps|intros err].
  destruct (reportable err); auto with keeps.
Qed.

Lemma NewIncompleteConnection_inactive now pkt :
  pktQueueActive (fst (NewIncompleteConnection now pkt)) = false.
Proof.
  unfold NewIncompleteConnection. cbn.
  match goal with |- context [if ?b then _ else _] => destruct b end;
    reflexivity.
Qed.

Lemma NewConnectionFromDNSRequest_inactive
    nowCheck nowCreate fqdn cnames connID localIP localPort c t :
  NewConnectionFromDNSRequest nowCheck nowCreate fqdn cnames connID
    localIP localPort = Ok (c, t) ->
  pktQueueActive c = false.
Proof.
  unfold NewConnectionFromDNSRequest.
  destruct (inheritDNSRequest _ _ _) as [[pi proc] t0].
  match goal with |- context [match ?p with Some _ => _ | None => Panic end] =>
    destruct p as [p0|] eqn:Hp end; [|discriminate].
  destruct (getProcessContext _) as [[pCtx t1]|]; [|discriminate].
  match goal with |- context [match ?r with Ok _ => _ | Panic => Panic end] =>
    destruct r as [[[u c1] t2]|] eqn:Hrun end; [|discriminate].
  intros H. inversion H; subst.
  rewrite (inheritInternal_keeps pktQueueActive _ _
             (fun _ _ => eq_refl) (fun _ _ => eq_refl)
             (fun _ _ => eq_refl) (fun _ _ => eq_refl) _ _ _ _ Hrun).
  reflexivity.
Qed.

Lemma NewConnectionFromExternalDNSRequest_inactive
    now fqdn cnames connID remoteIP c t :
  NewConnectionFromExternalDNSRequest now fqdn cnames connID remoteIP
    = Ok (Some c, t) ->
  pktQueueActive c = false.
Proof.
  unfold NewConnectionFromExternalDNSRequest.
  destruct (GetNetworkHost remoteIP) as [remoteHost err].
  destruct err; [discriminate|].
  destruct (getProcessContext _) as [[pCtx t1]|]; [|discriminate].
  match goal with |- context [match ?r with Ok _ => _ | Panic => Panic end] =>
    destruct r as [[[u c1] t2]|] eqn:Hrun end; [|discriminate].
  intros H. inversion H; subst.
  rewrite (inheritInternal_keeps pktQueueActive _ _
             (fun _ _ => eq_refl) (fun _ _ => eq_refl)
             (fun _ _ => eq_refl) (fun _ _ => eq_refl) _ _ _ _ Hrun).
  reflexivity.
Qed.

Lemma Reachable_QueueInv c : Reachable c -> QueueInv c.
Proof.
  induction 1.
  - apply QueueInv_inactive, NewIncompleteConnection_inactive.
  - eapply QueueInv_inactive, NewConnectionFromDNSRequest_inactive; eauto.
  - eapply QueueInv_inactive, NewConnectionFromExternalDNSRequest_inactive; eauto.
  - eapply QueueStep_QueueInv; eauto.
Qed.

(** C2: on a connection whose packet queue is active, [HandlePacket] returns
    without waiting and without a panic.  The queue has capacity 100 and
    holds at most 100 packets.  With room left the packet is appended; with
    the queue full the packet is dropped ([pkt.Drop()] runs after the log
    line is written) and the connection is exactly what it was. *)
Theorem HandlePacket_active (c : Connection) (pkt : packet.Packet) :
  Reachable c -> pktQueueActive c = true ->
  exists ch,
    pktQueue c = Some ch /\ chan_cap ch = 100%nat
    /\ (length (chan_buf ch) <= 100)%nat
    /\ ((length (chan_buf ch) < 100)%nat ->
        HandlePacket pkt c
        = Ok (tt, set_pktQueue (Some (mkChan 100 (chan_buf ch ++ [pkt]) false)) c, []))
    /\ (length (chan_buf ch) = 100%nat ->
        HandlePacket pkt c
        = Ok (tt, c,
              [EvLog LDebug
                 "filter: dropping packet %s, as there is no space in the connection's handling queue";
               EvPacketDrop pkt])).
Proof.
  intros Hr Ha.
  destruct (Reachable_QueueInv c Hr Ha) as (ch & Hq & Hcap & Hopen & Hlen).
  exists ch. unfold pktQueueCapacity in *. repeat split; auto.
  - intros Hlt. unfold HandlePacket, bind, get, modify, emit, ret. cbn.
    rewrite Ha, Hq. unfold trySend. rewrite Hopen, Hcap.
    apply Nat.ltb_lt in Hlt. rewrite Hlt. reflexivity.
  - intros Hfull. unfold HandlePacket, bind, get, modify, emit, ret. cbn.
    rewrite Ha, Hq. unfold trySend. rewrite Hopen, Hcap, Hfull.
    reflexivity.
Qed.

(** ** Persistence *)

(** C4: nothing reaches the database collaborator before the data is
    complete.  With [DataIsComplete] false, [Save] only refreshes the record
    metadata: no key, no registry insert, no metrics, no push.  Whenever
    [Save] or [delete] returns, it has pushed the connection exactly once if
    the data was complete and not at all otherwise. *)
Theorem push_only_when_complete (c : Connection) :
  (DataIsComplete c = false ->
   Save c = Ok (tt, set_meta (BaseUpdateMeta (meta c)) c, []))
  /\ (forall c' t, Save c = Ok (tt, c', t) ->
      pushes t = if DataIsComplete c then [EvPushUpdate c'] else [])
  /\ (forall c' t, delete c = Ok (tt, c', t) ->
      pushes t = if DataIsComplete c then [EvPushUpdate c'] else []).
Proof.
  unfold DataIsComplete. split; [|split].
  - intros Hd. unfold Save, UpdateMeta, bind, get, modify, ret, DataIsComplete.
    cbn. rewrite Hd. reflexivity.
  - intros c' t.
    unfold Save, UpdateMeta, SetKey, KeyIsSet, bind, get, modify, emit, ret,
      panic, DataIsComplete.
    cbn. destruct (dataComplete c); cbn.
    + destruct (key c); cbn.
      * intros H; inversion H; subst. reflexivity.
      * destruct (process c); cbn; [|discriminate].
        destruct (Type_ c); cbn; intros H; inversion H; subst; reflexivity.
    + intros H; inversion H; subst. reflexivity.
  - intros c' t.
    unfold delete, bind, get, modify, emit, ret, panic, DataIsComplete. cbn.
    destruct (Type_ c); cbn; (destruct (meta c); cbn; [|discriminate]);
      destruct (dataComplete c); cbn; intros H; inversion H; subst; reflexivity.
Qed.

(** [Save] and [delete] return unless they meet a nil pointer. *)
Lemma Save_returns (c : Connection) :
  (DataIsComplete c = true -> KeyIsSet c = false -> process c <> None) ->
  exists c' t, Save c = Ok (tt, c', t).
Proof.
  unfold Save, UpdateMeta, SetKey, KeyIsSet, bind, get, modify, emit, ret,
    panic, DataIsComplete.
  cbn. intros H. destruct (dataComplete c); cbn; [|eauto].
  destruct (key c); cbn; [eauto|].
  destruct (process c); cbn; [|now destruct H].
  destruct (Type_ c); cbn; eauto.
Qed.

Lemma delete_returns (c : Connection) :
  meta c <> None -> exists c' t, delete c = Ok (tt, c', t).
Proof.
  unfold delete, bind, get, modify, emit, ret, panic, DataIsComplete. cbn.
  intros H. destruct (meta c); [|now destruct H].
  destruct (Type_ c); cbn; destruct (dataComplete c); cbn; eauto.
Qed.

(** ** Construction from a packet *)

(** C7, as the code has it: [Started] is the packet's [SeenAt] when that is
    at or after 2020-01-01T00:00:00Z, and the current time otherwise; so it
    is at or after 2020-01-01 whenever the current time is. *)
Theorem NewIncompleteConnection_Started (now : Z) (pkt : packet.Packet) :
  let seenAt := packet.SeenAt (packet.GetInfo pkt) in
  let c := fst (NewIncompleteConnection now pkt) in
  Started c = (if seenAt <? tooOldTimestamp then now else seenAt)
  /\ (tooOldTimestamp <= now -> tooOldTimestamp <= Started c).
Proof.
  cbv zeta. unfold NewIncompleteConnection. cbn [fst].
  change (Started (set_dataComplete false _)) with
    (packet.SeenAt (packet.GetInfo pkt)).
  destruct (packet.SeenAt (packet.GetInfo pkt) <? tooOldTimestamp) eqn:Hold;
    cbn [Started set_meta set_Started]; split; try reflexivity; intros Hnow.
  - exact Hnow.
  - apply Z.ltb_ge in Hold. exact Hold.
Qed.

(** ** Construction from a DNS request *)

Lemma wrap64_small (z : Z) : in_int64 z -> wrap64 z = z.
Proof.
  unfold in_int64, min_int64, max_int64, wrap64.
  change (2 ^ 63) with 9223372036854775808.
  change (2 ^ 64) with 18446744073709551616.
  intros H. rewrite Z.mod_small; lia.
Qed.


Lemma UpdateFeatures_returns (c : Connection) :
  Entity c <> None -> exists a c' t, UpdateFeatures c = Ok (a, c', t).
Proof.
  intros He. unfold UpdateFeatures.
  destruct GetUser as [user err].
  destruct (match err with Some e => negb (access.is_ErrNotLoggedIn e) | None => false end);
    [unfold ret; eauto|].
  unfold bind, get, modify, emit, ret, panic. cbn.
  destruct (Internal c); cbn; [eauto|].
  destruct (Entity c) as [e|]; [|now destruct He].
  destruct (netutils.IsLocalhost (intel.IPScope e)); cbn; [eauto|].
  destruct (MayUse user access.FeatureHistory); cbn; [|eauto].
  unfold Process_. cbn.
  destruct (process.Profile (process c)); cbn; eauto.
Qed.

Lemma inheritDNSRequest_live (now : Z) (d : Connection) (pi : packet.Info) :
  0 <= now <= max_int64 -> 0 <= Ended d -> 0 <= PID d -> live now d ->
  fst (inheritDNSRequest now (Some d) pi)
  = (packet.set_PID (PID d) pi, process d).
Proof.
  intros Hnow He Hp Hl. unfold inheritDNSRequest, live in *.
  rewrite wrap64_small by (unfold in_int64, min_int64, max_int64 in *; lia).
  destruct (PID d <? 0) eqn:Hpid; [apply Z.ltb_lt in Hpid; lia|].
  destruct (0 <? Ended d) eqn:Hpos; [|reflexivity].
  destruct (Ended d <? now - 3) eqn:Hcmp; [|reflexivity].
  apply Z.ltb_lt in Hpos, Hcmp. lia.
Qed.

(** The connection built for a DNS request carries the process of a live
    entry that has one, and the PID of that process. *)
Lemma NewConnectionFromDNSRequest_inherits
    nowCheck nowCreate fqdn cnames connID localIP localPort d p :
  0 <= nowCheck <= max_int64 -> 0 <= Ended d ->
  GetDNSRequestConnection (dnsRequestInfo localIP localPort) = Some d ->
  0 <= PID d -> live nowCheck d -> process d = Some p ->
  exists c t,
    NewConnectionFromDNSRequest nowCheck nowCreate fqdn cnames connID
      localIP localPort = Ok (c, t)
    /\ process c = Some p /\ PID c = process.Pid p
    /\ DataIsComplete c = true.
Proof.
  intros Hnow He Hfound Hp Hl Hproc. unfold NewConnectionFromDNSRequest.
  rewrite Hfound.
  pose proof (inheritDNSRequest_live nowCheck d
                (dnsRequestInfo localIP localPort) Hnow He Hp Hl) as Hin.
  destruct (inheritDNSRequest _ _ _) as [[pi proc] t0]. cbn in Hin.
  inversion Hin; subst pi proc. rewrite Hproc.
  destruct (getProcessContext (Some p)) as [[pCtx t1]|] eqn:Hctx;
    [|cbn in Hctx; destruct (profile.LocalProfile _); discriminate].
  match goal with |- context [match ?m ?c0 with Ok _ => _ | Panic => Panic end] =>
    assert (Hrun : exists u c1 t2, m c0 = Ok (u, c1, t2));
    [|destruct Hrun as (u & c1 & t2 & Hrun); rewrite Hrun]
  end.
  - unfold UpdateMeta.
    destruct (profile.LocalProfile (process.Profile (Some p))) as [lp|].
    + match goal with |- context [bind (bind (modify ?g) ?k) ?k2 ?c0] =>
        destruct (UpdateFeatures_returns (g c0)) as (a & c' & t & Hu);
          [discriminate|] end.
      unfold bind at 1 2 3. unfold modify at 1. rewrite Hu.
      destruct (reportable a); cbn; eauto.
    + cbn. eauto.
  - exists c1, (t0 ++ t1 ++ t2). split; [reflexivity|].
    pose proof (fun f H1 H2 H3 H4 =>
      inheritInternal_keeps (X := option process.Process) f _ _ H1 H2 H3 H4 _ _ _ _ Hrun) as Kp.
    pose proof (fun f H1 H2 H3 H4 =>
      inheritInternal_keeps (X := Z) f _ _ H1 H2 H3 H4 _ _ _ _ Hrun) as Kz.
    pose proof (fun f H1 H2 H3 H4 =>
      inheritInternal_keeps (X := bool) f _ _ H1 H2 H3 H4 _ _ _ _ Hrun) as Kb.
    unfold DataIsComplete.
    rewrite (Kp process), (Kz PID), (Kb dataComplete);
      try (intros; reflexivity).
    repeat split.
Qed.

(** ** Gathering connection information *)

Lemma gatherEntity_keeps_dataComplete pkt : keeps dataComplete (gatherEntity pkt).
Proof. unfold gatherEntity, SetLocalIP. keeps_auto. Qed.

Lemma gatherPID_keeps_dataComplete pkt : keeps dataComplete (gatherPID pkt).
Proof. unfold gatherPID. keeps_auto. Qed.

Lemma gatherProcess_keeps_dataComplete pkt :
  keeps dataComplete (gatherProcess pkt).
Proof. unfold gatherProcess. keeps_auto. Qed.

Lemma gatherProfile_keeps_dataComplete : keeps dataComplete gatherProfile.
Proof.
  unfold gatherProfile.
  repeat first
    [ apply UpdateFeatures_keeps; intros; reflexivity
    | keeps_step ].
Qed.

Lemma entityDomainEmpty_keeps {X : Type} (f : Connection -> X) :
  keeps f entityDomainEmpty.
Proof. unfold entityDomainEmpty. keeps_auto. Qed.

Lemma gatherDomain_keeps_dataComplete pkt :
  keeps dataComplete (gatherDomain pkt).
Proof.
  unfold gatherDomain.
  repeat first [ apply entityDomainEmpty_keeps | keeps_step ].
Qed.

Lemma gatherCaptivePortal_keeps_dataComplete pkt :
  keeps dataComplete (gatherCaptivePortal pkt).
Proof.
  unfold gatherCaptivePortal.
  repeat first [ apply entityDomainEmpty_keeps | keeps_step ].
Qed.

Lemma completeCondition_haveAllData pkt c :
  completeCondition pkt c = haveAllData pkt c.
Proof.
  unfold completeCondition, haveAllData.
  destruct (packet.InfoOnly pkt); [reflexivity|].
  destruct (process c) as [p|]; [|reflexivity]. cbn.
  destruct (process.layered p); [|reflexivity].
  destruct (Entity c); reflexivity.
Qed.

Lemma gatherComplete_spec pkt c c' t :
  gatherComplete pkt c = Ok (tt, c', t) ->
  dataComplete c' = dataComplete c || completeCondition pkt c'.
Proof.
  unfold gatherComplete, bind, get, modify, ret. cbn.
  destruct (haveAllData pkt c) eqn:Hall; intros H; inversion H; subst; clear H.
  - rewrite completeCondition_haveAllData.
    change (haveAllData pkt (set_dataComplete true c)) with (haveAllData pkt c).
    rewrite Hall. cbn. now rewrite orb_true_r.
  - rewrite completeCondition_haveAllData, Hall. now rewrite orb_false_r.
Qed.

Lemma ready_same c c' :
  Entity c' = Entity c -> process c' = process c -> ready c -> ready c'.
Proof. unfold ready. intros -> ->. auto. Qed.

Lemma returns_ready_from_keeps {A : Type} (m : M A) c :
  keeps Entity m -> keeps process m ->
  (exists a c' t, m c = Ok (a, c', t)) ->
  ready c -> returns m c (fun _ c' => ready c').
Proof.
  intros KE KP (a & c' & t & Hm) Hr. exists a, c', t. split; [exact Hm|].
  exact (ready_same c c' (KE _ _ _ _ Hm) (KP _ _ _ _ Hm) Hr).
Qed.

Lemma UpdateFeatures_ready c :
  ready c -> returns UpdateFeatures c (fun _ c' => ready c').
Proof.
  intros Hr. apply returns_ready_from_keeps; auto.
  - apply UpdateFeatures_keeps; intros; reflexivity.
  - apply UpdateFeatures_keeps; intros; reflexivity.
  - apply UpdateFeatures_returns, Hr.
Qed.

Lemma gatherEntity_ready pkt c :
  profiled (process c) -> returns (gatherEntity pkt) c (fun _ c' => ready c').
Proof.
  intros Hp. unfold returns, gatherEntity, SetLocalIP, bind, get, modify, ret.
  cbn. destruct (Entity c) eqn:He; cbn; eexists _, _, _;
    (split; [reflexivity|]); split; cbn; auto; rewrite ?He; discriminate.
Qed.

Lemma gatherPID_ready pkt c :
  ready c -> returns (gatherPID pkt) c (fun _ c' => ready c').
Proof.
  intros Hr. unfold returns, gatherPID, bind, get, modify, ret. cbn.
  destruct (PID c =? UndefinedProcessID); cbn; eexists _, _, _;
    (split; [reflexivity|]); auto.
Qed.

Lemma gatherProcess_ready pkt c :
  (forall pid, profiled (fst (GetProcessWithProfile pid))) ->
  ready c -> returns (gatherProcess pkt) c (fun _ c' => ready c').
Proof.
  intros Henv [He Hp].
  unfold returns, gatherProcess, bind, get, modify, emit, ret. cbn.
  destruct (process c) eqn:Hproc; cbn.
  - eexists _, _, _. split; [reflexivity|]. split; [exact He|].
    now rewrite Hproc.
  - specialize (Henv (PID c)).
    destruct (GetProcessWithProfile (PID c)) as [proc err]. cbn in *.
    destruct err; [destruct (packet.InfoOnly pkt)|]; cbn; eexists _, _, _;
      (split; [reflexivity|]); split; cbn; auto; exact I.
Qed.

Lemma gatherProfile_ready c :
  ready c -> returns gatherProfile c (fun _ c' => ready c').
Proof.
  intros Hr. unfold gatherProfile.
  apply returns_bind, returns_get.
  destruct (process c) as [p|] eqn:Hproc; [|now apply returns_ret].
  destruct (ProfileRevisionCounter c =? 0); [|now apply returns_ret].
  apply returns_bind.
  assert (Hctx : exists pCtx t, getProcessContext (Some p) = Ok (pCtx, t)).
  { cbn. destruct (profile.LocalProfile _); eauto. }
  destruct Hctx as (pCtx & t & Hctx).
  exists pCtx, c, t. split; [unfold liftR; now rewrite Hctx|].
  apply returns_bind, returns_modify.
  apply returns_bind, returns_modify.
  destruct (profile.LocalProfile (process.Profile (Some p))) as [lp|];
    [|apply returns_ret; eapply ready_same; [| |exact Hr]; reflexivity].
  apply returns_bind, returns_modify.
  apply returns_bind.
  eapply returns_weaken.
  - apply UpdateFeatures_ready. eapply ready_same; [| |exact Hr]; reflexivity.
  - intros err c' Hr'. cbn beta.
    destruct (reportable err); [now apply returns_emit|now apply returns_ret].
Qed.

Lemma entityDomainEmpty_ready c (Q : bool -> Connection -> Prop) :
  ready c -> (forall b, Q b c) -> returns entityDomainEmpty c Q.
Proof.
  intros [He _] HQ. unfold returns, entityDomainEmpty, bind, get, ret, panic.
  cbn. destruct (Entity c); [|now destruct He]. eexists _, _, _. split; eauto.
Qed.

Lemma gatherDomain_ready pkt c :
  ready c -> returns (gatherDomain pkt) c (fun _ c' => ready c').
Proof.
  intros Hr. pose proof Hr as [He Hp]. unfold gatherDomain.
  apply returns_bind, entityDomainEmpty_ready; [exact Hr|intros empty].
  apply returns_bind, returns_get.
  pose proof Hp as Hp0. unfold profiled in Hp.
  destruct (process.Profile (process c)) as [lp|] eqn:Hlp;
    [|now apply returns_ret].
  destruct empty; [|now apply returns_ret].
  destruct (profile.localProfile lp) as [localProfile|]; [|now destruct Hp].
  destruct (Entity c) as [e|] eqn:HE; [|now destruct He].
  destruct (process c) as [p|] eqn:Hproc; [|discriminate].
  match goal with |- context [match ?i with Some _ => _ | None => ret tt end] =>
    destruct i as [i0|] end; [|now apply returns_ret].
  destruct (resolver.MostRecentDomain i0); [|now apply returns_ret].
  repeat (apply returns_bind, returns_modify).
  apply returns_emit. split; [cbn; discriminate|].
  change (profiled (process c)). rewrite Hproc. exact Hp0.
Qed.

Lemma gatherCaptivePortal_ready pkt c :
  ready c -> returns (gatherCaptivePortal pkt) c (fun _ c' => ready c').
Proof.
  intros Hr. pose proof Hr as [He Hp]. unfold gatherCaptivePortal.
  apply returns_bind, entityDomainEmpty_ready; [exact Hr|intros empty].
  destruct empty; [|now apply returns_ret].
  destruct (IPEqual _ _); [|now apply returns_ret].
  apply returns_bind, returns_modify.
  apply returns_bind, returns_get.
  cbn [Entity set_Scope].
  destruct (Entity c) as [e|] eqn:HE; [|now destruct He].
  apply returns_modify. split; [cbn; discriminate|exact Hp].
Qed.

Lemma gatherComplete_returns pkt c :
  returns (gatherComplete pkt) c (fun _ _ => True).
Proof.
  unfold gatherComplete. apply returns_bind, returns_get.
  destruct (haveAllData pkt c); [now apply returns_modify|now apply returns_ret].
Qed.

(** C3: when [GatherConnectionInfo] returns, the [dataComplete] flag is set
    exactly if it was set before or the call ends with a packet that is not
    info-only, a known process, a known profile of that process and an
    entity.  The call does return when every process at hand that has a
    layered profile has a local profile in it. *)
Theorem GatherConnectionInfo_dataComplete (pkt : packet.Packet)
    (c : Connection) :
  (forall c' t, GatherConnectionInfo pkt c = Ok (tt, c', t) ->
     DataIsComplete c' = DataIsComplete c || completeCondition pkt c')
  /\ (profiled (process c) ->
      (forall pid, profiled (fst (GetProcessWithProfile pid))) ->
      exists c' t, GatherConnectionInfo pkt c = Ok (tt, c', t)).
Proof.
  unfold DataIsComplete. split.
  - intros c' t H. unfold GatherConnectionInfo in H.
    apply bind_Ok in H as (u1 & c1 & t1 & r1 & H1 & H & _).
    apply bind_Ok in H as (u2 & c2 & t2 & r2 & H2 & H & _).
    apply gatherEntity_keeps_dataComplete in H1.
    apply gatherPID_keeps_dataComplete in H2.
    rewrite <- H1, <- H2.
    destruct (packet.InfoOnly pkt) eqn:Hinfo.
    + inversion H; subst. unfold completeCondition. rewrite Hinfo. cbn.
      now rewrite orb_false_r.
    + apply bind_Ok in H as (u3 & c3 & t3 & r3 & H3 & H & _).
      apply bind_Ok in H as (u4 & c4 & t4 & r4 & H4 & H & _).
      apply bind_Ok in H as (u5 & c5 & t5 & r5 & H5 & H & _).
      apply bind_Ok in H as (u6 & c6 & t6 & r6 & H6 & H & _).
      apply gatherProcess_keeps_dataComplete in H3.
      apply gatherProfile_keeps_dataComplete in H4.
      apply gatherDomain_keeps_dataComplete in H5.
      apply gatherCaptivePortal_keeps_dataComplete in H6.
      rewrite <- H3, <- H4, <- H5, <- H6.
      apply (gatherComplete_spec pkt c6 c' r6 H).
  - intros Hp Henv.
    assert (R : returns (GatherConnectionInfo pkt) c (fun _ _ => True)).
    { unfold GatherConnectionInfo.
      apply returns_bind.
      eapply returns_weaken; [apply gatherEntity_ready, Hp|].
      intros ? c1 Hr1. cbn beta in *. apply returns_bind.
      eapply returns_weaken; [apply gatherPID_ready, Hr1|].
      intros ? c2 Hr2. cbn beta in *.
      destruct (packet.InfoOnly pkt); [now apply returns_ret|].
      apply returns_bind.
      eapply returns_weaken; [apply gatherProcess_ready; [exact Henv|exact Hr2]|].
      intros ? c3 Hr3. cbn beta in *. apply returns_bind.
      eapply returns_weaken; [apply gatherProfile_ready, Hr3|].
      intros ? c4 Hr4. cbn beta in *. apply returns_bind.
      eapply returns_weaken; [apply gatherDomain_ready, Hr4|].
      intros ? c5 Hr5. cbn beta in *. apply returns_bind.
      eapply returns_weaken; [apply gatherCaptivePortal_ready, Hr5|].
      intros ? c6 Hr6. cbn beta in *. apply gatherComplete_returns. }
    destruct R as ([] & c' & t & HR & _). eauto.
Qed.

End ConnectionProperties.

(** * The model at work *)

Section Scenarios.

#[local] Existing Instance demoEnv.

(** A fresh connection is incomplete, undecided and has no queue. *)
Example demoConn_fresh :
  DataIsComplete demoConn = false
  /\ Verdict_ demoConn
     = mkVerdictTriple VerdictUndecided VerdictUndecided VerdictUndecided
  /\ pktQueueActive demoConn = false
  /\ Started demoConn = 1700000000.
Proof. repeat split. Qed.

(** Outbound flow: one real packet completes the data. *)
Example gather_completes :
  option_map DataIsComplete (exec (GatherConnectionInfo demoPacket) demoConn)
  = Some true.
Proof. reflexivity. Qed.

(** An info-only packet does not. *)
Example gather_info_only :
  option_map DataIsComplete
    (exec (GatherConnectionInfo (packet.mkPacket demoInfo true false "conn-1"))
       demoConn)
  = Some false.
Proof. reflexivity. Qed.

(** Queue overflow: of 101 packets offered to an attached connection whose
    worker does not run, 100 are queued and the last one is dropped. *)
Example overflow_drops_the_101st :
  match handleAll (repeat demoPacket 101) demoAttached with
  | Ok (c, t) =>
      queueLength c = 100%nat
      /\ pushes t = []
      /\ filter (fun e => match e with EvPacketDrop _ => true | _ => false end) t
         = [EvPacketDrop demoPacket]
  | Panic => False
  end.
Proof. vm_compute. repeat split. Qed.

(** Deny direction switch. *)
Example deny_outbound :
  Firewall (Verdict_ (fst (Deny "denied" "" demoConn))) = VerdictBlock.
Proof. reflexivity. Qed.

Example deny_inbound :
  Firewall (Verdict_ (fst (Deny "denied" "" (set_Inbound true demoConn))))
  = VerdictDrop.
Proof. reflexivity. Qed.

End Scenarios.

(** DNS inheritance: a DNS request whose entry has not ended takes over the
    process of the entry and its PID. *)
Example dns_inheritance :
  match NewConnectionFromDNSRequest (env := demoEnvWith (fun _ => Some (demoDonor 0)))
          1700000010 1700000010 "a.example." [] "dns-2" [] 55000 with
  | Ok (c, _) => PID c = 9001 /\ process c = Some donorProcess
  | Panic => False
  end.
Proof. vm_compute. split; reflexivity. Qed.

(** The same entry, ended ten seconds ago, donates nothing: the process comes
    from the process resolver. *)
Example dns_no_inheritance :
  match NewConnectionFromDNSRequest
          (env := demoEnvWith (fun _ => Some (demoDonor 1700000000)))
          1700000010 1700000010 "a.example." [] "dns-2" [] 55000 with
  | Ok (c, _) => PID c = 4711 /\ process c = Some demoProcess
  | Panic => False
  end.
Proof. vm_compute. split; reflexivity. Qed.

(** ** Where the statements of the specification stop short *)

(** C1, as stated, fails: after a single [Block] on a fresh connection
    [Verdict.Worst] is still Undecided, which is neither the maximum of the
    verdicts assigned nor at least as severe as [Verdict.Firewall]. *)
Lemma Worst_is_not_the_maximum :
  let ks := [CallBlock "blocked by rule" ""] in
  let c := calls ks demoConn in
  Worst (Verdict_ c) <> worst_of (Worst (Verdict_ demoConn)) (assignments ks demoConn)
  /\ ~ (severity (Firewall (Verdict_ c)) <= severity (Worst (Verdict_ c)))%nat.
Proof.
  cbv zeta. split.
  - vm_compute. discriminate.
  - vm_compute. intros H. inversion H.
Qed.

(** C7, as stated, fails: with the clock reading 1970-01-02 and a packet
    stamped 1970-01-01, [Started] is the clock reading, before 2020-01-01. *)
Lemma Started_before_2020 :
  ~ (tooOldTimestamp
     <= Started (fst (NewIncompleteConnection (env := demoEnv) 86400 stalePacket))).
Proof. vm_compute. intros H. apply H. reflexivity. Qed.

(** C8, as stated, fails: on a connection without a process the option key
    given to [SetVerdict] is not stored, although it is not empty. *)
Lemma OptionKey_dropped_without_profile :
  let k := "filter/defaultAction" in
  let r := Reason (fst (SetVerdict VerdictBlock "default action" k None demoConn)) in
  k <> "" /\ Reason.OptionKey r <> k /\ Reason.OptionKey r = ""
  /\ Reason.Profile r = "".
Proof.
  cbv zeta. split; [discriminate|].
  split; [vm_compute; discriminate|]. split; reflexivity.
Qed.

(** ** The statements at concrete inputs *)

Lemma demoAttached_Reachable : Reachable (env := demoEnv) demoAttached.
Proof.
  apply (ReachStep demoConn demoAttached).
  - exact (ReachIncomplete 1700000001 demoPacket).
  - exact (StepSetFirewallHandler demoConn (Some 1%nat) demoAttached
             [EvStartWorker "packet handler"] eq_refl).
Defined.

Lemma HandlePacket_active_witness :
  Reachable (env := demoEnv) demoAttached
  /\ pktQueueActive demoAttached = true
  /\ exists ch,
       pktQueue demoAttached = Some ch /\ chan_cap ch = 100%nat
       /\ (length (chan_buf ch) <= 100)%nat
       /\ ((length (chan_buf ch) < 100)%nat ->
           HandlePacket (env := demoEnv) demoPacket demoAttached
           = Ok (tt, set_pktQueue
                       (Some (mkChan 100 (chan_buf ch ++ [demoPacket]) false))
                       demoAttached, []))
       /\ (length (chan_buf ch) = 100%nat ->
           HandlePacket (env := demoEnv) demoPacket demoAttached
           = Ok (tt, demoAttached,
                 [EvLog LDebug
                    "filter: dropping packet %s, as there is no space in the connection's handling queue";
                  EvPacketDrop demoPacket])).
Proof.
  split; [exact demoAttached_Reachable|]. split; [reflexivity|].
  exact (HandlePacket_active (env := demoEnv) demoAttached demoPacket
           demoAttached_Reachable eq_refl).
Defined.

Lemma GatherConnectionInfo_dataComplete_witness :
  exists c' t,
    GatherConnectionInfo (env := demoEnv) demoPacket demoConn = Ok (tt, c', t)
    /\ DataIsComplete c'
       = DataIsComplete demoConn || completeCondition demoPacket c'.
Proof.
  destruct (GatherConnectionInfo_dataComplete (env := demoEnv) demoPacket demoConn)
    as [Hflag Hreturns].
  destruct Hreturns as (c' & t & Hrun).
  - exact I.
  - intros pid. cbn. discriminate.
  - exists c', t. split; [exact Hrun|exact (Hflag c' t Hrun)].
Defined.

Lemma push_only_when_complete_witness :
  Save (env := demoEnv) demoConn
  = Ok (tt, set_meta (BaseUpdateMeta (Collaborators := demoEnv) (meta demoConn))
              demoConn, []).
Proof.
  exact (proj1 (push_only_when_complete (env := demoEnv) demoConn) eq_refl).
Defined.

Lemma NewIncompleteConnection_Started_witness :
  tooOldTimestamp
  <= Started (fst (NewIncompleteConnection (env := demoEnv) 1700000001 stalePacket)).
Proof.
  apply (proj2 (NewIncompleteConnection_Started (env := demoEnv) 1700000001
                  stalePacket)).
  unfold tooOldTimestamp. lia.
Defined.


(** * Further properties of the code *)

Section QueueLaws.

Context {env : Collaborators}.

(** ** Attaching and detaching *)

Lemma set_pktQueue_same (c : Connection) :
  set_pktQueue (pktQueue c) c = c.
Proof. destruct c; reflexivity. Qed.

Lemma set_firewallHandler_same (c : Connection) :
  set_firewallHandler (firewallHandler c) c = c.
Proof. destruct c; reflexivity. Qed.

(** X1: attaching a handler to a detached connection and detaching it again
    gives back the very same connection; on the way one worker is started
    and the one queue that was made (empty, capacity 100) is closed. *)
Theorem attach_detach_roundtrip (h : FirewallHandler) (c : Connection) :
  detached c ->
  (SetFirewallHandler (Some h) ;; StopFirewallHandler)%conn c
  = Ok (tt, c, [EvStartWorker "packet handler"; EvClose (mkChan 100 [] false)]).
Proof.
  intros (Hh & Hq & Ha).
  unfold SetFirewallHandler, StopFirewallHandler, bind, get, modify, emit, ret.
  cbn. rewrite Ha. cbn. rewrite Hh. cbn.
  destruct c; cbn in *; subst; reflexivity.
Qed.

Lemma QueueStep_QueueNil c c' : QueueStep c c' -> QueueNil c -> QueueNil c'.
Proof.
  unfold QueueNil. intros Hs Hn. destruct Hs as [c h c' t H|c h c' t H|c c' t H|c pkt c' t H|c|c c' Hq Ha].
  - destruct h as [h|]; cbn in H.
    + unfold bind, get, modify, emit, ret in H. cbn in H.
      destruct (pktQueueActive c) eqn:Ha; cbn in H;
        destruct (firewallHandler c); cbn in H; inversion H; subst; cbn;
        intros Hx; try discriminate; rewrite Ha in Hx; discriminate.
    + inversion H; subst. exact Hn.
  - unfold UpdateFirewallHandler, bind, get, modify, ret in H. cbn in H.
    destruct h, (firewallHandler c); cbn in H; inversion H; subst; exact Hn.
  - unfold StopFirewallHandler, bind, get, modify, emit, ret, panic in H.
    cbn in H. intros _.
    destruct (pktQueueActive c); cbn in H.
    + destruct (pktQueue c) as [ch|]; cbn in H; [|discriminate].
      destruct (chan_closed ch); cbn in H; [discriminate|].
      inversion H; reflexivity.
    + inversion H; reflexivity.
  - unfold HandlePacket, bind, get, modify, emit, ret, panic in H. cbn in H.
    destruct (pktQueueActive c) eqn:Ha; cbn in H.
    + destruct (trySend (pktQueue c) pkt); cbn in H; inversion H; subst; cbn;
        intros Hx; rewrite Ha in Hx; discriminate.
    + inversion H; subst.
      destruct (defaultFirewallHandler_queue c pkt) as [Hq Hact].
      intros _. rewrite Hq. now apply Hn.
  - intros Ha. unfold workerReceive in *.
    destruct (pktQueue c) as [ch|] eqn:Hq; [|now rewrite Hq].
    destruct (chan_buf ch); cbn in Ha; specialize (Hn Ha); congruence.
  - rewrite Hq, Ha. exact Hn.
Qed.

Lemma inactive_constructed_QueueNil c :
  pktQueueActive c = false -> pktQueue c = None -> QueueNil c.
Proof. intros _ H _. exact H. Qed.

Lemma NewIncompleteConnection_no_queue now pkt :
  pktQueue (fst (NewIncompleteConnection now pkt)) = None.
Proof.
  unfold NewIncompleteConnection. cbn.
  match goal with |- context [if ?b then _ else _] => destruct b end;
    reflexivity.
Qed.

Lemma NewConnectionFromDNSRequest_no_queue
    nowCheck nowCreate fqdn cnames connID localIP localPort c t :
  NewConnectionFromDNSRequest nowCheck nowCreate fqdn cnames connID
    localIP localPort = Ok (c, t) ->
  pktQueue c = None.
Proof.
  unfold NewConnectionFromDNSRequest.
  destruct (inheritDNSRequest _ _ _) as [[pi proc] t0].
  match goal with |- context [match ?p with Some _ => _ | None => Panic end] =>
    destruct p as [p0|] eqn:Hp end; [|discriminate].
  destruct (getProcessContext _) as [[pCtx t1]|]; [|discriminate].
  match goal with |- context [match ?r with Ok _ => _ | Panic => Panic end] =>
    destruct r as [[[u c1] t2]|] eqn:Hrun end; [|discriminate].
  intros H. inversion H; subst.
  rewrite (inheritInternal_keeps pktQueue _ _
             (fun _ _ => eq_refl) (fun _ _ => eq_refl)
             (fun _ _ => eq_refl) (fun _ _ => eq_refl) _ _ _ _ Hrun).
  reflexivity.
Qed.

Lemma NewConnectionFromExternalDNSRequest_no_queue
    now fqdn cnames connID remoteIP c t :
  NewConnectionFromExternalDNSRequest now fqdn cnames connID remoteIP
    = Ok (Some c, t) ->
  pktQueue c = None.
Proof.
  unfold NewConnectionFromExternalDNSRequest.
  destruct (GetNetworkHost remoteIP) as [remoteHost err].
  destruct err; [discriminate|].
  destruct (getProcessContext _) as [[pCtx t1]|]; [|discriminate].
  match goal with |- context [match ?r with Ok _ => _ | Panic => Panic end] =>
    destruct r as [[[u c1] t2]|] eqn:Hrun end; [|discriminate].
  intros H. inversion H; subst.
  rewrite (inheritInternal_keeps pktQueue _ _
             (fun _ _ => eq_refl) (fun _ _ => eq_refl)
             (fun _ _ => eq_refl) (fun _ _ => eq_refl) _ _ _ _ Hrun).
  reflexivity.
Qed.

Lemma Reachable_QueueNil c : Reachable c -> QueueNil c.
Proof.
  induction 1.
  - intros _. apply NewIncompleteConnection_no_queue.
  - intros _. eapply NewConnectionFromDNSRequest_no_queue; eauto.
  - intros _. eapply NewConnectionFromExternalDNSRequest_no_queue; eauto.
  - eapply QueueStep_QueueNil; eauto.
Qed.

Lemma StopFirewallHandler_on_detached (c : Connection) :
  detached c -> StopFirewallHandler c = Ok (tt, c, []).
Proof.
  intros (Hh & Hq & Ha).
  unfold StopFirewallHandler, bind, get, modify, emit, ret, panic. cbn.
  rewrite Ha. cbn. destruct c; cbn in *; subst; reflexivity.
Qed.

(** X2: on every connection the program can hold, [StopFirewallHandler]
    returns (it never closes a nil or a closed channel) and leaves the
    connection without handler and without queue; it closes the queue exactly
    when there was one, and a second call changes nothing and closes
    nothing. *)
Theorem StopFirewallHandler_detaches (c : Connection) :
  Reachable c ->
  exists c' t,
    StopFirewallHandler c = Ok (tt, c', t)
    /\ detached c'
    /\ c' = set_pktQueue None
              (set_pktQueueActive false (set_firewallHandler None c))
    /\ t = match pktQueue c with
           | Some ch => [EvClose ch]
           | None => []
           end
    /\ StopFirewallHandler c' = Ok (tt, c', []).
Proof.
  intros Hr.
  pose proof (Reachable_QueueInv c Hr) as Hinv.
  pose proof (Reachable_QueueNil c Hr) as Hnil.
  assert (Hd : detached (set_pktQueue None
                 (set_pktQueueActive false (set_firewallHandler None c))))
    by (repeat split).
  exists (set_pktQueue None
            (set_pktQueueActive false (set_firewallHandler None c))).
  eexists. split; [|split; [exact Hd|split; [reflexivity|split;
    [reflexivity|exact (StopFirewallHandler_on_detached _ Hd)]]]].
  unfold StopFirewallHandler, bind, get, modify, emit, ret, panic. cbn.
  destruct (pktQueueActive c) eqn:Ha; cbn.
  - destruct (Hinv Ha) as (ch & Hq & _ & Hopen & _).
    rewrite Hq, Hopen. cbn. reflexivity.
  - rewrite (Hnil Ha). destruct c; cbn in *; subst; reflexivity.
Qed.

(** ** Filling and draining the queue *)

Lemma HandlePacket_room pkt c ch :
  pktQueueActive c = true -> pktQueue c = Some ch ->
  chan_closed ch = false -> (length (chan_buf ch) < chan_cap ch)%nat ->
  HandlePacket pkt c
  = Ok (tt, set_pktQueue
              (Some (mkChan (chan_cap ch) (chan_buf ch ++ [pkt]) false)) c, []).
Proof.
  intros Ha Hq Hopen Hlt.
  unfold HandlePacket, bind, get, modify, emit, ret. cbn.
  rewrite Ha, Hq. unfold trySend. rewrite Hopen.
  apply Nat.ltb_lt in Hlt. rewrite Hlt. reflexivity.
Qed.

Lemma HandlePacket_full pkt c ch :
  pktQueueActive c = true -> pktQueue c = Some ch ->
  chan_closed ch = false -> (chan_cap ch <= length (chan_buf ch))%nat ->
  HandlePacket pkt c = Ok (tt, c, dropTrace pkt).
Proof.
  intros Ha Hq Hopen Hge.
  unfold HandlePacket, bind, get, modify, emit, ret. cbn.
  rewrite Ha, Hq. unfold trySend. rewrite Hopen.
  apply Nat.ltb_ge in Hge. rewrite Hge. reflexivity.
Qed.

Lemma handleAll_active (pkts : list packet.Packet) :
  forall c buf,
    pktQueueActive c = true -> pktQueue c = Some (mkChan 100 buf false) ->
    handleAll pkts c
    = Ok (set_pktQueue
            (Some (mkChan 100 (buf ++ firstn (100 - length buf) pkts) false)) c,
          flat_map dropTrace (skipn (100 - length buf) pkts)).
Proof.
  induction pkts as [|pkt pkts IH]; intros c buf Ha Hq.
  - cbn. rewrite firstn_nil, skipn_nil, app_nil_r, <- Hq, set_pktQueue_same.
    reflexivity.
  - cbn [handleAll].
    destruct (100 - length buf)%nat as [|room] eqn:Hroom.
    + rewrite (HandlePacket_full pkt c _ Ha Hq eq_refl) by (cbn; lia).
      rewrite (IH c buf Ha Hq), Hroom. reflexivity.
    + rewrite (HandlePacket_room pkt c _ Ha Hq eq_refl) by (cbn; lia).
      cbn [chan_cap chan_buf].
      rewrite (IH (set_pktQueue (Some (mkChan 100 (buf ++ [pkt]) false)) c)
                 (buf ++ [pkt]) Ha eq_refl).
      rewrite length_app. cbn [length].
      replace (100 - (length buf + 1))%nat with room by lia.
      cbn [firstn skipn app]. rewrite <- app_assoc. reflexivity.
Qed.

Lemma Reachable_active_queue c :
  Reachable c -> pktQueueActive c = true ->
  pktQueue c = Some (mkChan 100 (queued c) false)
  /\ (length (queued c) <= 100)%nat.
Proof.
  intros Hr Ha.
  destruct (Reachable_QueueInv c Hr Ha) as (ch & Hq & Hcap & Hopen & Hlen).
  unfold queued. rewrite Hq. unfold pktQueueCapacity in *.
  destruct ch as [cap buf closed]; cbn in *; subst. split; [reflexivity|lia].
Qed.

(** X3: packets offered to an active queue fill it in the order they come
    until it holds 100; every packet beyond that is dropped, each with its
    log line, in the order offered; nothing but the queue changes. *)
Theorem handleAll_fills_then_drops (pkts : list packet.Packet)
    (c : Connection) :
  Reachable c -> pktQueueActive c = true ->
  let room := (100 - length (queued c))%nat in
  exists c',
    handleAll pkts c = Ok (c', flat_map dropTrace (skipn room pkts))
    /\ queued c' = queued c ++ firstn room pkts
    /\ pktQueueActive c' = true
    /\ c' = set_pktQueue (pktQueue c') c.
Proof.
  intros Hr Ha. cbv zeta.
  destruct (Reachable_active_queue c Hr Ha) as [Hq _].
  rewrite (handleAll_active pkts c (queued c) Ha Hq).
  eexists. split; [reflexivity|]. repeat split. exact Ha.
Qed.

Lemma drain_all (buf : list packet.Packet) :
  forall c cap closed,
    pktQueue c = Some (mkChan cap buf closed) ->
    drain (length buf) c
    = (buf, set_pktQueue (Some (mkChan cap [] closed)) c).
Proof.
  induction buf as [|pkt buf IH]; intros c cap closed Hq.
  - cbn. rewrite <- Hq, set_pktQueue_same. reflexivity.
  - cbn [length drain]. unfold workerTake. rewrite Hq. cbn [chan_buf chan_cap chan_closed].
    rewrite (IH (set_pktQueue (Some (mkChan cap buf closed)) c) cap closed
               eq_refl).
    reflexivity.
Qed.

(** X4: the queue is first in, first out.  Up to 100 packets offered to an
    active, empty queue are all accepted without a trace entry; as many
    receives of the worker then yield exactly these packets in the order
    offered and leave the connection as it was before. *)
Theorem queue_is_fifo (pkts : list packet.Packet) (c : Connection) :
  Reachable c -> pktQueueActive c = true -> queued c = [] ->
  (length pkts <= 100)%nat ->
  exists c1,
    handleAll pkts c = Ok (c1, [])
    /\ queued c1 = pkts
    /\ drain (length pkts) c1 = (pkts, c).
Proof.
  intros Hr Ha Hempty Hlen.
  destruct (Reachable_active_queue c Hr Ha) as [Hq _].
  rewrite Hempty in Hq.
  rewrite (handleAll_active pkts c [] Ha Hq). cbn [length app].
  rewrite Nat.sub_0_r, firstn_all2, skipn_all2 by lia.
  eexists. split; [reflexivity|]. split; [reflexivity|].
  rewrite (drain_all pkts
             (set_pktQueue (Some (mkChan 100 pkts false)) c)
             100%nat false eq_refl).
  f_equal. change (set_pktQueue (Some (mkChan 100 [] false)) c = c).
  rewrite <- Hq. apply set_pktQueue_same.
Qed.

(** X5: [UpdateFirewallHandler] never attaches or detaches.  It returns with
    an empty trace (no worker is started), changes no field but the handler,
    and replaces the handler exactly when one is installed and the new one is
    not nil; a connection without a handler stays without. *)
Theorem UpdateFirewallHandler_replaces_only (h : option FirewallHandler)
    (c : Connection) :
  exists c',
    UpdateFirewallHandler h c = Ok (tt, c', [])
    /\ c' = set_firewallHandler (firewallHandler c') c
    /\ firewallHandler c'
       = match h, firewallHandler c with
         | Some new, Some _ => Some new
         | _, old => old
         end.
Proof.
  unfold UpdateFirewallHandler, bind, get, modify, ret. cbn.
  destruct h as [new|], (firewallHandler c) as [old|] eqn:Hh; cbn;
    eexists; (split; [reflexivity|]); cbn; rewrite ?Hh; split;
    try reflexivity; rewrite <- Hh; symmetry; apply set_firewallHandler_same.
Qed.

End QueueLaws.

Section VerdictLaws.

(** ** How the verdict setters compose *)

Lemma SetVerdict_shape v reason reasonOptionKey ctx c :
  fst (SetVerdict v reason reasonOptionKey ctx c)
  = set_Reason (reasonFor reason reasonOptionKey ctx (process c))
      (set_Verdict_
         (mkVerdictTriple (Worst (Verdict_ c)) (Active (Verdict_ c)) v) c).
Proof.
  unfold SetVerdict, reasonFor, SetVerdictDirectly, Process_.
  destruct (negb (reasonOptionKey =? "")%string); [|reflexivity].
  cbn. destruct (process.Profile (process c)); reflexivity.
Qed.

Lemma set_Reason_Verdict_same (c : Connection) :
  set_Reason (Reason c) (set_Verdict_ (Verdict_ c) c) = c.
Proof. destruct c; reflexivity. Qed.

Lemma overwrite_congr (r : Reason.t) (v : VerdictTriple) (x y : Connection) :
  set_Reason (Reason y) (set_Verdict_ (Verdict_ y) x) = y ->
  set_Reason r (set_Verdict_ v x) = set_Reason r (set_Verdict_ v y).
Proof. intros <-. reflexivity. Qed.

Lemma call_restore (k : VerdictCall) (c : Connection) :
  set_Reason (Reason c) (set_Verdict_ (Verdict_ c) (call k c)) = c.
Proof.
  destruct k; cbn [call];
    unfold Accept, Block, Drop, Deny, Failed, DenyWithContext,
      AcceptWithContext, BlockWithContext, DropWithContext,
      FailedWithContext, SetVerdictDirectly;
    try (destruct (Inbound c));
    rewrite ?setOrWarn_fst, ?SetVerdict_shape;
    exact (set_Reason_Verdict_same c).
Qed.

(** X6: a verdict call touches [Verdict.Firewall] and, unless it is
    [SetVerdictDirectly], the reason, and nothing else: putting the old
    verdict triple and the old reason back gives the connection as it was
    before the call.  So no call changes [Verdict.Worst], [Verdict.Active],
    [VerdictPermanent], the data-complete flag or the handler. *)
Theorem call_frame (k : VerdictCall) (c : Connection) :
  set_Reason (Reason c) (set_Verdict_ (Verdict_ c) (call k c)) = c
  /\ Verdict_ (call k c)
     = mkVerdictTriple (Worst (Verdict_ c)) (Active (Verdict_ c))
         (assigned k c)
  /\ (carriesReason k = false -> Reason (call k c) = Reason c).
Proof.
  split; [apply call_restore|split].
  - apply call_Verdict.
  - destruct k; cbn; try discriminate. reflexivity.
Qed.

Lemma call_reasoned (k : VerdictCall) (c : Connection) :
  carriesReason k = true ->
  exists reason reasonOptionKey ctx,
    forall c0,
      Inbound c0 = Inbound c ->
      call k c0
      = set_Reason (reasonFor reason reasonOptionKey ctx (process c0))
          (set_Verdict_
             (mkVerdictTriple (Worst (Verdict_ c0)) (Active (Verdict_ c0))
                (assigned k c))
             c0).
Proof.
  intros Hk.
  destruct k; try discriminate; cbn [call assigned];
    unfold Accept, Block, Drop, Deny, Failed, DenyWithContext,
      AcceptWithContext, BlockWithContext, DropWithContext,
      FailedWithContext;
    first
      [ exists reason, reasonOptionKey, ctx
      | exists reason, reasonOptionKey, None ];
    intros c0 Hin; try rewrite Hin; try (destruct (Inbound c));
    rewrite ?setOrWarn_fst, ?SetVerdict_shape; reflexivity.
Qed.

Lemma call_Inbound (k : VerdictCall) (c : Connection) :
  Inbound (call k c) = Inbound c.
Proof.
  rewrite <- (call_restore k c) at 2. reflexivity.
Qed.

Lemma call_process (k : VerdictCall) (c : Connection) :
  process (call k c) = process c.
Proof.
  rewrite <- (call_restore k c) at 2. reflexivity.
Qed.

(** X7: the last call wins.  A call that carries a reason wipes out what any
    earlier call did: made after another call, it leaves the connection
    exactly as if it had been made alone.  ([SetVerdictDirectly] does not: it
    keeps the reason of the call before it.) *)
Theorem call_absorbs (k1 k2 : VerdictCall) (c : Connection) :
  carriesReason k2 = true ->
  call k2 (call k1 c) = call k2 c.
Proof.
  intros Hk.
  destruct (call_reasoned k2 c Hk) as (reason & key & ctx & Hshape).
  rewrite (Hshape (call k1 c) (call_Inbound k1 c)), (Hshape c eq_refl).
  rewrite call_process, call_Verdict. cbn [Worst Active].
  apply overwrite_congr, call_restore.
Qed.

End VerdictLaws.

Section CorrelatorLaws.

Context {env : Collaborators}.

(** ** The blocks of GatherConnectionInfo, one after the other *)

(** Splits a [keeps] goal as [keeps_step] does and goes through
    [UpdateFeatures] and the domain test. *)
Ltac keeps_deep :=
  repeat first
    [ apply UpdateFeatures_keeps; intros; reflexivity
    | apply entityDomainEmpty_keeps
    | keeps_step ].

Lemma GatherConnectionInfo_steps pkt c c' t :
  GatherConnectionInfo pkt c = Ok (tt, c', t) ->
  exists c1 c2 t1 t2,
    gatherEntity pkt c = Ok (tt, c1, t1)
    /\ gatherPID pkt c1 = Ok (tt, c2, t2)
    /\ ((packet.InfoOnly pkt = true /\ c' = c2 /\ t = t1 ++ t2)
        \/ (packet.InfoOnly pkt = false
            /\ exists c3 c4 c5 c6 t3 t4 t5 t6 t7,
                 gatherProcess pkt c2 = Ok (tt, c3, t3)
                 /\ gatherProfile c3 = Ok (tt, c4, t4)
                 /\ gatherDomain pkt c4 = Ok (tt, c5, t5)
                 /\ gatherCaptivePortal pkt c5 = Ok (tt, c6, t6)
                 /\ gatherComplete pkt c6 = Ok (tt, c', t7)
                 /\ t = t1 ++ t2 ++ t3 ++ t4 ++ t5 ++ t6 ++ t7)).
Proof.
  intros H. unfold GatherConnectionInfo in H.
  apply bind_Ok in H as ([] & c1 & t1 & r1 & H1 & H & E1).
  apply bind_Ok in H as ([] & c2 & t2 & r2 & H2 & H & E2).
  exists c1, c2, t1, t2. split; [exact H1|]. split; [exact H2|].
  destruct (packet.InfoOnly pkt).
  - left. inversion H; subst. rewrite app_nil_r. auto.
  - right. split; [reflexivity|].
    apply bind_Ok in H as ([] & c3 & t3 & r3 & H3 & H & E3).
    apply bind_Ok in H as ([] & c4 & t4 & r4 & H4 & H & E4).
    apply bind_Ok in H as ([] & c5 & t5 & r5 & H5 & H & E5).
    apply bind_Ok in H as ([] & c6 & t6 & r6 & H6 & H & E6).
    exists c3, c4, c5, c6, t3, t4, t5, t6, r6. subst. auto 10.
Qed.

(** A relation that is reflexive, transitive and kept by every block is kept
    by the whole. *)
Lemma GatherConnectionInfo_relates (R : Connection -> Connection -> Prop) pkt :
  (forall c, R c c) ->
  (forall a b c, R a b -> R b c -> R a c) ->
  relates R (gatherEntity pkt) ->
  relates R (gatherPID pkt) ->
  relates R (gatherProcess pkt) ->
  relates R gatherProfile ->
  relates R (gatherDomain pkt) ->
  relates R (gatherCaptivePortal pkt) ->
  relates R (gatherComplete pkt) ->
  relates R (GatherConnectionInfo pkt).
Proof.
  intros Hrefl Htrans K1 K2 K3 K4 K5 K6 K7 c [] c' t H.
  apply GatherConnectionInfo_steps in H
    as (c1 & c2 & t1 & t2 & H1 & H2 & [(_ & -> & _)|(_ & Hrest)]).
  - eapply Htrans; [eapply K1|eapply K2]; eauto.
  - destruct Hrest as (c3 & c4 & c5 & c6 & t3 & t4 & t5 & t6 & t7
                       & H3 & H4 & H5 & H6 & H7 & _).
    eapply Htrans; [eapply K1; eauto|].
    eapply Htrans; [eapply K2; eauto|].
    eapply Htrans; [eapply K3; eauto|].
    eapply Htrans; [eapply K4; eauto|].
    eapply Htrans; [eapply K5; eauto|].
    eapply Htrans; [eapply K6; eauto|].
    eapply K7; eauto.
Qed.

Lemma gatherComplete_keeps {X : Type} (f : Connection -> X) pkt :
  (forall v c, f (set_dataComplete v c) = f c) ->
  keeps f (gatherComplete pkt).
Proof.
  intros Hf. unfold gatherComplete.
  apply keeps_bind; [apply keeps_get|intros c0].
  destruct (haveAllData pkt c0); [|apply keeps_ret].
  apply keeps_modify. intros c. apply Hf.
Qed.

Lemma GatherConnectionInfo_flag pkt c c' t :
  GatherConnectionInfo pkt c = Ok (tt, c', t) ->
  dataComplete c' = dataComplete c || completeCondition pkt c'.
Proof.
  intros H.
  apply GatherConnectionInfo_steps in H
    as (c1 & c2 & t1 & t2 & H1 & H2 & [(Hinfo & -> & _)|(_ & Hrest)]).
  - apply gatherEntity_keeps_dataComplete in H1.
    apply gatherPID_keeps_dataComplete in H2.
    unfold completeCondition. rewrite Hinfo, H2, H1. cbn.
    now rewrite orb_false_r.
  - destruct Hrest as (c3 & c4 & c5 & c6 & t3 & t4 & t5 & t6 & t7
                       & H3 & H4 & H5 & H6 & H7 & _).
    apply gatherEntity_keeps_dataComplete in H1.
    apply gatherPID_keeps_dataComplete in H2.
    apply gatherProcess_keeps_dataComplete in H3.
    apply gatherProfile_keeps_dataComplete in H4.
    apply gatherDomain_keeps_dataComplete in H5.
    apply gatherCaptivePortal_keeps_dataComplete in H6.
    rewrite <- H1, <- H2, <- H3, <- H4, <- H5, <- H6.
    exact (gatherComplete_spec pkt c6 c' t7 H7).
Qed.

(** X8: the data-complete flag never goes back.  Once set it stays set
    through [GatherConnectionInfo], [UpdateFeatures], every verdict call,
    [SetFirewallHandler], [UpdateFirewallHandler], [StopFirewallHandler],
    a [HandlePacket] that meets an active queue, and [delete]. *)
Theorem DataIsComplete_stays (c : Connection) :
  DataIsComplete c = true ->
  (forall pkt c' t,
     GatherConnectionInfo pkt c = Ok (tt, c', t) -> DataIsComplete c' = true)
  /\ (forall r c' t,
     UpdateFeatures c = Ok (r, c', t) -> DataIsComplete c' = true)
  /\ (forall k, DataIsComplete (call k c) = true)
  /\ (forall h c' t,
     SetFirewallHandler h c = Ok (tt, c', t) -> DataIsComplete c' = true)
  /\ (forall h c' t,
     UpdateFirewallHandler h c = Ok (tt, c', t) -> DataIsComplete c' = true)
  /\ (forall c' t,
     StopFirewallHandler c = Ok (tt, c', t) -> DataIsComplete c' = true)
  /\ (forall pkt c' t,
     pktQueueActive c = true ->
     HandlePacket pkt c = Ok (tt, c', t) -> DataIsComplete c' = true)
  /\ (forall c' t, delete c = Ok (tt, c', t) -> DataIsComplete c' = true).
Proof.
  unfold DataIsComplete. intros Hd. repeat split.
  - intros pkt c' t H. apply GatherConnectionInfo_flag in H.
    rewrite H, Hd. reflexivity.
  - intros r c' t H. rewrite <- Hd.
    revert H. apply UpdateFeatures_keeps; intros; reflexivity.
  - intros k. rewrite <- Hd. rewrite <- (call_restore k c) at 2. reflexivity.
  - intros h c' t H. rewrite <- Hd. revert H.
    generalize c tt c' t. change (keeps dataComplete (SetFirewallHandler h)).
    unfold SetFirewallHandler. keeps_deep.
  - intros h c' t H. rewrite <- Hd. revert H.
    generalize c tt c' t. change (keeps dataComplete (UpdateFirewallHandler h)).
    unfold UpdateFirewallHandler. keeps_deep.
  - intros c' t H. rewrite <- Hd. revert H.
    generalize c tt c' t. change (keeps dataComplete StopFirewallHandler).
    unfold StopFirewallHandler. keeps_deep.
  - intros pkt c' t Ha H. rewrite <- Hd.
    unfold HandlePacket, bind, get, modify, emit, ret, panic in H. cbn in H.
    rewrite Ha in H.
    destruct (trySend (pktQueue c) pkt); cbn in H; inversion H; reflexivity.
  - intros c' t H. rewrite <- Hd. revert H.
    generalize c tt c' t. change (keeps dataComplete delete).
    unfold delete. keeps_deep.
Qed.

Lemma GatherConnectionInfo_info_only_run (pkt : packet.Packet)
    (c : Connection) :
  packet.InfoOnly pkt = true ->
  exists c',
    GatherConnectionInfo pkt c = Ok (tt, c', [])
    /\ (process c', ProcessContext c', ProfileRevisionCounter c', Internal c',
        HistoryEnabled c', BandwidthEnabled c', dataComplete c')
       = (process c, ProcessContext c, ProfileRevisionCounter c, Internal c,
          HistoryEnabled c, BandwidthEnabled c, dataComplete c).
Proof.
  intros Hinfo.
  unfold GatherConnectionInfo, gatherEntity, gatherPID, SetLocalIP, bind, get,
    modify, ret.
  rewrite Hinfo. cbn.
  destruct (Entity c); cbn;
    match goal with |- context [if ?b then _ else _] => destruct b end; cbn;
    eexists; (split; reflexivity).
Qed.

(** X9: a packet that is info-only is only used for the entity and the PID.
    [GatherConnectionInfo] then always returns, writes nothing to the trace,
    and leaves the process, the process context, the profile revision
    counter, the internal mark, the feature switches and the data-complete
    flag as they are. *)
Theorem GatherConnectionInfo_info_only (pkt : packet.Packet)
    (c : Connection) :
  packet.InfoOnly pkt = true ->
  exists c',
    GatherConnectionInfo pkt c = Ok (tt, c', [])
    /\ process c' = process c
    /\ ProcessContext c' = ProcessContext c
    /\ ProfileRevisionCounter c' = ProfileRevisionCounter c
    /\ Internal c' = Internal c
    /\ HistoryEnabled c' = HistoryEnabled c
    /\ BandwidthEnabled c' = BandwidthEnabled c
    /\ DataIsComplete c' = DataIsComplete c.
Proof.
  intros Hinfo.
  destruct (GatherConnectionInfo_info_only_run pkt c Hinfo) as (c' & H & E).
  exists c'. split; [exact H|]. unfold DataIsComplete.
  inversion E. repeat split; reflexivity.
Qed.

(** ** What is set once *)

Lemma relates_of_keeps2 {A X Y : Type} (f : Connection -> X)
    (g : Connection -> Y) (R : Connection -> Connection -> Prop) (m : M A) :
  (forall c c', f c' = f c -> g c' = g c -> R c c') ->
  keeps f m -> keeps g m -> relates R m.
Proof.
  intros HR Kf Kg c a c' t H. apply HR; [exact (Kf _ _ _ _ H)|exact (Kg _ _ _ _ H)].
Qed.

(** X10: a known PID is final.  When the connection has a PID other than
    [UndefinedProcessID], [GatherConnectionInfo] changes neither the PID nor
    the direction of the connection. *)
Theorem GatherConnectionInfo_keeps_known_PID (pkt : packet.Packet)
    (c c' : Connection) (t : list Event) :
  PID c <> UndefinedProcessID ->
  GatherConnectionInfo pkt c = Ok (tt, c', t) ->
  PID c' = PID c /\ Inbound c' = Inbound c.
Proof.
  intros Hpid H.
  enough (K : relates (fun c c' => PID c <> UndefinedProcessID ->
                         PID c' = PID c /\ Inbound c' = Inbound c)
                (GatherConnectionInfo pkt))
    by exact (K c tt c' t H Hpid).
  clear c c' t Hpid H.
  assert (Hk : forall c c' : Connection,
             PID c' = PID c -> Inbound c' = Inbound c ->
             PID c <> UndefinedProcessID ->
             PID c' = PID c /\ Inbound c' = Inbound c) by auto.
  apply GatherConnectionInfo_relates.
  - auto.
  - intros a b c Hab Hbc Ha. destruct (Hab Ha) as [E1 E2].
    destruct Hbc as [E3 E4]; [congruence|]. split; congruence.
  - apply (relates_of_keeps2 PID Inbound _ _ Hk);
      unfold gatherEntity, SetLocalIP; keeps_deep.
  - intros c [] c' t H Hpid.
    unfold gatherPID, bind, get, modify, ret in H. cbn in H.
    destruct (PID c =? UndefinedProcessID) eqn:E.
    + apply Z.eqb_eq in E. contradiction.
    + inversion H; subst. auto.
  - apply (relates_of_keeps2 PID Inbound _ _ Hk);
      unfold gatherProcess; keeps_deep.
  - apply (relates_of_keeps2 PID Inbound _ _ Hk);
      unfold gatherProfile; keeps_deep.
  - apply (relates_of_keeps2 PID Inbound _ _ Hk);
      unfold gatherDomain; keeps_deep.
  - apply (relates_of_keeps2 PID Inbound _ _ Hk);
      unfold gatherCaptivePortal; keeps_deep.
  - apply (relates_of_keeps2 PID Inbound _ _ Hk);
      apply gatherComplete_keeps; intros; reflexivity.
Qed.

Lemma relates_of_keeps {A X : Type} (f : Connection -> X)
    (R : Connection -> Connection -> Prop) (m : M A) :
  (forall c c', f c' = f c -> R c c') -> keeps f m -> relates R m.
Proof. intros HR Kf c a c' t H. apply HR. exact (Kf _ _ _ _ H). Qed.

(** Shows that a block keeps a projection that none of its assignments
    touches. *)
Ltac block_keeps :=
  first
    [ apply gatherComplete_keeps; intros; reflexivity
    | unfold gatherEntity, SetLocalIP, gatherPID, gatherProcess,
        gatherProfile, gatherDomain, gatherCaptivePortal; keeps_deep ].

Lemma GatherConnectionInfo_after_entity
    (R : Connection -> Connection -> Prop) pkt c c' t :
  (forall c, R c c) ->
  (forall a b c, R a b -> R b c -> R a c) ->
  relates R (gatherPID pkt) ->
  relates R (gatherProcess pkt) ->
  relates R gatherProfile ->
  relates R (gatherDomain pkt) ->
  relates R (gatherCaptivePortal pkt) ->
  relates R (gatherComplete pkt) ->
  GatherConnectionInfo pkt c = Ok (tt, c', t) ->
  exists c1 t1, gatherEntity pkt c = Ok (tt, c1, t1) /\ R c1 c'.
Proof.
  intros Hrefl Htrans K2 K3 K4 K5 K6 K7 H.
  apply GatherConnectionInfo_steps in H
    as (c1 & c2 & t1 & t2 & H1 & H2 & [(_ & -> & _)|(_ & Hrest)]);
    exists c1, t1; (split; [exact H1|]).
  - eapply K2; eauto.
  - destruct Hrest as (c3 & c4 & c5 & c6 & t3 & t4 & t5 & t6 & t7
                       & H3 & H4 & H5 & H6 & H7 & _).
    eapply Htrans; [eapply K2; eauto|].
    eapply Htrans; [eapply K3; eauto|].
    eapply Htrans; [eapply K4; eauto|].
    eapply Htrans; [eapply K5; eauto|].
    eapply Htrans; [eapply K6; eauto|].
    eapply K7; eauto.
Qed.

(** X11: an attached process is final: [GatherConnectionInfo] looks one up
    only while the connection has none, and never replaces or removes the
    one it has. *)
Theorem GatherConnectionInfo_keeps_process (pkt : packet.Packet)
    (c c' : Connection) (t : list Event) (p : process.Process) :
  process c = Some p ->
  GatherConnectionInfo pkt c = Ok (tt, c', t) ->
  process c' = Some p.
Proof.
  intros Hp H.
  enough (K : relates (fun c c' => forall p, process c = Some p ->
                                   process c' = Some p)
                (GatherConnectionInfo pkt))
    by exact (K c tt c' t H p Hp).
  clear c c' t p Hp H.
  assert (Hk : forall c c' : Connection, process c' = process c ->
               forall p, process c = Some p -> process c' = Some p)
    by (intros c c' E p Hp; congruence).
  apply GatherConnectionInfo_relates; auto.
  - apply (relates_of_keeps process _ _ Hk); block_keeps.
  - apply (relates_of_keeps process _ _ Hk); block_keeps.
  - intros c [] c' t H p Hp.
    unfold gatherProcess, bind, get, modify, ret in H. cbn in H.
    rewrite Hp in H. inversion H; subst. exact Hp.
  - apply (relates_of_keeps process _ _ Hk); block_keeps.
  - apply (relates_of_keeps process _ _ Hk); block_keeps.
  - apply (relates_of_keeps process _ _ Hk); block_keeps.
  - apply (relates_of_keeps process _ _ Hk); block_keeps.
Qed.

(** X12: the process context is captured once.  When the profile revision
    counter of the connection is not zero, [GatherConnectionInfo] leaves the
    process context, the counter, the internal mark and both feature
    switches as they are. *)
Theorem GatherConnectionInfo_captures_once (pkt : packet.Packet)
    (c c' : Connection) (t : list Event) :
  ProfileRevisionCounter c <> 0 ->
  GatherConnectionInfo pkt c = Ok (tt, c', t) ->
  ProcessContext c' = ProcessContext c
  /\ ProfileRevisionCounter c' = ProfileRevisionCounter c
  /\ Internal c' = Internal c
  /\ HistoryEnabled c' = HistoryEnabled c
  /\ BandwidthEnabled c' = BandwidthEnabled c.
Proof.
  intros Hrev H.
  pose (f := fun c : Connection =>
               (ProcessContext c, ProfileRevisionCounter c, Internal c,
                HistoryEnabled c, BandwidthEnabled c)).
  enough (K : relates (fun c c' => ProfileRevisionCounter c <> 0 ->
                                   f c' = f c)
                (GatherConnectionInfo pkt)).
  { pose proof (K c tt c' t H Hrev) as E. unfold f in E.
    inversion E. repeat split; reflexivity. }
  clear c c' t Hrev H.
  assert (Hk : forall c c' : Connection, f c' = f c ->
               ProfileRevisionCounter c <> 0 -> f c' = f c) by auto.
  apply GatherConnectionInfo_relates.
  - reflexivity.
  - intros a b c Hab Hbc Ha. rewrite Hbc, Hab; auto.
    assert (E := Hab Ha). unfold f in E. inversion E. congruence.
  - apply (relates_of_keeps f _ _ Hk); block_keeps.
  - apply (relates_of_keeps f _ _ Hk); block_keeps.
  - apply (relates_of_keeps f _ _ Hk); block_keeps.
  - intros c [] c' t H Hrev.
    unfold gatherProfile, bind, get, modify, ret in H. cbn in H.
    destruct (process c); [|inversion H; reflexivity].
    destruct (ProfileRevisionCounter c =? 0) eqn:E;
      [apply Z.eqb_eq in E; contradiction|].
    inversion H; reflexivity.
  - apply (relates_of_keeps f _ _ Hk); block_keeps.
  - apply (relates_of_keeps f _ _ Hk); block_keeps.
  - apply (relates_of_keeps f _ _ Hk); block_keeps.
Qed.

(** Opens the matches of a hypothesis from the inside: destructs a scrutinee
    that holds no match itself, rewriting with [E] in between. *)
Ltac open_matches H E :=
  repeat (match type of H with
          | context [match ?x with _ => _ end] =>
              lazymatch x with
              | context [match _ with _ => _ end] => fail
              | _ => destruct x eqn:?; cbn in H; rewrite ?E in H; cbn in H
              end
          end; try discriminate H).

Lemma gatherEntity_existing pkt c c' t e :
  Entity c = Some e -> gatherEntity pkt c = Ok (tt, c', t) -> c' = c.
Proof.
  intros He H. unfold gatherEntity, bind, get, ret in H. cbn in H.
  rewrite He in H. inversion H; reflexivity.
Qed.

Lemma gatherEntity_creates pkt c c' t :
  gatherEntity pkt c = Ok (tt, c', t) -> Entity c' <> None.
Proof.
  unfold gatherEntity, SetLocalIP, bind, get, modify, ret. cbn.
  destruct (Entity c) eqn:He; cbn; intros H; inversion H; subst; cbn;
    rewrite ?He; discriminate.
Qed.

Lemma gatherDomain_with_domain pkt c c' t :
  hasDomain c -> gatherDomain pkt c = Ok (tt, c', t) -> c' = c.
Proof.
  unfold hasDomain. intros Hd H.
  unfold gatherDomain, entityDomainEmpty, bind, get, modify, emit, ret, panic
    in H. cbn in H.
  destruct (Entity c) as [e|]; [|contradiction].
  apply String.eqb_neq in Hd. rewrite Hd in H. cbn in H.
  destruct (process.Profile (process c)); inversion H; reflexivity.
Qed.

Lemma gatherCaptivePortal_with_domain pkt c c' t :
  hasDomain c -> gatherCaptivePortal pkt c = Ok (tt, c', t) -> c' = c.
Proof.
  unfold hasDomain. intros Hd H.
  unfold gatherCaptivePortal, entityDomainEmpty, bind, get, modify, emit, ret,
    panic in H. cbn in H.
  destruct (Entity c) as [e|]; [|contradiction].
  apply String.eqb_neq in Hd. rewrite Hd in H. cbn in H.
  inversion H; reflexivity.
Qed.

(** X13: a domain is final.  When the entity of the connection has a domain,
    [GatherConnectionInfo] asks neither the resolver nor the captive portal:
    the entity, the scope, the DNS context, the resolver and the local
    address are left as they are. *)
Theorem GatherConnectionInfo_keeps_domain (pkt : packet.Packet)
    (c c' : Connection) (t : list Event) :
  hasDomain c ->
  GatherConnectionInfo pkt c = Ok (tt, c', t) ->
  Entity c' = Entity c
  /\ Scope c' = Scope c
  /\ DNSContext c' = DNSContext c
  /\ Resolver c' = Resolver c
  /\ LocalIP c' = LocalIP c
  /\ LocalIPScope c' = LocalIPScope c
  /\ LocalPort c' = LocalPort c.
Proof.
  intros Hdom H.
  pose (f := fun c : Connection =>
               (Entity c, Scope c, DNSContext c, Resolver c, LocalIP c,
                LocalIPScope c, LocalPort c)).
  enough (K : relates (fun c c' => hasDomain c -> f c' = f c)
                (GatherConnectionInfo pkt)).
  { pose proof (K c tt c' t H Hdom) as E. unfold f in E.
    inversion E. repeat split; reflexivity. }
  clear c c' t Hdom H.
  assert (Hk : forall c c' : Connection, f c' = f c ->
               hasDomain c -> f c' = f c) by auto.
  assert (Hsame : forall c c' : Connection, c' = c -> f c' = f c)
    by (intros c c' ->; reflexivity).
  apply GatherConnectionInfo_relates.
  - reflexivity.
  - intros a b c Hab Hbc Ha. assert (E := Hab Ha).
    assert (HE : Entity b = Entity a) by (unfold f in E; congruence).
    assert (Hb : hasDomain b) by (unfold hasDomain in *; now rewrite HE).
    rewrite (Hbc Hb). exact E.
  - intros c [] c' t H Hd. apply Hsame. unfold hasDomain in Hd.
    destruct (Entity c) as [e|] eqn:He; [|contradiction].
    exact (gatherEntity_existing pkt c c' t e He H).
  - apply (relates_of_keeps f _ _ Hk); block_keeps.
  - apply (relates_of_keeps f _ _ Hk); block_keeps.
  - apply (relates_of_keeps f _ _ Hk); block_keeps.
  - intros c [] c' t H Hd. apply Hsame.
    exact (gatherDomain_with_domain pkt c c' t Hd H).
  - intros c [] c' t H Hd. apply Hsame.
    exact (gatherCaptivePortal_with_domain pkt c c' t Hd H).
  - apply (relates_of_keeps f _ _ Hk); block_keeps.
Qed.

Lemma sameEndpoints_refl c : sameEndpoints c c.
Proof. intros e He. exists e. auto. Qed.

Lemma sameEndpoints_trans a b c :
  sameEndpoints a b -> sameEndpoints b c -> sameEndpoints a c.
Proof.
  intros Hab Hbc e He.
  destruct (Hab e He) as (e1 & He1 & Hc1 & L1 & L2 & L3).
  destruct (Hbc e1 He1) as (e2 & He2 & Hc2 & L4 & L5 & L6).
  exists e2. repeat split; congruence.
Qed.

Lemma sameEndpoints_of_keeps c c' :
  (Entity c', LocalIP c', LocalIPScope c', LocalPort c')
  = (Entity c, LocalIP c, LocalIPScope c, LocalPort c) ->
  sameEndpoints c c'.
Proof.
  intros E e He. exists e. inversion E. repeat split; congruence.
Qed.

Lemma gatherDomain_sameEndpoints pkt : relates sameEndpoints (gatherDomain pkt).
Proof.
  intros c [] c' t H e He.
  unfold gatherDomain, entityDomainEmpty, bind, get, modify, emit, ret, panic
    in H. cbn in H. rewrite He in H. cbn in H.
  open_matches H He; inversion H; subst; cbn;
    eexists; (split; [first [reflexivity|eassumption]|]);
    repeat split; first [reflexivity|congruence].
Qed.

Lemma gatherCaptivePortal_sameEndpoints pkt :
  relates sameEndpoints (gatherCaptivePortal pkt).
Proof.
  intros c [] c' t H e He.
  unfold gatherCaptivePortal, entityDomainEmpty, bind, get, modify, emit, ret,
    panic in H. cbn in H. rewrite He in H. cbn in H.
  open_matches H He; inversion H; subst; cbn;
    eexists; (split; [first [reflexivity|eassumption]|]);
    repeat split; first [reflexivity|congruence].
Qed.

(** X14: whenever [GatherConnectionInfo] returns the connection has an
    entity, and an entity that was there before is still the same endpoint:
    its IP, protocol, port and IP scope and the local IP, IP scope and port
    of the connection are unchanged (only the domain and the CNAMEs may have
    been filled in). *)
Theorem GatherConnectionInfo_entity (pkt : packet.Packet)
    (c c' : Connection) (t : list Event) :
  GatherConnectionInfo pkt c = Ok (tt, c', t) ->
  Entity c' <> None /\ sameEndpoints c c'.
Proof.
  intros H.
  pose (g := fun c : Connection =>
               (Entity c, LocalIP c, LocalIPScope c, LocalPort c)).
  assert (Hk : forall c c' : Connection, g c' = g c -> sameEndpoints c c')
    by (intros; now apply sameEndpoints_of_keeps).
  destruct (GatherConnectionInfo_after_entity sameEndpoints pkt c c' t)
    as (c1 & t1 & H1 & Hrest); auto using sameEndpoints_refl.
  - exact sameEndpoints_trans.
  - apply (relates_of_keeps g _ _ Hk); block_keeps.
  - apply (relates_of_keeps g _ _ Hk); block_keeps.
  - apply (relates_of_keeps g _ _ Hk); block_keeps.
  - apply gatherDomain_sameEndpoints.
  - apply gatherCaptivePortal_sameEndpoints.
  - apply (relates_of_keeps g _ _ Hk); block_keeps.
  - split.
    + pose proof (gatherEntity_creates pkt c c1 t1 H1) as Hne.
      destruct (Entity c1) as [e1|] eqn:He1; [|contradiction].
      destruct (Hrest e1 He1) as (e' & He' & _). congruence.
    + intros e He.
      rewrite (gatherEntity_existing pkt c c1 t1 e He H1) in Hrest.
      exact (Hrest e He).
Qed.

(** ** What the correlator emits *)

Lemma emits_ret {A : Type} (P : Event -> Prop) (a : A) : emits_only P (ret a).
Proof. intros c a' c' t H. inversion H; constructor. Qed.

Lemma emits_get (P : Event -> Prop) : emits_only P get.
Proof. intros c a' c' t H. inversion H; constructor. Qed.

Lemma emits_modify (P : Event -> Prop) g : emits_only P (modify g).
Proof. intros c a' c' t H. inversion H; constructor. Qed.

Lemma emits_panic {A : Type} (P : Event -> Prop) : emits_only P (@panic A).
Proof. intros c a' c' t H. discriminate. Qed.

Lemma emits_emit (P : Event -> Prop) e : P e -> emits_only P (emit e).
Proof. intros He c a' c' t H. inversion H; subst. repeat constructor. exact He. Qed.

Lemma emits_bind {A B : Type} (P : Event -> Prop) (m : M A) (k : A -> M B) :
  emits_only P m -> (forall a, emits_only P (k a)) -> emits_only P (bind m k).
Proof.
  intros Hm Hk c b c2 t H.
  apply bind_Ok in H as (a & c1 & t1 & t2 & H1 & H2 & ->).
  apply Forall_app. split; [exact (Hm _ _ _ _ H1)|exact (Hk a _ _ _ _ H2)].
Qed.

Lemma emits_getProcessContext proc :
  emits_only internal_event (liftR (getProcessContext proc)).
Proof.
  intros c0 a c' t H. unfold liftR in H.
  destruct proc as [p|]; cbn in H; [|discriminate].
  destruct (profile.LocalProfile _); inversion H; subst;
    repeat constructor.
Qed.

(** Splits an [emits_only] goal along the structure of the run. *)
Ltac emits_step :=
  match goal with
  | |- emits_only _ (bind _ _) => apply emits_bind; [|intros ?]
  | |- emits_only _ (modify _) => apply emits_modify
  | |- emits_only _ (ret _) => apply emits_ret
  | |- emits_only _ get => apply emits_get
  | |- emits_only _ panic => apply emits_panic
  | |- emits_only _ (emit _) => apply emits_emit; exact I
  | |- emits_only _ (liftR (getProcessContext ?p)) =>
      exact (emits_getProcessContext p)
  | |- emits_only _ (if ?b then _ else _) => destruct b
  | |- emits_only _ (match ?o with _ => _ end) => destruct o
  | |- emits_only _ (let (_, _) := ?p in _) => destruct p
  end.

Lemma UpdateFeatures_silent (P : Event -> Prop) : emits_only P UpdateFeatures.
Proof.
  unfold UpdateFeatures. destruct GetUser as [user err].
  repeat emits_step.
Qed.

Lemma entityDomainEmpty_silent (P : Event -> Prop) :
  emits_only P entityDomainEmpty.
Proof. unfold entityDomainEmpty. repeat emits_step. Qed.

Ltac emits_deep :=
  repeat first
    [ apply UpdateFeatures_silent
    | apply entityDomainEmpty_silent
    | emits_step ].

Lemma filter_internal (f : Event -> bool) (t : list Event) :
  (forall e, internal_event e -> f e = false) ->
  Forall internal_event t -> filter f t = [].
Proof.
  intros Hf Ht. induction Ht as [|e t He _ IH]; [reflexivity|].
  cbn. now rewrite (Hf e He).
Qed.

(** X15: [GatherConnectionInfo] keeps to itself.  Whatever it finds, its
    trace holds nothing but log lines and the release of the open DNS
    request that it has claimed: it registers nothing, counts nothing, drops
    no packet and pushes nothing to the database. *)
Theorem GatherConnectionInfo_is_internal (pkt : packet.Packet)
    (c c' : Connection) (t : list Event) :
  GatherConnectionInfo pkt c = Ok (tt, c', t) ->
  Forall internal_event t
  /\ pushes t = []
  /\ filter is_registry_add t = [].
Proof.
  intros H.
  assert (Ht : Forall internal_event t).
  { revert H. generalize c tt c' t.
    change (emits_only internal_event (GatherConnectionInfo pkt)).
    unfold GatherConnectionInfo, gatherEntity, SetLocalIP, gatherPID,
      gatherProcess, gatherProfile, gatherDomain, gatherCaptivePortal,
      gatherComplete.
    emits_deep. }
  split; [exact Ht|]. split.
  - apply filter_internal; [|exact Ht]. intros [] He; try reflexivity; destruct He.
  - apply filter_internal; [|exact Ht]. intros [] He; try reflexivity; destruct He.
Qed.

(** X16: the process context is that of the attached process.  After a call
    with a packet that is not info-only on a connection whose profile
    revision counter is zero, a connection that has a process carries the
    context computed from this very process. *)
Theorem GatherConnectionInfo_context_of_process (pkt : packet.Packet)
    (c c' : Connection) (t : list Event) :
  packet.InfoOnly pkt = false ->
  ProfileRevisionCounter c = 0 ->
  GatherConnectionInfo pkt c = Ok (tt, c', t) ->
  process c' <> None ->
  exists t0, getProcessContext (process c') = Ok (ProcessContext c', t0).
Proof.
  intros Hinfo Hrev H Hproc.
  apply GatherConnectionInfo_steps in H
    as (c1 & c2 & t1 & t2 & H1 & H2 & [(Hinfo' & _)|(_ & Hrest)]);
    [congruence|].
  destruct Hrest as (c3 & c4 & c5 & c6 & t3 & t4 & t5 & t6 & t7
                     & H3 & H4 & H5 & H6 & H7 & _).
  pose (f := fun c : Connection => (process c, ProcessContext c)).
  assert (K5 : keeps f (gatherDomain pkt)) by block_keeps.
  assert (K6 : keeps f (gatherCaptivePortal pkt)) by block_keeps.
  assert (K7 : keeps f (gatherComplete pkt)) by block_keeps.
  assert (E : f c' = f c4).
  { rewrite (K7 _ _ _ _ H7), (K6 _ _ _ _ H6), (K5 _ _ _ _ H5). reflexivity. }
  unfold f in E. inversion E as [[Ep Ec]]. rewrite Ep in Hproc. clear E.
  assert (R1 : keeps ProfileRevisionCounter (gatherEntity pkt)) by block_keeps.
  assert (R2 : keeps ProfileRevisionCounter (gatherPID pkt)) by block_keeps.
  assert (R3 : keeps ProfileRevisionCounter (gatherProcess pkt)) by block_keeps.
  assert (Hrev3 : ProfileRevisionCounter c3 = 0).
  { rewrite (R3 _ _ _ _ H3), (R2 _ _ _ _ H2), (R1 _ _ _ _ H1). exact Hrev. }
  assert (P4 : keeps process gatherProfile) by block_keeps.
  pose proof (P4 _ _ _ _ H4) as Ep4. rewrite Ep4 in *.
  unfold gatherProfile in H4.
  apply bind_Ok in H4 as (c0 & c3' & s1 & s2 & Hget & H4 & _).
  inversion Hget; subst c0 c3' s1. clear Hget.
  destruct (process c3) as [p|] eqn:Hp3; [|contradiction].
  rewrite Hrev3 in H4. cbn [Z.eqb] in H4.
  apply bind_Ok in H4 as (pCtx & c3' & s1 & s3 & Hctx & H4 & _).
  unfold liftR in Hctx.
  destruct (getProcessContext (Some p)) as [[pCtx0 t0]|] eqn:Hg;
    [|discriminate].
  inversion Hctx; subst pCtx0 c3' s1. clear Hctx.
  exists t0. rewrite Ep, Ec, Hg. f_equal. f_equal.
  apply bind_Ok in H4 as ([] & c3a & s4 & s5 & Hm & H4 & _).
  inversion Hm; subst c3a s4. clear Hm.
  assert (K : keeps ProcessContext
                (modify (set_ProfileRevisionCounter
                           (profile.RevisionCnt (process.Profile (Some p)))) ;;
                 match profile.LocalProfile (process.Profile (Some p)) with
                 | Some localProfile =>
                     modify (set_Internal (profile.Internal localProfile)) ;;
                     err <- UpdateFeatures ;;
                     if reportable err
                     then emit (EvLog LWarning
                            "network: connection %s failed to check for enabled features: %s")
                     else ret tt
                 | None => ret tt
                 end)%conn) by keeps_deep.
  rewrite (K _ _ _ _ H4). reflexivity.
Qed.

(** ** Feature switches *)

(** X17: [UpdateFeatures] in closed form.  An error of [access.GetUser]
    other than "not logged in" is returned and the connection is untouched.
    Otherwise (no error, or not logged in) the call returns nil, with
    [HistoryEnabled] set exactly when the connection is not internal, its
    entity is not on localhost, the user may use the history and the profile
    enables it, and [BandwidthEnabled] set to the user's permission; it
    panics only on a connection that is not internal and has no entity. *)
Theorem UpdateFeatures_result (c : Connection) :
  if reportable (snd GetUser) then
    UpdateFeatures c = Ok (snd GetUser, c, [])
  else
    (Internal c = true \/ Entity c <> None ->
     UpdateFeatures c
     = Ok (None,
           set_BandwidthEnabled (MayUse (fst GetUser) access.FeatureBWVis)
             (set_HistoryEnabled (historyAllowed (fst GetUser) c) c),
           []))
    /\ (Internal c = false -> Entity c = None -> UpdateFeatures c = Panic).
Proof.
  unfold UpdateFeatures, reportable, historyAllowed, Process_.
  destruct GetUser as [user err]. cbn [fst snd].
  destruct (match err with
            | Some e => negb (access.is_ErrNotLoggedIn e)
            | None => false
            end); [reflexivity|].
  unfold bind, get, modify, ret, panic. cbn. split.
  - intros Hok. destruct (Internal c); cbn; [reflexivity|].
    destruct (Entity c) as [e|]; [|destruct Hok; [discriminate|contradiction]].
    destruct (netutils.IsLocalhost (intel.IPScope e)); cbn; [reflexivity|].
    destruct (MayUse user access.FeatureHistory); cbn; [|reflexivity].
    destruct (process.Profile (process c)); reflexivity.
  - intros Hi He. rewrite Hi, He. reflexivity.
Qed.

(** ** Connections made for DNS requests *)

Lemma inheritInternal_silent (lp : option profile.Profile) (w : string) :
  emits_only internal_event
    ((match lp with
      | Some localProfile =>
          modify (set_Internal (profile.Internal localProfile)) ;;
          err <- UpdateFeatures ;;
          if reportable err then emit (EvLog LWarning w) else ret tt
      | None => ret tt
      end) ;; UpdateMeta).
Proof.
  unfold UpdateMeta.
  repeat first [ apply UpdateFeatures_silent | emits_step ].
Qed.

Lemma inheritDNSRequest_silent now found pi :
  Forall internal_event (snd (inheritDNSRequest now found pi)).
Proof.
  unfold inheritDNSRequest. destruct found as [d|]; [|constructor].
  destruct (PID d <? 0); [constructor|].
  destruct (_ && _); repeat constructor.
Qed.

Lemma getProcessContext_silent proc pCtx t :
  getProcessContext proc = Ok (pCtx, t) -> Forall internal_event t.
Proof.
  destruct proc as [p|]; cbn; [|discriminate].
  destruct (profile.LocalProfile _); intros H; inversion H; subst;
    repeat constructor.
Qed.

(** The fields that the constructors set and that the inheritance of the
    internal mark leaves alone. *)
Lemma inheritInternal_keeps_made (lp : option profile.Profile) (w : string) :
  keeps (fun c => (Type_ c, ID c, Scope c, Started c, Ended c, dataComplete c,
                   Inbound c, External c, key c, Entity c, PID c, process c))
    ((match lp with
      | Some localProfile =>
          modify (set_Internal (profile.Internal localProfile)) ;;
          err <- UpdateFeatures ;;
          if reportable err then emit (EvLog LWarning w) else ret tt
      | None => ret tt
      end) ;; UpdateMeta).
Proof. apply inheritInternal_keeps; intros; reflexivity. Qed.

(** X18: a connection made by [NewConnectionFromDNSRequest] is a DNS request
    of the asked domain, outbound, complete from the start, started and ended
    at the same second, attributed to a process whose PID it carries, and not
    yet saved: it has no key, and making it registers and pushes nothing. *)
Theorem NewConnectionFromDNSRequest_result
    (nowCheck nowCreate : Z) (fqdn : string) (cnames : list string)
    (connID : string) (localIP : IP) (localPort : Z)
    (c : Connection) (t : list Event) :
  NewConnectionFromDNSRequest nowCheck nowCreate fqdn cnames connID
    localIP localPort = Ok (c, t) ->
  Type_ c = DNSRequest /\ ID c = connID /\ Scope c = fqdn
  /\ Started c = nowCreate /\ Ended c = nowCreate
  /\ DataIsComplete c = true /\ Inbound c = false /\ External c = false
  /\ KeyIsSet c = false
  /\ Entity c = Some (intel.mkEntity [] 0 0 fqdn cnames netutils.Global)
  /\ (exists p, process c = Some p /\ PID c = process.Pid p)
  /\ Forall internal_event t.
Proof.
  unfold NewConnectionFromDNSRequest.
  pose proof (inheritDNSRequest_silent nowCheck
                (GetDNSRequestConnection (dnsRequestInfo localIP localPort))
                (dnsRequestInfo localIP localPort)) as Hs0.
  destruct (inheritDNSRequest _ _ _) as [[pi proc] t0]. cbn [snd] in Hs0.
  match goal with |- context [match ?p with Some _ => _ | None => Panic end] =>
    destruct p as [p0|] eqn:Hp end; [|discriminate].
  destruct (getProcessContext _) as [[pCtx t1]|] eqn:Hctx; [|discriminate].
  apply getProcessContext_silent in Hctx.
  match goal with |- context [match ?r with Ok _ => _ | Panic => Panic end] =>
    destruct r as [[[u c1] t2]|] eqn:Hrun end; [|discriminate].
  intros H. inversion H; subst c1 t. clear H.
  pose proof (inheritInternal_keeps_made _ _ _ _ _ _ Hrun) as E.
  pose proof (inheritInternal_silent _ _ _ _ _ _ Hrun) as Hs2.
  cbn in E. inversion E as [[E1 E2 E3 E4 E5 E6 E7 E8 E9 E10 E11 E12]].
  unfold DataIsComplete, KeyIsSet. rewrite E9.
  repeat split; try congruence.
  - exists p0. split; assumption.
  - repeat (apply Forall_app; split); assumption.
Qed.

(** X19: [NewConnectionFromExternalDNSRequest] gives no connection exactly
    when [process.GetNetworkHost] fails, and then does nothing else.  A
    connection that it gives is an external DNS request of the asked domain,
    complete from the start, carries [NetworkHostProcessID] and the network
    host as its process, and is not yet saved. *)
Theorem NewConnectionFromExternalDNSRequest_result
    (now : Z) (fqdn : string) (cnames : list string) (connID : string)
    (remoteIP : IP) :
  (snd (GetNetworkHost remoteIP) = true ->
   NewConnectionFromExternalDNSRequest now fqdn cnames connID remoteIP
   = Ok (None, []))
  /\ (forall r t,
      NewConnectionFromExternalDNSRequest now fqdn cnames connID remoteIP
      = Ok (r, t) ->
      match r with
      | None => snd (GetNetworkHost remoteIP) = true
      | Some c =>
          snd (GetNetworkHost remoteIP) = false
          /\ Type_ c = DNSRequest /\ External c = true /\ ID c = connID
          /\ Scope c = fqdn /\ Started c = now /\ Ended c = now
          /\ DataIsComplete c = true /\ KeyIsSet c = false
          /\ PID c = NetworkHostProcessID
          /\ process c = fst (GetNetworkHost remoteIP)
          /\ process c <> None
          /\ Forall internal_event t
      end).
Proof.
  unfold NewConnectionFromExternalDNSRequest.
  destruct (GetNetworkHost remoteIP) as [remoteHost err]. cbn [fst snd].
  split.
  - intros ->. reflexivity.
  - intros r t. destruct err.
    + intros H. inversion H; subst. reflexivity.
    + destruct (getProcessContext remoteHost) as [[pCtx t1]|] eqn:Hctx;
        [|discriminate].
      assert (Hhost : remoteHost <> None)
        by (destruct remoteHost; [discriminate|discriminate Hctx]).
      apply getProcessContext_silent in Hctx.
      match goal with |- context [match ?x with Ok _ => _ | Panic => Panic end] =>
        destruct x as [[[u c1] t2]|] eqn:Hrun end; [|discriminate].
      intros H. inversion H; subst r t. clear H.
      pose proof (inheritInternal_keeps_made _ _ _ _ _ _ Hrun) as E.
      pose proof (inheritInternal_silent _ _ _ _ _ _ Hrun) as Hs2.
      cbn in E. inversion E as [[E1 E2 E3 E4 E5 E6 E7 E8 E9 E10 E11 E12]].
      unfold DataIsComplete, KeyIsSet. rewrite E9, E12.
      repeat split; try congruence.
      apply Forall_app; split; assumption.
Qed.

(** ** Saving and deleting *)

Lemma Save_trace (c c' : Connection) (t : list Event) :
  Save c = Ok (tt, c', t) ->
  t = (if DataIsComplete c then
         (if KeyIsSet c then []
          else match Type_ c with
               | DNSRequest => [EvDnsConnsAdd (ID c)]
               | _ => [EvConnsAdd (ID c)]
               end)
         ++ [EvAddToMetrics (ID c); EvPushUpdate c']
       else [])
  /\ (DataIsComplete c = false -> c' = set_meta (BaseUpdateMeta (meta c)) c)
  /\ (DataIsComplete c = true -> exists c0, c' = addToMetrics c0 /\ key c0 <> None).
Proof.
  unfold Save, UpdateMeta, SetKey, KeyIsSet, bind, get, modify, emit, ret,
    panic, DataIsComplete.
  cbn. destruct (dataComplete c); cbn.
  - destruct (key c) eqn:Hk; cbn.
    + intros H; inversion H; subst. repeat split; try discriminate.
      intros _. eexists. split; [reflexivity|]. cbn. rewrite Hk. discriminate.
    + destruct (process c); cbn; [|discriminate].
      destruct (Type_ c); cbn; intros H; inversion H; subst;
        (repeat split; try discriminate);
        intros _; eexists; (split; [reflexivity|]); cbn; discriminate.
  - intros H; inversion H; subst. repeat split; try discriminate.
Qed.

(** X20: which table.  [Save] registers a complete connection that has no
    key yet in [dnsConns] when its type is [DNSRequest] and in [conns]
    otherwise; a connection with a key is not registered again.  [delete]
    removes from [conns] when the type is [IPConnection] and from [dnsConns]
    otherwise.  The two agree for both types that the constructors give;
    for the zero type [Undefined] they do not. *)
Theorem registry_table_by_type (c : Connection) :
  (forall c' t,
     DataIsComplete c = true -> Save c = Ok (tt, c', t) ->
     filter is_registry_add t
     = if KeyIsSet c then []
       else match Type_ c with
            | DNSRequest => [EvDnsConnsAdd (ID c)]
            | IPConnection | Undefined => [EvConnsAdd (ID c)]
            end)
  /\ (forall c' t,
     delete c = Ok (tt, c', t) ->
     exists t',
       t = match Type_ c with
           | IPConnection => EvConnsDelete (ID c)
           | DNSRequest | Undefined => EvDnsConnsDelete (ID c)
           end :: t'
       /\ filter is_registry_add t' = []).
Proof.
  split.
  - intros c' t Hd H. apply Save_trace in H as (-> & _). rewrite Hd.
    destruct (KeyIsSet c); [reflexivity|]. destruct (Type_ c); reflexivity.
  - intros c' t.
    unfold delete, bind, get, modify, emit, ret, panic, DataIsComplete. cbn.
    destruct (Type_ c); cbn; (destruct (meta c); cbn; [|discriminate]);
      destruct (dataComplete c); cbn; intros H; inversion H; subst;
      eexists; split; reflexivity.
Qed.

(** X21: [Save] registers a connection at most once.  Provided the metrics
    step leaves the key alone, a second [Save] right after a first one adds
    nothing to either table, whatever the first one did. *)
Theorem Save_registers_once (c c1 c2 : Connection) (t1 t2 : list Event) :
  (forall x, key (addToMetrics x) = key x) ->
  Save c = Ok (tt, c1, t1) ->
  Save c1 = Ok (tt, c2, t2) ->
  filter is_registry_add t2 = []
  /\ (length (filter is_registry_add (t1 ++ t2)) <= 1)%nat.
Proof.
  intros Hkey H1 H2.
  apply Save_trace in H1 as (E1 & Hinc & Hcomp).
  apply Save_trace in H2 as (E2 & _ & _).
  assert (Hsecond : filter is_registry_add t2 = []).
  { rewrite E2. destruct (DataIsComplete c1) eqn:Hd1; [|reflexivity].
    destruct (DataIsComplete c) eqn:Hd.
    - destruct (Hcomp eq_refl) as (c0 & -> & Hk0).
      unfold KeyIsSet. rewrite Hkey. destruct (key c0); [reflexivity|contradiction].
    - rewrite (Hinc eq_refl) in Hd1. unfold DataIsComplete in *. cbn in Hd1.
      congruence. }
  split; [exact Hsecond|].
  rewrite filter_app, Hsecond, app_nil_r, E1.
  destruct (DataIsComplete c); [|cbn; lia].
  destruct (KeyIsSet c); [cbn; lia|]. destruct (Type_ c); cbn; lia.
Qed.

(** ** Scope and domain *)

Lemma gatherDomain_scope pkt c c' t :
  scopeFollowsDomain c -> gatherDomain pkt c = Ok (tt, c', t) ->
  scopeFollowsDomain c'.
Proof.
  unfold scopeFollowsDomain. intros Hs H.
  destruct (Entity c) as [e|] eqn:He; [|contradiction].
  unfold gatherDomain, entityDomainEmpty, bind, get, modify, emit, ret, panic
    in H. cbn in H. rewrite He in H. cbn in H.
  open_matches H He; inversion H; subst; cbn; rewrite ?He; auto.
Qed.

Lemma gatherCaptivePortal_scope pkt c c' t :
  scopeFollowsDomain c -> gatherCaptivePortal pkt c = Ok (tt, c', t) ->
  scopeFollowsDomain c'.
Proof.
  unfold scopeFollowsDomain. intros Hs H.
  destruct (Entity c) as [e|] eqn:He; [|contradiction].
  unfold gatherCaptivePortal, entityDomainEmpty, bind, get, modify, emit, ret,
    panic in H. cbn in H. rewrite He in H. cbn in H.
  open_matches H He; inversion H; subst; cbn; rewrite ?He; auto.
Qed.

(** X27: the scope follows the domain.  On a connection that has an entity
    and whose scope is the domain of the entity whenever there is one,
    [GatherConnectionInfo] keeps it so: when it fills in a domain, from the
    resolver or from the captive portal, it sets the scope to the same
    name. *)
Theorem GatherConnectionInfo_scope_follows_domain (pkt : packet.Packet)
    (c c' : Connection) (t : list Event) :
  scopeFollowsDomain c ->
  GatherConnectionInfo pkt c = Ok (tt, c', t) ->
  scopeFollowsDomain c'.
Proof.
  intros Hs H.
  enough (K : relates (fun c c' => scopeFollowsDomain c ->
                                   scopeFollowsDomain c')
                (GatherConnectionInfo pkt))
    by exact (K c tt c' t H Hs).
  clear c c' t Hs H.
  pose (f := fun c : Connection => (Entity c, Scope c)).
  assert (Hk : forall c c' : Connection, f c' = f c ->
               scopeFollowsDomain c -> scopeFollowsDomain c').
  { intros c c' E. unfold f in E. inversion E as [[E1 E2]].
    unfold scopeFollowsDomain. now rewrite E1, E2. }
  apply GatherConnectionInfo_relates; auto.
  - intros c [] c' t H Hs. unfold scopeFollowsDomain in Hs.
    destruct (Entity c) as [e|] eqn:He; [|contradiction].
    rewrite (gatherEntity_existing pkt c c' t e He H).
    unfold scopeFollowsDomain. now rewrite He.
  - apply (relates_of_keeps f _ _ Hk); block_keeps.
  - apply (relates_of_keeps f _ _ Hk); block_keeps.
  - apply (relates_of_keeps f _ _ Hk); block_keeps.
  - intros c [] c' t H Hs. exact (gatherDomain_scope pkt c c' t Hs H).
  - intros c [] c' t H Hs. exact (gatherCaptivePortal_scope pkt c c' t Hs H).
  - apply (relates_of_keeps f _ _ Hk); block_keeps.
Qed.

(** X28: a connection to the captive portal gets a name.  After a call with
    a packet that is not info-only and whose remote IP is the IP of the
    captive portal, the entity has a domain, the resolved one or else the
    portal's, provided the portal has a domain at all. *)
Theorem GatherConnectionInfo_names_portal (pkt : packet.Packet)
    (c c' : Connection) (t : list Event) :
  packet.InfoOnly pkt = false ->
  IPEqual (InfoRemoteIP (packet.GetInfo pkt))
    (netenv.PortalIP GetCaptivePortal) = true ->
  netenv.PortalDomain GetCaptivePortal <> "" ->
  GatherConnectionInfo pkt c = Ok (tt, c', t) ->
  hasDomain c'.
Proof.
  intros Hinfo Hip Hportal H.
  apply GatherConnectionInfo_steps in H
    as (c1 & c2 & t1 & t2 & H1 & H2 & [(Hinfo' & _)|(_ & Hrest)]);
    [congruence|].
  destruct Hrest as (c3 & c4 & c5 & c6 & t3 & t4 & t5 & t6 & t7
                     & H3 & H4 & H5 & H6 & H7 & _).
  assert (K7 : keeps Entity (gatherComplete pkt)) by block_keeps.
  unfold hasDomain. rewrite (K7 _ _ _ _ H7).
  unfold gatherCaptivePortal, entityDomainEmpty, bind, get, modify, emit, ret,
    panic in H6. cbn in H6.
  destruct (Entity c5) as [e|] eqn:He; cbn in H6; [|discriminate].
  destruct (intel.Domain e =? "")%string eqn:Hd; cbn in H6.
  - rewrite Hip in H6. cbn in H6. rewrite He in H6. cbn in H6.
    inversion H6; subst. cbn. exact Hportal.
  - inversion H6; subst. rewrite He. now apply String.eqb_neq.
Qed.

(** ** Before the first real packet *)

Lemma gatherAll_info_only (pkts : list packet.Packet) :
  forall c,
    Forall (fun pkt => packet.InfoOnly pkt = true) pkts ->
    exists c',
      gatherAll pkts c = Ok (tt, c', [])
      /\ dataComplete c' = dataComplete c /\ process c' = process c.
Proof.
  induction pkts as [|pkt pkts IH]; intros c Hall.
  - exists c. repeat split.
  - inversion Hall as [|? ? Hinfo Hrest]; subst.
    destruct (GatherConnectionInfo_info_only_run pkt c Hinfo) as (c1 & H1 & E).
    destruct (IH c1 Hrest) as (c' & H' & Hd & Hp).
    exists c'. cbn [gatherAll]. unfold bind. rewrite H1, H'.
    inversion E. repeat split; congruence.
Qed.

(** X29: info-only packets alone never make a connection visible.  A
    connection made by [NewIncompleteConnection] is entered in [conns] and
    nothing else; after any number of info-only packets have been gathered
    it is still incomplete and without a process, and a [Save] on it returns
    with an empty trace: no key, no push. *)
Theorem info_only_packets_stay_hidden (now : Z) (pkt : packet.Packet)
    (infos : list packet.Packet) :
  Forall (fun i => packet.InfoOnly i = true) infos ->
  snd (NewIncompleteConnection now pkt) = [EvConnsAdd (packet.GetConnectionID pkt)]
  /\ exists c',
       gatherAll infos (fst (NewIncompleteConnection now pkt)) = Ok (tt, c', [])
       /\ DataIsComplete c' = false
       /\ process c' = None
       /\ Save c' = Ok (tt, set_meta (BaseUpdateMeta (meta c')) c', []).
Proof.
  intros Hall. split.
  - unfold NewIncompleteConnection. cbn.
    match goal with |- context [if ?b then _ else _] => destruct b end;
      reflexivity.
  - destruct (gatherAll_info_only infos (fst (NewIncompleteConnection now pkt))
                Hall) as (c' & H & Hd & Hp).
    assert (Hd0 : dataComplete (fst (NewIncompleteConnection now pkt)) = false
                  /\ process (fst (NewIncompleteConnection now pkt)) = None).
    { unfold NewIncompleteConnection. cbn.
      match goal with |- context [if ?b then _ else _] => destruct b end;
        split; reflexivity. }
    destruct Hd0 as [Hd0 Hp0]. rewrite Hd0 in Hd. rewrite Hp0 in Hp.
    exists c'. split; [exact H|]. split; [exact Hd|]. split; [exact Hp|].
    unfold Save, UpdateMeta, bind, get, modify, ret, DataIsComplete. cbn.
    rewrite Hd. reflexivity.
Qed.

(** ** No panic once the entity has a name *)

Lemma hasDomain_same c c' : Entity c' = Entity c -> hasDomain c -> hasDomain c'.
Proof. unfold hasDomain. now intros ->. Qed.

Lemma returns_hasDomain_from_keeps {A : Type} (m : M A) c :
  keeps Entity m -> (exists a c' t, m c = Ok (a, c', t)) ->
  hasDomain c -> returns m c (fun _ c' => hasDomain c').
Proof.
  intros K (a & c' & t & Hm) Hd. exists a, c', t. split; [exact Hm|].
  exact (hasDomain_same c c' (K _ _ _ _ Hm) Hd).
Qed.

Lemma hasDomain_entity c : hasDomain c -> Entity c <> None.
Proof. unfold hasDomain. destruct (Entity c); [discriminate|contradiction]. Qed.

Lemma gatherEntity_named pkt c :
  hasDomain c -> returns (gatherEntity pkt) c (fun _ c' => hasDomain c').
Proof.
  intros Hd. pose proof Hd as Hd'. unfold hasDomain in Hd'.
  unfold returns, gatherEntity, bind, get, ret. cbn.
  destruct (Entity c); [|contradiction]. eexists _, _, _. split; eauto.
Qed.

Lemma gatherPID_named pkt c :
  hasDomain c -> returns (gatherPID pkt) c (fun _ c' => hasDomain c').
Proof.
  intros Hd. unfold returns, gatherPID, bind, get, modify, ret. cbn.
  destruct (PID c =? UndefinedProcessID); cbn; eexists _, _, _;
    (split; [reflexivity|]); exact Hd.
Qed.

Lemma gatherProcess_named pkt c :
  hasDomain c -> returns (gatherProcess pkt) c (fun _ c' => hasDomain c').
Proof.
  intros Hd. unfold returns, gatherProcess, bind, get, modify, emit, ret. cbn.
  destruct (process c); cbn; [eexists _, _, _; split; eauto|].
  destruct (GetProcessWithProfile (PID c)) as [proc err]. cbn.
  destruct err; [destruct (packet.InfoOnly pkt)|]; cbn; eexists _, _, _;
    (split; [reflexivity|]); exact Hd.
Qed.

Lemma UpdateFeatures_named c :
  hasDomain c -> returns UpdateFeatures c (fun _ c' => hasDomain c').
Proof.
  intros Hd. apply returns_hasDomain_from_keeps; auto.
  - apply UpdateFeatures_keeps; intros; reflexivity.
  - apply UpdateFeatures_returns, hasDomain_entity, Hd.
Qed.

Lemma gatherProfile_named c :
  hasDomain c -> returns gatherProfile c (fun _ c' => hasDomain c').
Proof.
  intros Hd. unfold gatherProfile.
  apply returns_bind, returns_get.
  destruct (process c) as [p|] eqn:Hproc; [|now apply returns_ret].
  destruct (ProfileRevisionCounter c =? 0); [|now apply returns_ret].
  apply returns_bind.
  assert (Hctx : exists pCtx t, getProcessContext (Some p) = Ok (pCtx, t)).
  { cbn. destruct (profile.LocalProfile _); eauto. }
  destruct Hctx as (pCtx & t & Hctx).
  exists pCtx, c, t. split; [unfold liftR; now rewrite Hctx|].
  apply returns_bind, returns_modify.
  apply returns_bind, returns_modify.
  destruct (profile.LocalProfile (process.Profile (Some p))) as [lp|];
    [|apply returns_ret; exact Hd].
  apply returns_bind, returns_modify.
  apply returns_bind.
  eapply returns_weaken.
  - apply UpdateFeatures_named. exact Hd.
  - intros err c' Hd'. cbn beta.
    destruct (reportable err); [now apply returns_emit|now apply returns_ret].
Qed.

Lemma gatherDomain_named pkt c :
  hasDomain c -> returns (gatherDomain pkt) c (fun _ c' => hasDomain c').
Proof.
  intros Hd. pose proof Hd as Hd'. unfold hasDomain in Hd'.
  unfold returns, gatherDomain, entityDomainEmpty, bind, get, ret, panic. cbn.
  destruct (Entity c) as [e|]; [|contradiction].
  apply String.eqb_neq in Hd'. rewrite Hd'. cbn.
  destruct (process.Profile (process c)); eexists _, _, _; split; eauto.
Qed.

Lemma gatherCaptivePortal_named pkt c :
  hasDomain c -> returns (gatherCaptivePortal pkt) c (fun _ c' => hasDomain c').
Proof.
  intros Hd. pose proof Hd as Hd'. unfold hasDomain in Hd'.
  unfold returns, gatherCaptivePortal, entityDomainEmpty, bind, get, ret,
    panic. cbn.
  destruct (Entity c) as [e|]; [|contradiction].
  apply String.eqb_neq in Hd'. rewrite Hd'. cbn.
  eexists _, _, _; split; eauto.
Qed.

(** X30: no panic once the entity has a name.  On a connection whose entity
    has a domain, [GatherConnectionInfo] returns for every packet, whatever
    the process resolver, the profiles and the other collaborators answer,
    and the entity still has its domain afterwards. *)
Theorem GatherConnectionInfo_returns_when_named (pkt : packet.Packet)
    (c : Connection) :
  hasDomain c ->
  exists c' t,
    GatherConnectionInfo pkt c = Ok (tt, c', t) /\ hasDomain c'.
Proof.
  intros Hd.
  assert (R : returns (GatherConnectionInfo pkt) c (fun _ c' => hasDomain c')).
  { unfold GatherConnectionInfo.
    apply returns_bind.
    eapply returns_weaken; [apply gatherEntity_named, Hd|].
    intros ? c1 Hd1. cbn beta in *. apply returns_bind.
    eapply returns_weaken; [apply gatherPID_named, Hd1|].
    intros ? c2 Hd2. cbn beta in *.
    destruct (packet.InfoOnly pkt); [now apply returns_ret|].
    apply returns_bind.
    eapply returns_weaken; [apply gatherProcess_named, Hd2|].
    intros ? c3 Hd3. cbn beta in *. apply returns_bind.
    eapply returns_weaken; [apply gatherProfile_named, Hd3|].
    intros ? c4 Hd4. cbn beta in *. apply returns_bind.
    eapply returns_weaken; [apply gatherDomain_named, Hd4|].
    intros ? c5 Hd5. cbn beta in *. apply returns_bind.
    eapply returns_weaken; [apply gatherCaptivePortal_named, Hd5|].
    intros ? c6 Hd6. cbn beta in *.
    apply returns_hasDomain_from_keeps; [block_keeps| |exact Hd6].
    destruct (gatherComplete_returns pkt c6) as (r & c' & t & H & _). eauto. }
  destruct R as ([] & c' & t & HR & Hd'). eauto.
Qed.

End CorrelatorLaws.

Section WorkerLaws.

Context {env : Collaborators}.

Variable callHandler :
  FirewallHandler -> Connection -> packet.Packet -> Connection * list Event.

Variable IsOutbound : packet.Packet -> bool.

(** ** Handling one packet *)

Lemma save_if_marked (c1 c' : Connection) (t : list Event) :
  (if saveWhenFinished c1
   then modify (set_saveWhenFinished false) ;; Save
   else ret tt)%conn c1 = Ok (tt, c', t) ->
  pushes t
  = (if saveWhenFinished c1 && DataIsComplete c1
     then [EvPushUpdate c'] else [])
  /\ (saveWhenFinished c1 = true -> DataIsComplete c1 = false ->
      c' = set_meta (BaseUpdateMeta (meta c1)) (set_saveWhenFinished false c1))
  /\ (saveWhenFinished c1 = false -> c' = c1).
Proof.
  destruct (saveWhenFinished c1) eqn:Hs; cbn [andb].
  - intros H.
    apply bind_Ok in H as ([] & c2 & t2 & t3 & Hm & H & ->).
    inversion Hm; subst c2 t2. clear Hm. cbn [app].
    apply Save_trace in H as (-> & Hinc & _).
    change (DataIsComplete (set_saveWhenFinished false c1))
      with (DataIsComplete c1) in *.
    destruct (DataIsComplete c1).
    + split; [|split; intros; discriminate].
      destruct (KeyIsSet _); [reflexivity|].
      destruct (Type_ _); reflexivity.
    + split; [reflexivity|]. split; [|discriminate].
      intros _ _. exact (Hinc eq_refl).
  - intros H. inversion H; subst. repeat split; discriminate.
Qed.

(** X22: what [packetHandlerHandleConn] pushes when a handler is installed.
    Beyond what the handler pushes itself, the connection is pushed once if
    the handler left [saveWhenFinished] set and the data is complete, and not
    at all otherwise.  A save asked for before the data is complete is lost:
    the mark is cleared and only the metadata is refreshed.  Without the
    mark the connection is as the handler left it. *)
Theorem packetHandlerHandleConn_pushes (tracer : bool) (pkt : packet.Packet)
    (h : FirewallHandler) (c c' : Connection) (t : list Event) :
  firewallHandler c = Some h ->
  packetHandlerHandleConn callHandler tracer pkt c = Ok (tt, c', t) ->
  let c1 := fst (callHandler h c pkt) in
  let th := snd (callHandler h c pkt) in
  pushes t
  = pushes th
    ++ (if saveWhenFinished c1 && DataIsComplete c1
        then [EvPushUpdate c'] else [])
  /\ (saveWhenFinished c1 = true -> DataIsComplete c1 = false ->
      c' = set_meta (BaseUpdateMeta (meta c1)) (set_saveWhenFinished false c1))
  /\ (saveWhenFinished c1 = false -> c' = c1).
Proof.
  intros Hh H. cbv zeta.
  unfold packetHandlerHandleConn in H.
  apply bind_Ok in H as (c0 & c0' & t0 & t0' & Hget & H & ->).
  inversion Hget; subst c0 c0' t0. clear Hget. rewrite Hh in H.
  apply bind_Ok in H as ([] & ca & ta & ta' & Ha & H & ->).
  assert (ca = c /\ pushes ta = []) as [-> Hta]
    by (destruct tracer; inversion Ha; subst; split; reflexivity).
  clear Ha.
  apply bind_Ok in H as ([] & cb & tb & tb' & Hb & H & ->).
  unfold runHandler in Hb.
  destruct (callHandler h c pkt) as [c1 th]. cbn [fst snd].
  inversion Hb; subst cb tb. clear Hb.
  apply bind_Ok in H as ([] & cc & tc & tc' & Hc & H & ->).
  inversion Hc; subst cc tc. clear Hc.
  apply bind_Ok in H as (cd & cd' & td & td' & Hd & H & ->).
  inversion Hd; subst cd cd' td. clear Hd.
  apply bind_Ok in H as ([] & ce & te & te' & He & H & ->).
  assert (ce = c1 /\ pushes te = []) as [-> Hte].
  { destruct (DataIsComplete c1); [|destruct (verdictDecided c1)];
      inversion He; subst; split; reflexivity. }
  clear He.
  apply save_if_marked in H as (Hp & Hlost & Hsame).
  split; [|split; assumption].
  unfold pushes in *. rewrite !filter_app, Hta, Hte, Hp. reflexivity.
Qed.

(** ** The loop of the worker *)

Lemma workerTurn_handled st pkt next :
  snd (workerTurn IsOutbound st pkt next) = [pkt]
  \/ exists infoPkt,
       next = Received (Some infoPkt)
       /\ snd (workerTurn IsOutbound st pkt next) = [infoPkt; pkt].
Proof.
  unfold workerTurn.
  destruct (1 <? wrap64 (pktSeq st + 1)); [now left|].
  destruct (packet.InfoOnly pkt); [now left|].
  destruct (_ || _); [|now left].
  destruct next as [|[infoPkt|]]; [now left| |now left].
  right. exists infoPkt. split; reflexivity.
Qed.

Lemma workerTurn_flag st pkt next :
  infoOnlyPacketsActive st = true ->
  infoOnlyPacketsActive (fst (workerTurn IsOutbound st pkt next)) = true.
Proof.
  intros Hf. unfold workerTurn. rewrite Hf.
  destruct (1 <? wrap64 (pktSeq st + 1)); [reflexivity|].
  destruct (packet.InfoOnly pkt); [reflexivity|].
  destruct (_ || _); [|reflexivity].
  destruct next as [|[infoPkt|]]; reflexivity.
Qed.

Lemma workerLoop_cons inTime st pkt behind rest :
  workerLoop IsOutbound inTime st (pkt :: behind :: rest)
  = let next :=
      if inTime (wrap64 (pktSeq st + 1))
      then Received (Some behind) else Timeout in
    let (st1, handled) := workerTurn IsOutbound st pkt next in
    match handled with
    | [_; _] =>
        let (st2, l) := workerLoop IsOutbound inTime st1 rest in
        (st2, handled ++ l)
    | _ =>
        let (st2, l) := workerLoop IsOutbound inTime st1 (behind :: rest) in
        (st2, handled ++ l)
    end.
Proof. reflexivity. Qed.

(** The two ways a turn with a packet behind can go. *)
Lemma workerLoop_step inTime st pkt behind rest :
  (exists st1,
     workerLoop IsOutbound inTime st (pkt :: behind :: rest)
     = (fst (workerLoop IsOutbound inTime st1 (behind :: rest)),
        pkt :: snd (workerLoop IsOutbound inTime st1 (behind :: rest)))
     /\ (infoOnlyPacketsActive st = true -> infoOnlyPacketsActive st1 = true))
  \/ (exists st1,
     workerLoop IsOutbound inTime st (pkt :: behind :: rest)
     = (fst (workerLoop IsOutbound inTime st1 rest),
        behind :: pkt :: snd (workerLoop IsOutbound inTime st1 rest))
     /\ (infoOnlyPacketsActive st = true -> infoOnlyPacketsActive st1 = true)).
Proof.
  rewrite workerLoop_cons. cbv zeta.
  set (next := if inTime (wrap64 (pktSeq st + 1))
               then Received (Some behind) else Timeout).
  pose proof (workerTurn_handled st pkt next) as Hh.
  pose proof (workerTurn_flag st pkt next) as Hf.
  destruct (workerTurn IsOutbound st pkt next) as [st1 handled].
  cbn [fst snd] in *.
  destruct Hh as [->|(infoPkt & Hnext & ->)].
  - left. exists st1. split; [|exact Hf].
    destruct (workerLoop IsOutbound inTime st1 (behind :: rest)); reflexivity.
  - right. exists st1. split; [|exact Hf].
    assert (infoPkt = behind) as ->.
    { unfold next in Hnext. destruct (inTime _); [|discriminate].
      now inversion Hnext. }
    destruct (workerLoop IsOutbound inTime st1 rest); reflexivity.
Qed.

Lemma workerLoop_single inTime st pkt :
  snd (workerLoop IsOutbound inTime st [pkt]) = [pkt]
  /\ (infoOnlyPacketsActive st = true ->
      infoOnlyPacketsActive (fst (workerLoop IsOutbound inTime st [pkt])) = true).
Proof.
  cbn [workerLoop].
  pose proof (workerTurn_handled st pkt Timeout) as Hh.
  pose proof (workerTurn_flag st pkt Timeout) as Hf.
  destruct (workerTurn IsOutbound st pkt Timeout) as [st1 handled].
  cbn [fst snd] in *. split; [|exact Hf].
  destruct Hh as [->|(infoPkt & Hnext & _)]; [reflexivity|discriminate].
Qed.

Lemma workerLoop_invariants inTime (n : nat) :
  forall st pkts,
    (length pkts <= n)%nat ->
    Permutation (snd (workerLoop IsOutbound inTime st pkts)) pkts
    /\ (infoOnlyPacketsActive st = true ->
        infoOnlyPacketsActive (fst (workerLoop IsOutbound inTime st pkts))
        = true).
Proof.
  induction n as [|n IH]; intros st pkts Hlen.
  - destruct pkts; [|cbn in Hlen; lia]. split; [constructor|auto].
  - destruct pkts as [|pkt [|behind rest]].
    + split; [constructor|auto].
    + destruct (workerLoop_single inTime st pkt) as [-> Hf].
      split; [apply Permutation_refl|exact Hf].
    + destruct (workerLoop_step inTime st pkt behind rest)
        as [(st1 & -> & Hf)|(st1 & -> & Hf)]; cbn [fst snd].
      * destruct (IH st1 (behind :: rest)) as [Hp Hf']; [cbn in *; lia|].
        split; [now constructor|auto].
      * destruct (IH st1 rest) as [Hp Hf']; [cbn in *; lia|].
        split; [|auto].
        eapply Permutation_trans; [apply perm_swap|]. now do 2 constructor.
Qed.

(** X23: the worker loses nothing and repeats nothing.  Whatever the packets
    and the timing, the packets it hands to the handler are exactly the
    packets it received, each once, in some order; and the process-wide flag
    [infoOnlyPacketsActive], once set, is never cleared by it. *)
Theorem workerLoop_handles_each_once (inTime : Z -> bool) (st : WorkerState)
    (pkts : list packet.Packet) :
  Permutation (snd (workerLoop IsOutbound inTime st pkts)) pkts
  /\ (infoOnlyPacketsActive st = true ->
      infoOnlyPacketsActive (fst (workerLoop IsOutbound inTime st pkts))
      = true).
Proof. exact (workerLoop_invariants inTime (length pkts) st pkts (le_n _)). Qed.

Lemma workerTurn_later st pkt next :
  1 <= pktSeq st < max_int64 ->
  workerTurn IsOutbound st pkt next
  = (mkWorkerState (pktSeq st + 1) (infoOnlyPacketsActive st), [pkt]).
Proof.
  intros Hseq. unfold workerTurn.
  rewrite wrap64_small
    by (unfold in_int64, min_int64, max_int64 in *; lia).
  destruct (1 <? pktSeq st + 1) eqn:E; [reflexivity|].
  apply Z.ltb_ge in E. lia.
Qed.

Lemma workerLoop_later inTime (pkts : list packet.Packet) :
  forall st,
    1 <= pktSeq st ->
    pktSeq st + Z.of_nat (length pkts) <= max_int64 ->
    workerLoop IsOutbound inTime st pkts
    = (mkWorkerState (pktSeq st + Z.of_nat (length pkts))
         (infoOnlyPacketsActive st), pkts).
Proof.
  induction pkts as [|pkt pkts IH]; intros st Hseq Hmax.
  - cbn. rewrite Z.add_0_r. destruct st; reflexivity.
  - destruct pkts as [|behind rest].
    + cbn [workerLoop]. rewrite workerTurn_later by (cbn [length] in Hmax; lia).
      cbn [length]. reflexivity.
    + rewrite workerLoop_cons. cbv zeta.
      rewrite workerTurn_later by (cbn [length] in Hmax; lia).
      rewrite IH by (cbn [pktSeq length] in *; lia).
      cbn [pktSeq infoOnlyPacketsActive app]. f_equal. f_equal.
      cbn [length]. lia.
Qed.

(** X24: the order in which a new worker handles its packets.  Only the
    first two can change places: the second is handled before the first
    exactly when the first is not info-only, it expects an info packet or
    info-only packets are known to be active and it is outbound, and the
    second arrives within the millisecond (whether or not the second is
    info-only).  Every other packet is handled in the order received.  The
    flag ends up set if it was set or the first packet is info-only, and the
    sequence counter counts the packets. *)
Theorem fresh_worker_order (inTime : Z -> bool) (active : bool)
    (pkts : list packet.Packet) :
  Z.of_nat (length pkts) <= max_int64 ->
  let done := workerLoop IsOutbound inTime (mkWorkerState 0 active) pkts in
  snd done
  = match pkts with
    | first :: second :: rest =>
        if pullsForward IsOutbound inTime active first
        then second :: first :: rest
        else pkts
    | _ => pkts
    end
  /\ infoOnlyPacketsActive (fst done)
     = active || match pkts with
                 | first :: _ => packet.InfoOnly first
                 | [] => false
                 end
  /\ pktSeq (fst done) = Z.of_nat (length pkts).
Proof.
  intros Hmax. cbv zeta.
  assert (Hmax63 : 4 <= max_int64) by (unfold max_int64; lia).
  destruct pkts as [|first [|second rest]].
  - cbn. now rewrite orb_false_r.
  - cbn [workerLoop]. unfold workerTurn. cbn.
    destruct (packet.InfoOnly first); cbn;
      [now rewrite orb_true_r|rewrite orb_false_r].
    destruct (_ || _); cbn; auto.
  - rewrite workerLoop_cons. cbv zeta. unfold workerTurn, pullsForward.
    cbn [pktSeq infoOnlyPacketsActive].
    change (wrap64 (0 + 1)) with 1. change (1 <? 1) with false. cbv iota.
    destruct (packet.InfoOnly first); cbn [negb andb].
    + rewrite workerLoop_later by (cbn [pktSeq length] in *; lia).
      cbn [fst snd app pktSeq infoOnlyPacketsActive].
      rewrite orb_true_r. repeat split. cbn [length]. lia.
    + destruct (packet.ExpectInfo first || active && IsOutbound first);
        cbn [andb].
      * destruct (inTime 1).
        -- change (wrap64 (1 + 1)) with 2.
           rewrite workerLoop_later by (cbn [pktSeq length] in *; lia).
           cbn [fst snd app pktSeq infoOnlyPacketsActive].
           rewrite orb_false_r. repeat split. cbn [length]. lia.
        -- rewrite workerLoop_later by (cbn [pktSeq length] in *; lia).
           cbn [fst snd app pktSeq infoOnlyPacketsActive].
           rewrite orb_false_r. repeat split. cbn [length]. lia.
      * destruct (inTime 1);
          rewrite workerLoop_later by (cbn [pktSeq length] in *; lia);
          cbn [fst snd app pktSeq infoOnlyPacketsActive];
          rewrite orb_false_r; repeat split; cbn [length]; lia.
Qed.

End WorkerLaws.

Section SyncLaws.

(** ** Export and import *)

Variables Export Data LibErr : Type.
Variable MimeDump : Export -> string -> (Data * string * sync.Format) + LibErr.
Variable AddJSONChecksum : Data -> Data + LibErr.
Variable AddYAMLChecksum : Data -> Data + LibErr.
Variable MimeLoad : string -> string -> (sync.Format * Export) + LibErr.
Variable VerifyJSONChecksum : string -> option LibErr.
Variable VerifyYAMLChecksum : string -> option LibErr.
Variable isChecksumMissing : LibErr -> bool.

#[local] Abbreviation serialize :=
  (sync.serializeExport Export Data LibErr MimeDump AddJSONChecksum
     AddYAMLChecksum).

#[local] Abbreviation parse :=
  (sync.parseExport Export LibErr MimeLoad VerifyJSONChecksum
     VerifyYAMLChecksum isChecksumMissing).


(** X26: what [serializeExport] answers.  The Accept header is never
    changed.  The Content-Type of the response is the dumped MIME type as
    soon as the dump succeeds, also when the call then fails, and is left
    alone when the dump fails.  Data comes back only for a JSON or YAML dump,
    and then it is the dumped data with the checksum of that format added. *)
Theorem serializeExport_answers (export : Export) (ar : sync.Request) :
  sync.Accept (fst (serialize export ar)) = sync.Accept ar
  /\ (forall data mimeType format,
       MimeDump export (sync.Accept ar) = inl (data, mimeType, format) ->
       sync.ContentType (fst (serialize export ar)) = Some mimeType)
  /\ (forall err,
       MimeDump export (sync.Accept ar) = inr err ->
       serialize export ar = (ar, inr (sync.FailedToSerialize LibErr err)))
  /\ (forall signed,
       snd (serialize export ar) = inl signed ->
       exists data mimeType format,
         MimeDump export (sync.Accept ar) = inl (data, mimeType, format)
         /\ ((format = sync.JSON /\ AddJSONChecksum data = inl signed)
             \/ (format = sync.YAML /\ AddYAMLChecksum data = inl signed))).
Proof.
  unfold sync.serializeExport.
  destruct (MimeDump export (sync.Accept ar)) as [[[data mimeType] format]|err].
  - split; [|split; [|split]].
    + destruct format; cbn;
        try destruct (AddJSONChecksum data);
        try destruct (AddYAMLChecksum data); reflexivity.
    + intros d m f E. inversion E; subst.
      destruct f; cbn;
        try destruct (AddJSONChecksum d);
        try destruct (AddYAMLChecksum d); reflexivity.
    + intros err E. discriminate.
    + intros signed. exists data, mimeType, format. split; [reflexivity|].
      destruct format; cbn in *.
      * destruct (AddJSONChecksum data); [|discriminate].
        left. split; [reflexivity|]. cbn in H. congruence.
      * destruct (AddYAMLChecksum data); [|discriminate].
        right. split; [reflexivity|]. cbn in H. congruence.
      * discriminate.
  - split; [reflexivity|]. split; [intros; discriminate|].
    split; [intros e E; now inversion E|]. intros signed H. discriminate.
Qed.

End SyncLaws.


(** ** The further properties at concrete inputs *)

Lemma demoConn_detached : detached demoConn.
Proof. repeat split. Defined.

Lemma attach_detach_roundtrip_witness :
  (SetFirewallHandler (Some 1%nat) ;;
   StopFirewallHandler)%conn demoConn
  = Ok (tt, demoConn,
        [EvStartWorker "packet handler"; EvClose (mkChan 100 [] false)]).
Proof.
  exact (attach_detach_roundtrip 1%nat demoConn
           demoConn_detached).
Defined.

Lemma StopFirewallHandler_detaches_witness :
  exists c' t,
    StopFirewallHandler demoAttached = Ok (tt, c', t)
    /\ detached c'
    /\ c' = set_pktQueue None
              (set_pktQueueActive false (set_firewallHandler None demoAttached))
    /\ t = match pktQueue demoAttached with
           | Some ch => [EvClose ch]
           | None => []
           end
    /\ StopFirewallHandler c' = Ok (tt, c', []).
Proof.
  exact (StopFirewallHandler_detaches (env := demoEnv) demoAttached
           demoAttached_Reachable).
Defined.

Lemma handleAll_fills_then_drops_witness :
  exists c',
    handleAll (env := demoEnv) (repeat demoPacket 3) demoAttached
    = Ok (c', flat_map dropTrace
                (skipn (100 - length (queued demoAttached)) (repeat demoPacket 3)))
    /\ queued c'
       = queued demoAttached
         ++ firstn (100 - length (queued demoAttached)) (repeat demoPacket 3)
    /\ pktQueueActive c' = true
    /\ c' = set_pktQueue (pktQueue c') demoAttached.
Proof.
  exact (handleAll_fills_then_drops (env := demoEnv) (repeat demoPacket 3)
           demoAttached demoAttached_Reachable eq_refl).
Defined.

Lemma queue_is_fifo_witness :
  exists c1,
    handleAll (env := demoEnv) [demoPacket; stalePacket] demoAttached
    = Ok (c1, [])
    /\ queued c1 = [demoPacket; stalePacket]
    /\ drain 2 c1 = ([demoPacket; stalePacket], demoAttached).
Proof.
  apply (queue_is_fifo (env := demoEnv) [demoPacket; stalePacket] demoAttached
           demoAttached_Reachable eq_refl eq_refl).
  cbn. lia.
Defined.

Lemma call_absorbs_witness :
  call (CallBlock "blocked" "filter/defaultAction")
    (call (CallAccept "accepted" "") demoConn)
  = call (CallBlock "blocked" "filter/defaultAction") demoConn.
Proof.
  exact (call_absorbs (CallAccept "accepted" "")
           (CallBlock "blocked" "filter/defaultAction") demoConn eq_refl).
Defined.

Lemma demo_gather_run :
  GatherConnectionInfo (env := demoEnv) demoPacket demoConn
  = Ok (tt, demoGathered,
        traced (GatherConnectionInfo (env := demoEnv) demoPacket) demoConn).
Proof. vm_compute. reflexivity. Defined.

Lemma demo_gather_again :
  GatherConnectionInfo (env := demoEnv) demoPacket demoGathered
  = Ok (tt, ran (GatherConnectionInfo (env := demoEnv) demoPacket) demoGathered,
        traced (GatherConnectionInfo (env := demoEnv) demoPacket) demoGathered).
Proof. vm_compute. reflexivity. Defined.

Lemma demo_gather_named :
  GatherConnectionInfo (env := demoEnv) demoPacket demoNamed
  = Ok (tt, ran (GatherConnectionInfo (env := demoEnv) demoPacket) demoNamed,
        traced (GatherConnectionInfo (env := demoEnv) demoPacket) demoNamed).
Proof. vm_compute. reflexivity. Defined.

Lemma DataIsComplete_stays_witness :
  DataIsComplete demoGathered = true
  /\ forall k, DataIsComplete (call k demoGathered) = true.
Proof.
  split; [reflexivity|].
  exact (proj1 (proj2 (proj2
           (DataIsComplete_stays (env := demoEnv) demoGathered eq_refl)))).
Defined.

Lemma GatherConnectionInfo_info_only_witness :
  exists c',
    GatherConnectionInfo (env := demoEnv) infoOnlyPacket demoConn
    = Ok (tt, c', [])
    /\ process c' = process demoConn
    /\ ProcessContext c' = ProcessContext demoConn
    /\ ProfileRevisionCounter c' = ProfileRevisionCounter demoConn
    /\ Internal c' = Internal demoConn
    /\ HistoryEnabled c' = HistoryEnabled demoConn
    /\ BandwidthEnabled c' = BandwidthEnabled demoConn
    /\ DataIsComplete c' = DataIsComplete demoConn.
Proof.
  exact (GatherConnectionInfo_info_only (env := demoEnv) infoOnlyPacket
           demoConn eq_refl).
Defined.

Lemma GatherConnectionInfo_keeps_known_PID_witness :
  PID demoGathered = PID demoConn /\ Inbound demoGathered = Inbound demoConn.
Proof.
  refine (GatherConnectionInfo_keeps_known_PID (env := demoEnv) demoPacket
            demoConn demoGathered _ _ demo_gather_run).
  vm_compute. discriminate.
Defined.

Lemma GatherConnectionInfo_keeps_process_witness :
  process (ran (GatherConnectionInfo (env := demoEnv) demoPacket) demoGathered)
  = Some demoProcess.
Proof.
  exact (GatherConnectionInfo_keeps_process (env := demoEnv) demoPacket
           demoGathered _ _ demoProcess eq_refl demo_gather_again).
Defined.

Lemma GatherConnectionInfo_captures_once_witness :
  let c' := ran (GatherConnectionInfo (env := demoEnv) demoPacket) demoGathered in
  ProcessContext c' = ProcessContext demoGathered
  /\ ProfileRevisionCounter c' = ProfileRevisionCounter demoGathered
  /\ Internal c' = Internal demoGathered
  /\ HistoryEnabled c' = HistoryEnabled demoGathered
  /\ BandwidthEnabled c' = BandwidthEnabled demoGathered.
Proof.
  refine (GatherConnectionInfo_captures_once (env := demoEnv) demoPacket
            demoGathered _ _ _ demo_gather_again).
  vm_compute. discriminate.
Defined.

Lemma demoNamed_hasDomain : hasDomain demoNamed.
Proof. cbn. discriminate. Defined.

Lemma GatherConnectionInfo_keeps_domain_witness :
  let c' := ran (GatherConnectionInfo (env := demoEnv) demoPacket) demoNamed in
  Entity c' = Entity demoNamed
  /\ Scope c' = Scope demoNamed
  /\ DNSContext c' = DNSContext demoNamed
  /\ Resolver c' = Resolver demoNamed
  /\ LocalIP c' = LocalIP demoNamed
  /\ LocalIPScope c' = LocalIPScope demoNamed
  /\ LocalPort c' = LocalPort demoNamed.
Proof.
  exact (GatherConnectionInfo_keeps_domain (env := demoEnv) demoPacket
           demoNamed _ _ demoNamed_hasDomain demo_gather_named).
Defined.

Lemma GatherConnectionInfo_entity_witness :
  Entity demoGathered <> None /\ sameEndpoints demoConn demoGathered.
Proof.
  exact (GatherConnectionInfo_entity (env := demoEnv) demoPacket demoConn
           demoGathered _ demo_gather_run).
Defined.

Lemma GatherConnectionInfo_is_internal_witness :
  let t := traced (GatherConnectionInfo (env := demoEnv) demoPacket) demoConn in
  Forall internal_event t /\ pushes t = [] /\ filter is_registry_add t = [].
Proof.
  exact (GatherConnectionInfo_is_internal (env := demoEnv) demoPacket demoConn
           demoGathered _ demo_gather_run).
Defined.

Lemma GatherConnectionInfo_context_of_process_witness :
  exists t0,
    getProcessContext (process demoGathered)
    = Ok (ProcessContext demoGathered, t0).
Proof.
  refine (GatherConnectionInfo_context_of_process (env := demoEnv) demoPacket
            demoConn demoGathered _ eq_refl eq_refl demo_gather_run _).
  vm_compute. discriminate.
Defined.

Lemma NewConnectionFromDNSRequest_result_witness :
  let c := fst demoDNSRequest in
  Type_ c = DNSRequest /\ ID c = "dns-2" /\ Scope c = "a.example."
  /\ Started c = 1700000010 /\ Ended c = 1700000010
  /\ DataIsComplete c = true /\ Inbound c = false /\ External c = false
  /\ KeyIsSet c = false
  /\ Entity c = Some (intel.mkEntity [] 0 0 "a.example." [] netutils.Global)
  /\ (exists p, process c = Some p /\ PID c = process.Pid p)
  /\ Forall internal_event (snd demoDNSRequest).
Proof.
  apply (NewConnectionFromDNSRequest_result
           (env := demoEnvWith (fun _ => Some (demoDonor 0)))
           1700000010 1700000010 "a.example." [] "dns-2" [] 55000).
  vm_compute. reflexivity.
Defined.

Lemma Save_registers_once_witness :
  let c1 := ran (Save (env := demoEnv)) demoGathered in
  filter is_registry_add (traced (Save (env := demoEnv)) c1) = []
  /\ (length (filter is_registry_add
                (traced (Save (env := demoEnv)) demoGathered
                 ++ traced (Save (env := demoEnv)) c1)) <= 1)%nat.
Proof.
  apply (Save_registers_once (env := demoEnv) demoGathered
           (ran (Save (env := demoEnv)) demoGathered)
           (ran (Save (env := demoEnv))
              (ran (Save (env := demoEnv)) demoGathered))).
  - intros x. reflexivity.
  - vm_compute. reflexivity.
  - vm_compute. reflexivity.
Defined.

Lemma packetHandlerHandleConn_pushes_witness :
  let run := packetHandlerHandleConn (env := demoEnv) acceptAndSave true
               demoPacket in
  let c1 := fst (acceptAndSave 1%nat demoAttached demoPacket) in
  pushes (traced run demoAttached)
  = pushes (snd (acceptAndSave 1%nat demoAttached demoPacket))
    ++ (if saveWhenFinished c1 && DataIsComplete c1
        then [EvPushUpdate (ran run demoAttached)] else [])
  /\ (saveWhenFinished c1 = true -> DataIsComplete c1 = false ->
      ran run demoAttached
      = set_meta (BaseUpdateMeta (Collaborators := demoEnv) (meta c1))
          (set_saveWhenFinished false c1))
  /\ (saveWhenFinished c1 = false -> ran run demoAttached = c1).
Proof.
  apply (packetHandlerHandleConn_pushes (env := demoEnv) acceptAndSave true
           demoPacket 1%nat demoAttached).
  - reflexivity.
  - vm_compute. reflexivity.
Defined.

Lemma fresh_worker_order_witness :
  let isOutbound := fun pkt => negb (packet.Inbound (packet.GetInfo pkt)) in
  let done := workerLoop isOutbound (fun _ => true) (mkWorkerState 0 false)
                [expectInfoPacket; infoOnlyPacket; demoPacket] in
  snd done = [infoOnlyPacket; expectInfoPacket; demoPacket]
  /\ infoOnlyPacketsActive (fst done) = false
  /\ pktSeq (fst done) = 3.
Proof.
  apply (fresh_worker_order
           (fun pkt => negb (packet.Inbound (packet.GetInfo pkt)))
           (fun _ => true) false
           [expectInfoPacket; infoOnlyPacket; demoPacket]).
  unfold max_int64. cbn. lia.
Defined.

Lemma demoNamed_scope : scopeFollowsDomain demoNamed.
Proof. right. reflexivity. Defined.

Lemma GatherConnectionInfo_scope_follows_domain_witness :
  scopeFollowsDomain
    (ran (GatherConnectionInfo (env := demoEnv) demoPacket) demoNamed).
Proof.
  exact (GatherConnectionInfo_scope_follows_domain (env := demoEnv) demoPacket
           demoNamed _ _ demoNamed_scope demo_gather_named).
Defined.

Lemma GatherConnectionInfo_names_portal_witness :
  hasDomain (ran (GatherConnectionInfo (env := portalEnv) demoPacket) demoConn).
Proof.
  apply (GatherConnectionInfo_names_portal (env := portalEnv) demoPacket
           demoConn _
           (traced (GatherConnectionInfo (env := portalEnv) demoPacket) demoConn)).
  - reflexivity.
  - reflexivity.
  - discriminate.
  - vm_compute. reflexivity.
Defined.

Lemma info_only_packets_stay_hidden_witness :
  snd (NewIncompleteConnection (env := demoEnv) 1700000001 demoPacket)
  = [EvConnsAdd (packet.GetConnectionID demoPacket)]
  /\ exists c',
       gatherAll (env := demoEnv) [infoOnlyPacket; infoOnlyPacket]
         (fst (NewIncompleteConnection (env := demoEnv) 1700000001 demoPacket))
       = Ok (tt, c', [])
       /\ DataIsComplete c' = false
       /\ process c' = None
       /\ Save (env := demoEnv) c'
          = Ok (tt, set_meta (BaseUpdateMeta (Collaborators := demoEnv) (meta c'))
                      c', []).
Proof.
  apply (info_only_packets_stay_hidden (env := demoEnv) 1700000001 demoPacket
           [infoOnlyPacket; infoOnlyPacket]).
  repeat constructor.
Defined.

Lemma GatherConnectionInfo_returns_when_named_witness :
  exists c' t,
    GatherConnectionInfo (env := demoEnv) infoOnlyPacket demoNamed
    = Ok (tt, c', t)
    /\ hasDomain c'.
Proof.
  exact (GatherConnectionInfo_returns_when_named (env := demoEnv)
           infoOnlyPacket demoNamed demoNamed_hasDomain).
Defined.
